(** * Cluster lifecycle commands of the autoscaler ([ray/autoscaler/commands.py])

    A shallow embedding of the command layer: config resolution with its
    on-disk cache, head-node reconciliation, the teardown convergence loop,
    remote exec and rsync.  Everything the module calls but does not define
    (the node provider, the updater and its command runner, the clock, the
    random generator, the operator at the prompt) is an interface; the
    module's own control flow is translated statement by statement into a
    state-and-exception monad that also keeps the trace of the calls made.

    Logging and console output are not modelled. *)

From Stdlib Require Import ZArith Lia.
From stdpp Require Import base option gmap strings list pretty.

Local Open Scope string_scope.
Local Open Scope Z_scope.

(** ** Data model *)

Abbreviation node_id := string (only parsing).
Abbreviation tag_map := (gmap string string) (only parsing).
Abbreviation launch_spec := (gmap string string) (only parsing).

(** Modelled from the spec: the tag keys "role", "launch_hash" and "name" and
    the two roles; the module [ray.autoscaler.tags] that defines the constants
    is not part of the sources. *)
Definition TAG_RAY_NODE_TYPE : string := "ray-node-type".
Definition TAG_RAY_LAUNCH_CONFIG : string := "ray-launch-config".
Definition TAG_RAY_NODE_NAME : string := "ray-node-name".
Definition NODE_TYPE_WORKER : string := "worker".
Definition NODE_TYPE_HEAD : string := "head".

Definition RUN_ENV_TYPES : list string := ["auto"; "host"; "docker"].

(** [config["provider"]]: the fields the commands read. *)
Record ProviderConfig := {
  provider_type : string;
  use_internal_ips : bool;
}.

(** The cluster config dict, with the keys the commands read or write.
    [min_workers] is optional ([config.get("min_workers", 0)]), [docker] as
    well ([config.get("docker")]); [no_restart] only exists in the copy that
    is shipped to the head node. *)
Record Config := {
  cluster_name : string;
  provider : ProviderConfig;
  auth : gmap string string;
  head_node : launch_spec;
  worker_nodes : launch_spec;
  file_mounts : gmap string string;
  initialization_commands : list string;
  head_setup_commands : list string;
  head_start_ray_commands : list string;
  min_workers : option Z;
  max_workers : option Z;
  docker : option string;
  no_restart : option bool;
}.

Definition set_cluster_name (v : string) (c : Config) : Config :=
  {| cluster_name := v; provider := provider c; auth := auth c;
     head_node := head_node c; worker_nodes := worker_nodes c;
     file_mounts := file_mounts c;
     initialization_commands := initialization_commands c;
     head_setup_commands := head_setup_commands c;
     head_start_ray_commands := head_start_ray_commands c;
     min_workers := min_workers c; max_workers := max_workers c;
     docker := docker c; no_restart := no_restart c |}.

Definition set_auth (v : gmap string string) (c : Config) : Config :=
  {| cluster_name := cluster_name c; provider := provider c; auth := v;
     head_node := head_node c; worker_nodes := worker_nodes c;
     file_mounts := file_mounts c;
     initialization_commands := initialization_commands c;
     head_setup_commands := head_setup_commands c;
     head_start_ray_commands := head_start_ray_commands c;
     min_workers := min_workers c; max_workers := max_workers c;
     docker := docker c; no_restart := no_restart c |}.

Definition set_file_mounts (v : gmap string string) (c : Config) : Config :=
  {| cluster_name := cluster_name c; provider := provider c; auth := auth c;
     head_node := head_node c; worker_nodes := worker_nodes c;
     file_mounts := v;
     initialization_commands := initialization_commands c;
     head_setup_commands := head_setup_commands c;
     head_start_ray_commands := head_start_ray_commands c;
     min_workers := min_workers c; max_workers := max_workers c;
     docker := docker c; no_restart := no_restart c |}.

Definition set_min_workers (v : option Z) (c : Config) : Config :=
  {| cluster_name := cluster_name c; provider := provider c; auth := auth c;
     head_node := head_node c; worker_nodes := worker_nodes c;
     file_mounts := file_mounts c;
     initialization_commands := initialization_commands c;
     head_setup_commands := head_setup_commands c;
     head_start_ray_commands := head_start_ray_commands c;
     min_workers := v; max_workers := max_workers c;
     docker := docker c; no_restart := no_restart c |}.

Definition set_max_workers (v : option Z) (c : Config) : Config :=
  {| cluster_name := cluster_name c; provider := provider c; auth := auth c;
     head_node := head_node c; worker_nodes := worker_nodes c;
     file_mounts := file_mounts c;
     initialization_commands := initialization_commands c;
     head_setup_commands := head_setup_commands c;
     head_start_ray_commands := head_start_ray_commands c;
     min_workers := min_workers c; max_workers := v;
     docker := docker c; no_restart := no_restart c |}.

Definition set_no_restart (v : option bool) (c : Config) : Config :=
  {| cluster_name := cluster_name c; provider := provider c; auth := auth c;
     head_node := head_node c; worker_nodes := worker_nodes c;
     file_mounts := file_mounts c;
     initialization_commands := initialization_commands c;
     head_setup_commands := head_setup_commands c;
     head_start_ray_commands := head_start_ray_commands c;
     min_workers := min_workers c; max_workers := max_workers c;
     docker := docker c; no_restart := v |}.

(** The keyword arguments of [NodeUpdaterThread(...)] (the [provider]
    handle apart). *)
Record UpdaterArgs := {
  upd_node_id : node_id;
  upd_provider_config : ProviderConfig;
  upd_auth_config : gmap string string;
  upd_cluster_name : string;
  upd_file_mounts : gmap string string;
  upd_initialization_commands : list string;
  upd_setup_commands : list string;
  upd_ray_start_commands : list string;
  upd_runtime_hash : string;
  upd_docker_config : option string;
}.

(** The arguments of [updater.cmd_runner.run(...)]; [run_cmd] is [None] when
    the caller passed [cmd=None]. *)
Record RunArgs := {
  run_cmd : option string;
  run_exit_on_fail : bool;
  run_port_forward : option (list Z);
  run_with_output : bool;
  run_run_env : string;
}.

(** Python exceptions that the commands raise or let through. *)
Inductive exn :=
| Abort                               (* click.confirm(..., abort=True) declined *)
| RuntimeError (msg : string)
| AssertionError (msg : string)
| ValueError (msg : string)
| KeyError (key : string)
| NotImplementedError (msg : string)
| JSONDecodeError
| YAMLError
| FileNotFoundError (path : string)
| InvalidConfig                       (* raised by validate_config *)
| SystemExit (code : Z).

(** [except Exception] catches everything here but [SystemExit]. *)
Definition is_Exception (e : exn) : bool :=
  match e with SystemExit _ => false | _ => true end.

(** Python truthiness of an optional string, a string and a list. *)
Definition truthy (s : option string) : bool :=
  match s with Some (String _ _) => true | _ => false end.

Definition nonempty_str (s : string) : bool :=
  match s with String _ _ => true | EmptyString => false end.

Definition nonempty {A} (l : list A) : bool :=
  match l with [] => false | _ :: _ => true end.

(** ** What the module calls but does not define *)

(** The pure helpers imported from [ray.autoscaler.util], [json], [yaml],
    [hashlib], [tempfile], [shlex] and [os.path].  [json_loads] and
    [yaml_safe_load] answer [None] where the Python functions raise;
    [NODE_PROVIDERS] tells whether the provider type has an importer;
    [format_provider p] is ["{}".format(p)] for the provider section [p];
    [config_digest c] is
    [sha1(json.dumps([c], sort_keys=True).encode("utf-8")).hexdigest()]. *)
Class Externals := {
  hash_launch_conf : launch_spec -> gmap string string -> string;
  hash_runtime_conf : gmap string string -> Config -> string;
  prepare_config : Config -> Config;
  validate_config : Config -> bool;
  NODE_PROVIDERS : string -> bool;
  format_provider : ProviderConfig -> string;
  json_dumps : Config -> string;
  json_loads : string -> option Config;
  yaml_safe_load : string -> option Config;
  config_digest : Config -> string;
  gettempdir : string;
  path_join : string -> string -> string;
  quote : string -> string;
}.

(** The calls the commands make, with the value each one returned. *)
Inductive event :=
| get_node_provider_ev (pc : ProviderConfig) (name : string)
| non_terminated_nodes_ev (tag_filters : tag_map) (res : list node_id)
| node_tags_ev (n : node_id) (res : tag_map)
| create_node_ev (spec : launch_spec) (tags : tag_map) (count : nat)
| terminate_node_ev (n : node_id)
| terminate_nodes_ev (ns : list node_id)
| set_node_tags_ev (n : node_id) (tags : tag_map)
| internal_ip_ev (n : node_id) (res : string)
| external_ip_ev (n : node_id) (res : string)
| cleanup_ev
| validate_config_ev (c : Config) (ok : bool)
| bootstrap_config_ev (c : Config) (res : Config)
| time_ev (t : Z)
| sleep_ev (secs : Z)
| sample_ev (population : list node_id) (k : nat) (res : list node_id)
| confirm_ev (msg : string) (answer : bool)
| tempfile_ev (name : string)
| updater_ev (a : UpdaterArgs) (exitcode : Z)
| shutdown_after_next_cmd_ev (a : UpdaterArgs)
| run_ev (a : UpdaterArgs) (r : RunArgs) (res : string)
| rsync_ev (a : UpdaterArgs) (down : bool) (source target : string)
| sync_file_mounts_ev (a : UpdaterArgs) (down : bool)
| read_ev (path : string)
| write_ev (path : string) (contents : string).

(** The stateful collaborators, as transitions of one environment [E]: the
    node provider behind [get_node_provider], the clock, [random.sample],
    the operator answering [click.confirm], [tempfile.NamedTemporaryFile],
    and the updater thread with its command runner.  A call may change the
    environment in any way (time passes, nodes come and go). *)
Class Environment (E : Type) := {
  env_get_node_provider : ProviderConfig -> string -> E -> E;
  env_non_terminated_nodes : tag_map -> E -> list node_id * E;
  env_node_tags : node_id -> E -> tag_map * E;
  env_create_node : launch_spec -> tag_map -> nat -> E -> E;
  env_terminate_node : node_id -> E -> E;
  env_terminate_nodes : list node_id -> E -> E;
  env_set_node_tags : node_id -> tag_map -> E -> E;
  env_internal_ip : node_id -> E -> string * E;
  env_external_ip : node_id -> E -> string * E;
  env_cleanup : E -> E;
  env_bootstrap_config : Config -> E -> Config * E;
  env_time : E -> Z * E;
  env_sleep : Z -> E -> E;
  env_sample : list node_id -> nat -> E -> list node_id * E;
  env_confirm : string -> E -> bool * E;
  env_mktemp : string -> E -> string * E;
  env_updater : UpdaterArgs -> E -> Z * E;
  env_is_docker : UpdaterArgs -> E -> bool;
  env_shutdown_after_next_cmd : UpdaterArgs -> E -> E;
  env_run : UpdaterArgs -> RunArgs -> E -> string * E;
  env_rsync : UpdaterArgs -> bool -> string -> string -> E -> E;
  env_sync_file_mounts : UpdaterArgs -> bool -> E -> E;
}.

(** ** The monad: state, exceptions, fuel and the trace *)

(** The state a command runs in: the environment, the local file system
    (path to contents), and the config dict bound to the running command's
    [config] variable (callees that receive it share it by reference). *)
Record World (E : Type) := mkWorld {
  env : E;
  fs : gmap string string;
  cfg : Config;
}.
Arguments mkWorld {E} _ _ _.
Arguments env {E} _.
Arguments fs {E} _.
Arguments cfg {E} _.

Inductive result (A : Type) :=
| Ret (a : A)
| Exc (e : exn)
| OutOfFuel.
Arguments Ret {A} _.
Arguments Exc {A} _.
Arguments OutOfFuel {A}.

(** What a run leaves behind: how it ended, the state it ended in, and the
    calls it made, oldest first. *)
Record Outcome (E A : Type) := mkOutcome {
  res : result A;
  final : World E;
  trace : list event;
}.
Arguments mkOutcome {E A} _ _ _.
Arguments res {E A} _.
Arguments final {E A} _.
Arguments trace {E A} _.

Definition M (E A : Type) : Type := World E -> Outcome E A.

Definition ret {E A} (a : A) : M E A := fun w => mkOutcome (Ret a) w [].
Definition raise {E A} (e : exn) : M E A := fun w => mkOutcome (Exc e) w [].
Definition out_of_fuel {E A} : M E A := fun w => mkOutcome OutOfFuel w [].

Definition bind {E A B} (m : M E A) (k : A -> M E B) : M E B :=
  fun w =>
    let o := m w in
    match res o with
    | Ret a =>
        let o' := k a (final o) in
        mkOutcome (res o') (final o') (trace o ++ trace o')%list
    | Exc e => mkOutcome (Exc e) (final o) (trace o)
    | OutOfFuel => mkOutcome OutOfFuel (final o) (trace o)
    end.

Declare Scope cmd_scope.
Delimit Scope cmd_scope with cmd.
Notation "x <- m ;; k" := (bind m (fun x => k))
  (at level 100, m at next level, right associativity) : cmd_scope.
Notation "m ;;; k" := (bind m (fun _ => k))
  (at level 100, right associativity) : cmd_scope.
Local Open Scope cmd_scope.

(** [try: body finally: fin()]; a body that never returns never reaches
    [fin]. *)
Definition try_finally {E A} (body : M E A) (fin : M E unit) : M E A :=
  fun w =>
    let o := body w in
    match res o with
    | OutOfFuel => o
    | r =>
        let o' := fin (final o) in
        mkOutcome (match res o' with
                   | Ret _ => r
                   | Exc e => Exc e
                   | OutOfFuel => OutOfFuel
                   end)
                  (final o') (trace o ++ trace o')%list
    end.

(** [try: body except Exception: pass] (the handler only logs). *)
Definition try_except_Exception {E} (body : M E unit) : M E unit :=
  fun w =>
    let o := body w in
    match res o with
    | Exc e => if is_Exception e then mkOutcome (Ret tt) (final o) (trace o)
               else o
    | _ => o
    end.

Section Primitives.
Context {E : Type} `{!Environment E}.

Definition emit (ev : event) : M E unit :=
  fun w => mkOutcome (Ret tt) w [ev].

(** A call into the environment that returns a value. *)
Definition call {A} (f : E -> A * E) (ev : A -> event) : M E A :=
  fun w =>
    let p := f (env w) in
    mkOutcome (Ret p.1) (mkWorld p.2 (fs w) (cfg w)) [ev p.1].

(** A call into the environment for its effect only. *)
Definition call_ (f : E -> E) (ev : event) : M E unit :=
  fun w => mkOutcome (Ret tt) (mkWorld (f (env w)) (fs w) (cfg w)) [ev].

Definition get_config : M E Config := fun w => mkOutcome (Ret (cfg w)) w [].
Definition set_config (c : Config) : M E unit :=
  fun w => mkOutcome (Ret tt) (mkWorld (env w) (fs w) c) [].

Definition get_node_provider (pc : ProviderConfig) (name : string) : M E unit :=
  call_ (env_get_node_provider pc name) (get_node_provider_ev pc name).
Definition non_terminated_nodes (tag_filters : tag_map) : M E (list node_id) :=
  call (env_non_terminated_nodes tag_filters) (non_terminated_nodes_ev tag_filters).
Definition node_tags (n : node_id) : M E tag_map :=
  call (env_node_tags n) (node_tags_ev n).
Definition create_node (spec : launch_spec) (tags : tag_map) (count : nat) : M E unit :=
  call_ (env_create_node spec tags count) (create_node_ev spec tags count).
Definition terminate_node (n : node_id) : M E unit :=
  call_ (env_terminate_node n) (terminate_node_ev n).
Definition terminate_nodes (ns : list node_id) : M E unit :=
  call_ (env_terminate_nodes ns) (terminate_nodes_ev ns).
(** [provider.set_node_tags]: in the provider's interface; no command of
    the module calls it. *)
Definition set_node_tags (n : node_id) (tags : tag_map) : M E unit :=
  call_ (env_set_node_tags n tags) (set_node_tags_ev n tags).
Definition internal_ip (n : node_id) : M E string :=
  call (env_internal_ip n) (internal_ip_ev n).
Definition external_ip (n : node_id) : M E string :=
  call (env_external_ip n) (external_ip_ev n).
Definition cleanup : M E unit := call_ env_cleanup cleanup_ev.
Definition time_time : M E Z := call env_time time_ev.
Definition time_sleep (secs : Z) : M E unit :=
  call_ (env_sleep secs) (sleep_ev secs).

(** [random.sample(population, k)]: [ValueError] unless
    [0 <= k <= len(population)]. *)
Definition random_sample (population : list node_id) (k : Z) : M E (list node_id) :=
  if (k <? 0) || (Z.of_nat (length population) <? k)
  then raise (ValueError "Sample larger than population or is negative")
  else call (env_sample population (Z.to_nat k))
            (sample_ev population (Z.to_nat k)).

(** [open(path).read()] *)
Definition read_file (path : string) : M E string :=
  fun w => mkOutcome (match fs w !! path with
                      | Some text => Ret text
                      | None => Exc (FileNotFoundError path)
                      end) w [read_ev path].

(** [with open(path, "w") as f: f.write(contents)] *)
Definition write_file (path contents : string) : M E unit :=
  fun w => mkOutcome (Ret tt)
                     (mkWorld (env w) (<[path := contents]> (fs w)) (cfg w))
                     [write_ev path contents].

(** [os.path.exists(path)] *)
Definition path_exists (path : string) : M E bool :=
  fun w => mkOutcome (Ret (bool_decide (is_Some (fs w !! path)))) w [].

(** [confirm(msg, yes)], the last function of the module. *)
Definition confirm (msg : string) (yes : bool) : M E unit :=
  if yes then ret tt
  else answer <- call (env_confirm msg) (confirm_ev msg);;
       if answer : bool then ret tt else raise Abort.
End Primitives.

(** ** The commands *)

Section Commands.
Context {E : Type} `{!Environment E} `{!Externals}.

(** [yaml.safe_load(open(config_file).read())] *)
Definition load_config (config_file : string) : M E Config :=
  text <- read_file config_file;;
  match yaml_safe_load text with
  | Some c => ret c
  | None => raise YAMLError
  end.

(** [if override is not None: config[key] = override] *)
Definition override_with {A} (set : A -> Config -> Config)
    (override : option A) (config : Config) : Config :=
  match override with
  | Some v => set v config
  | None => config
  end.

Definition validate (config : Config) : M E unit :=
  emit (validate_config_ev config (validate_config config));;;
  if validate_config config then ret tt else raise InvalidConfig.

Definition cache_key_of (config : Config) : string :=
  path_join gettempdir ("ray-config-" +:+ config_digest config).

(** Lines 103-125. *)
Definition _bootstrap_config (config : Config) (no_config_cache : bool)
    : M E Config :=
  let config := prepare_config config in
  let cache_key := cache_key_of config in
  cached <- path_exists cache_key;;
  if cached && negb no_config_cache then
    text <- read_file cache_key;;
    match json_loads text with
    | Some c => ret c
    | None => raise JSONDecodeError
    end
  else
    validate config;;;
    if negb (NODE_PROVIDERS (provider_type (provider config))) then
      raise (NotImplementedError
               ("Unsupported provider " +:+ format_provider (provider config)))
    else
      resolved_config <- call (env_bootstrap_config config)
                              (bootstrap_config_ev config);;
      (if negb no_config_cache
       then write_file cache_key (json_dumps resolved_config)
       else ret tt);;;
      ret resolved_config.

(** Lines 306-315: the readiness poll.  One unit of fuel per turn of
    [while True]. *)
Fixpoint wait_for_head_node (fuel : nat) (start : Z)
    (head_node_tags : tag_map) : M E node_id :=
  match fuel with
  | O => out_of_fuel
  | S fuel' =>
      now <- time_time;;
      if 50 <? now - start then
        raise (RuntimeError "Failed to create head node.")
      else
        nodes <- non_terminated_nodes head_node_tags;;
        match nodes with
        | [n] => ret n
        | _ => time_sleep 1;;; wait_for_head_node fuel' start head_node_tags
        end
  end.

(** Lines 276-304: find the head node, ask the operator, and create or
    replace the node when there is none or its launch hash is stale.
    Returns [head_node_tags], which the create branch has extended.
    [head_id] is the local variable [head_node] ([None] or [nodes[0]]). *)
Definition create_or_replace_head_node (no_restart yes : bool)
    : M E tag_map :=
  config <- get_config;;
  let head_node_tags : tag_map := {[ TAG_RAY_NODE_TYPE := NODE_TYPE_HEAD ]} in
  nodes <- non_terminated_nodes head_node_tags;;
  let head_id := head nodes in
  (if negb (truthy head_id) then
     confirm "This will create a new cluster" yes
   else if negb no_restart then
     confirm "This will restart cluster services" yes
   else ret tt);;;
  let launch_hash := hash_launch_conf (head_node config) (auth config) in
  stale <- match head_id with
           | None => ret true
           | Some h =>
               tags <- node_tags h;;
               ret (negb (bool_decide
                            (tags !! TAG_RAY_LAUNCH_CONFIG = Some launch_hash)))
           end;;
  if stale : bool then
    match head_id with
    | Some h =>
        confirm "Head node config out-of-date. It will be terminated" yes;;;
        terminate_node h
    | None => ret tt
    end;;;
    let head_node_tags :=
      <[ TAG_RAY_NODE_NAME := "ray-" +:+ cluster_name config +:+ "-head" ]>
        (<[ TAG_RAY_LAUNCH_CONFIG := launch_hash ]> head_node_tags) in
    create_node (head_node config) head_node_tags 1;;;
    ret head_node_tags
  else ret head_node_tags.

(** Lines 323-336: the copy of the config that is shipped to the head. *)
Definition remote_config_of (config : Config) (no_restart : bool) : Config :=
  let remote_auth := delete "ssh_proxy_command" (auth config) in
  let remote_auth :=
    if bool_decide (provider_type (provider config) = "kubernetes")
    then remote_auth
    else <[ "ssh_private_key" := "~/ray_bootstrap_key.pem" ]> remote_auth in
  let new_mounts := map_imap (fun remote_path _ => Some remote_path)
                             (file_mounts config) in
  set_no_restart (Some no_restart)
    (set_file_mounts new_mounts (set_auth remote_auth config)).

(** Lines 351-359. *)
Definition select_commands (config : Config) (no_restart restart_only : bool)
    : list string * list string :=
  if restart_only then ([], head_start_ray_commands config)
  else if no_restart then (head_setup_commands config, [])
  else (head_setup_commands config, head_start_ray_commands config).

(** Lines 317-393: write the remote config, add the synthetic mounts to
    [config["file_mounts"]], run the updater, look the address up. *)
Definition update_head_node (head_id : node_id) (head_node_tags : tag_map)
    (no_restart restart_only : bool) : M E string :=
  config <- get_config;;
  let runtime_hash := hash_runtime_conf (file_mounts config) config in
  let remote_config := remote_config_of config no_restart in
  remote_config_file <- call (env_mktemp "ray-bootstrap-") tempfile_ev;;
  write_file remote_config_file (json_dumps remote_config);;;
  set_config
    (set_file_mounts
       (<[ "~/ray_bootstrap_config.yaml" := remote_config_file ]>
          (file_mounts config)) config);;;
  (if bool_decide (provider_type (provider config) = "kubernetes") then ret tt
   else
     config <- get_config;;
     match auth config !! "ssh_private_key" with
     | None => raise (KeyError "ssh_private_key")
     | Some key =>
         set_config
           (set_file_mounts
              (<[ "~/ray_bootstrap_key.pem" := key ]> (file_mounts config))
              config)
     end);;;
  config <- get_config;;
  let '(init_commands, ray_start_commands) :=
    select_commands config no_restart restart_only in
  let updater :=
    {| upd_node_id := head_id;
       upd_provider_config := provider config;
       upd_auth_config := auth config;
       upd_cluster_name := cluster_name config;
       upd_file_mounts := file_mounts config;
       upd_initialization_commands := initialization_commands config;
       upd_setup_commands := init_commands;
       upd_ray_start_commands := ray_start_commands;
       upd_runtime_hash := runtime_hash;
       upd_docker_config := docker config |} in
  exitcode <- call (env_updater updater) (updater_ev updater);;
  non_terminated_nodes head_node_tags;;;
  head_node_ip <- (if use_internal_ips (provider config)
                   then internal_ip head_id
                   else external_ip head_id);;
  if bool_decide (exitcode = 0) then ret head_node_ip
  else raise (SystemExit 1).

(** Lines 270-410. *)
Definition get_or_create_head_node (fuel : nat) (config_file : string)
    (no_restart restart_only yes : bool)
    (override_cluster_name : option string) : M E unit :=
  config <- get_config;;
  get_node_provider (provider config) (cluster_name config);;;
  try_finally
    (head_node_tags <- create_or_replace_head_node no_restart yes;;
     start <- time_time;;
     head_id <- wait_for_head_node fuel start head_node_tags;;
     update_head_node head_id head_node_tags no_restart restart_only;;;
     ret tt)
    cleanup.
(** Lines 87-100. *)
Definition create_or_update_cluster (fuel : nat) (config_file : string)
    (override_min_workers override_max_workers : option Z)
    (no_restart restart_only yes : bool)
    (override_cluster_name : option string) (no_config_cache : bool)
    : M E unit :=
  config <- load_config config_file;;
  let config := override_with (fun v => set_min_workers (Some v))
                              override_min_workers config in
  let config := override_with (fun v => set_max_workers (Some v))
                              override_max_workers config in
  let config := override_with set_cluster_name override_cluster_name config in
  config <- _bootstrap_config config no_config_cache;;
  set_config config;;;
  get_or_create_head_node fuel config_file no_restart restart_only yes
                          override_cluster_name.

(** Lines 702-713 of [_get_head_node]: open a provider, list the head
    nodes, release the provider; [missing] is what the caller does when
    there is none. *)
Definition find_head_node (missing : M E node_id) : M E node_id :=
  config <- get_config;;
  get_node_provider (provider config) (cluster_name config);;;
  nodes <- try_finally
             (non_terminated_nodes {[ TAG_RAY_NODE_TYPE := NODE_TYPE_HEAD ]})
             cleanup;;
  match nodes with
  | head_id :: _ => ret head_id
  | [] => missing
  end.

Definition head_node_not_found : M E node_id :=
  config <- get_config;;
  raise (RuntimeError
           ("Head node of cluster (" +:+ cluster_name config +:+ ") not found!")).

(** Lines 698-726.  The recursive call has [create_if_needed=False], so the
    recursion is two deep at most. *)
Definition _get_head_node (fuel : nat) (config_file : string)
    (override_cluster_name : option string) (create_if_needed : bool)
    : M E node_id :=
  find_head_node
    (if create_if_needed then
       get_or_create_head_node fuel config_file false false true
                               override_cluster_name;;;
       find_head_node head_node_not_found
     else head_node_not_found).

(** Lines 683-695. *)
Definition _get_worker_nodes (override_cluster_name : option string)
    : M E (list node_id) :=
  config <- get_config;;
  set_config (override_with set_cluster_name override_cluster_name config);;;
  config <- get_config;;
  get_node_provider (provider config) (cluster_name config);;;
  try_finally
    (non_terminated_nodes {[ TAG_RAY_NODE_TYPE := NODE_TYPE_WORKER ]})
    cleanup.

(** The updater that [exec_cluster], [rsync] and [kill_node] build: no
    commands, empty runtime hash. *)
Definition plain_updater (node : node_id) (config : Config) : UpdaterArgs :=
  {| upd_node_id := node;
     upd_provider_config := provider config;
     upd_auth_config := auth config;
     upd_cluster_name := cluster_name config;
     upd_file_mounts := file_mounts config;
     upd_initialization_commands := [];
     upd_setup_commands := [];
     upd_ray_start_commands := [];
     upd_runtime_hash := "";
     upd_docker_config := docker config |}.

(** Lines 545-571. *)
Definition _exec (updater : UpdaterArgs) (cmd : option string)
    (screen tmux : bool) (port_forward : option (list Z))
    (with_output : bool) (run_env : string) : M E string :=
  let cmd :=
    match cmd with
    | Some c =>
        if nonempty_str c then
          if screen then
            Some (String.concat " "
                    ["screen"; "-L"; "-dm"; "bash"; "-c";
                     quote (c +:+ "; exec bash")])
          else if tmux then
            Some (String.concat " "
                    ["tmux"; "new"; "-d"; "bash"; "-c";
                     quote (c +:+ "; exec bash")])
          else cmd
        else cmd
    | None => cmd
    end in
  let args := {| run_cmd := cmd; run_exit_on_fail := true;
                 run_port_forward := port_forward;
                 run_with_output := with_output;
                 run_run_env := run_env |} in
  call (env_run updater args) (run_ev updater args).

(** Lines 508-516: what [stop] appends to the command.  Returns the new
    command and whether [shutdown_after_next_cmd] is to be called. *)
Definition stop_command (cmd : option string) (stop is_docker : bool)
    (run_env : string) : option string * bool :=
  match cmd with
  | Some c =>
      if nonempty_str c && stop then
        let c := c +:+ String.concat "; "
                   ["ray stop";
                    "ray teardown ~/ray_bootstrap_config.yaml --yes --workers-only"] in
        if is_docker && bool_decide (run_env = "docker")
        then (Some c, true)
        else (Some (c +:+ "; sudo shutdown -h now"), false)
      else (cmd, false)
  | None => (cmd, false)
  end.

(** Lines 455-542. *)
Definition exec_cluster (fuel : nat) (config_file : string)
    (cmd : option string) (run_env : string) (screen tmux stop start : bool)
    (override_cluster_name : option string)
    (port_forward : option (list Z)) (with_output : bool) : M E string :=
  if screen && tmux then
    raise (AssertionError "Can specify only one of `screen` or `tmux`.")
  else if negb (bool_decide (run_env ∈ RUN_ENV_TYPES)) then
    raise (AssertionError "--run_env must be in ['auto', 'host', 'docker']")
  else
    config <- load_config config_file;;
    let config := override_with set_cluster_name override_cluster_name config in
    config <- _bootstrap_config config false;;
    set_config config;;;
    head_id <- _get_head_node fuel config_file override_cluster_name start;;
    config <- get_config;;
    get_node_provider (provider config) (cluster_name config);;;
    try_finally
      (config <- get_config;;
       let updater := plain_updater head_id config in
       is_docker <- (fun w => mkOutcome (Ret (env_is_docker updater (env w))) w []);;
       let '(cmd, shutdown) := stop_command cmd stop is_docker run_env in
       (if shutdown : bool
        then call_ (env_shutdown_after_next_cmd updater)
                   (shutdown_after_next_cmd_ev updater)
        else ret tt);;;
       _exec updater cmd screen tmux port_forward with_output run_env)
      cleanup.

(** Runs a command that binds a [config] of its own, and gives the caller
    its own [config] back afterwards. *)
Definition with_own_config {A} (m : M E A) : M E A :=
  fun w =>
    let o := m w in
    mkOutcome (res o) (mkWorld (env (final o)) (fs (final o)) (cfg w))
              (trace o).

(** Lines 159-178: the closure [remaining_nodes] of [teardown_cluster]. *)
Definition remaining_nodes (workers_only keep_min_workers : bool)
    : M E (list node_id) :=
  config <- get_config;;
  workers <- non_terminated_nodes {[ TAG_RAY_NODE_TYPE := NODE_TYPE_WORKER ]};;
  workers <- (if keep_min_workers then
                let min_workers := default 0 (min_workers config) in
                random_sample workers (Z.of_nat (length workers) - min_workers)
              else ret workers);;
  if workers_only then ret workers
  else
    head_ids <- non_terminated_nodes {[ TAG_RAY_NODE_TYPE := NODE_TYPE_HEAD ]};;
    ret (head_ids ++ workers)%list.

(** Lines 184-189: [while A: terminate_nodes(A); sleep(1); A = remaining_nodes()].
    One unit of fuel per turn. *)
Fixpoint teardown_loop (fuel : nat) (workers_only keep_min_workers : bool)
    (A : list node_id) : M E unit :=
  match A with
  | [] => ret tt
  | _ :: _ =>
      match fuel with
      | O => out_of_fuel
      | S fuel' =>
          terminate_nodes A;;;
          time_sleep 1;;;
          A <- remaining_nodes workers_only keep_min_workers;;
          teardown_loop fuel' workers_only keep_min_workers A
      end
  end.

(** Lines 128-191. *)
Definition teardown_cluster (fuel : nat) (config_file : string)
    (yes workers_only : bool) (override_cluster_name : option string)
    (keep_min_workers : bool) : M E unit :=
  config <- load_config config_file;;
  let config := override_with set_cluster_name override_cluster_name config in
  let config := prepare_config config in
  validate config;;;
  set_config config;;;
  confirm "This will destroy your cluster" yes;;;
  (if negb workers_only then
     try_except_Exception
       (with_own_config
          (exec_cluster fuel config_file (Some "ray stop") "auto"
                        false false false false override_cluster_name
                        None false);;;
        ret tt)
   else ret tt);;;
  get_node_provider (provider config) (cluster_name config);;;
  try_finally
    (A <- remaining_nodes workers_only keep_min_workers;;
     teardown_loop fuel workers_only keep_min_workers A)
    cleanup.

(** [for x in xs: body(x)] *)
Fixpoint for_each {A} (xs : list A) (body : A -> M E unit) : M E unit :=
  match xs with
  | [] => ret tt
  | x :: xs' => body x;;; for_each xs' body
  end.

(** Lines 574-639. *)
Definition rsync (config_file : string) (source target : option string)
    (override_cluster_name : option string) (down all_nodes : bool)
    : M E unit :=
  if negb (eqb (truthy source) (truthy target)) then
    raise (AssertionError
             "Must either provide both or neither source and target.")
  else
    config <- load_config config_file;;
    let config := override_with set_cluster_name override_cluster_name config in
    config <- _bootstrap_config config false;;
    set_config config;;;
    get_node_provider (provider config) (cluster_name config);;;
    try_finally
      (nodes <- (if all_nodes then _get_worker_nodes override_cluster_name
                 else ret []);;
       head_id <- _get_head_node 0 config_file override_cluster_name false;;
       for_each (nodes ++ [head_id])%list
         (fun node =>
            config <- get_config;;
            let updater := plain_updater node config in
            match source, target with
            | Some src, Some tgt =>
                if nonempty_str src && nonempty_str tgt
                then call_ (env_rsync updater down src tgt)
                           (rsync_ev updater down src tgt)
                else call_ (env_sync_file_mounts updater down)
                           (sync_file_mounts_ev updater down)
            | _, _ => call_ (env_sync_file_mounts updater down)
                            (sync_file_mounts_ev updater down)
            end))
      cleanup.
End Commands.

(** ** An in-memory provider and environment

    The provider interface is substituted by an in-memory one in tests.
    This one keeps a list of nodes; a terminated node stays listed among the
    non-terminated ones until [f_lag] seconds have passed (0: it is gone at
    once), and with [f_honours_terminate = false] it never goes away.  The
    clock only moves in [sleep]; [sample] takes the first [k] nodes of the
    population rotated by a counter; the operator always gives the answer
    [f_answer]; the updater always exits with [f_exitcode]. *)
Module Fake.

Record Node := {
  id : node_id;
  tags : tag_map;
  gone_at : option Z;
}.

Record Env := {
  f_nodes : list Node;
  f_clock : Z;
  f_lag : Z;
  f_honours_terminate : bool;
  f_created : nat;
  f_seed : nat;
  f_answer : bool;
  f_exitcode : Z;
  f_docker : bool;
}.

Definition with_nodes (ns : list Node) (e : Env) : Env :=
  {| f_nodes := ns; f_clock := f_clock e; f_lag := f_lag e;
     f_honours_terminate := f_honours_terminate e;
     f_created := f_created e; f_seed := f_seed e; f_answer := f_answer e;
     f_exitcode := f_exitcode e; f_docker := f_docker e |}.

Definition listed (now : Z) (n : Node) : bool :=
  match gone_at n with
  | None => true
  | Some t => now <? t
  end.

Definition has_tags (tag_filters : tag_map) (n : Node) : bool :=
  forallb (fun kv : string * string =>
             bool_decide (tags n !! kv.1 = Some kv.2))
          (map_to_list tag_filters).

Definition list_nodes (tag_filters : tag_map) (e : Env) : list node_id :=
  map id (List.filter (fun n => listed (f_clock e) n && has_tags tag_filters n)
                      (f_nodes e)).

Definition tags_of (n : node_id) (e : Env) : tag_map :=
  match List.find (fun x => bool_decide (id x = n)) (f_nodes e) with
  | Some x => tags x
  | None => ∅
  end.

Definition fresh_nodes (t : tag_map) (first count : nat) : list Node :=
  map (fun i => {| id := "node-" +:+ pretty (first + i)%nat;
                   tags := t; gone_at := None |})
      (seq 0 count).

Definition create (t : tag_map) (count : nat) (e : Env) : Env :=
  {| f_nodes := f_nodes e ++ fresh_nodes t (f_created e) count;
     f_clock := f_clock e; f_lag := f_lag e;
     f_honours_terminate := f_honours_terminate e;
     f_created := f_created e + count; f_seed := f_seed e;
     f_answer := f_answer e; f_exitcode := f_exitcode e;
     f_docker := f_docker e |}.

Definition terminate (ns : list node_id) (e : Env) : Env :=
  if f_honours_terminate e then
    with_nodes
      (map (fun x =>
              if bool_decide (id x ∈ ns) && bool_decide (gone_at x = None)
              then {| id := id x; tags := tags x;
                      gone_at := Some (f_clock e + f_lag e) |}
              else x)
           (f_nodes e))
      e
  else e.

Definition retag (n : node_id) (t : tag_map) (e : Env) : Env :=
  with_nodes
    (map (fun x => if bool_decide (id x = n)
                   then {| id := id x; tags := t ∪ tags x; gone_at := gone_at x |}
                   else x)
         (f_nodes e))
    e.

Definition sleep (secs : Z) (e : Env) : Env :=
  {| f_nodes := f_nodes e; f_clock := f_clock e + secs; f_lag := f_lag e;
     f_honours_terminate := f_honours_terminate e;
     f_created := f_created e; f_seed := f_seed e; f_answer := f_answer e;
     f_exitcode := f_exitcode e; f_docker := f_docker e |}.

Definition sample (population : list node_id) (k : nat) (e : Env)
    : list node_id * Env :=
  (take k (rotate (f_seed e) population),
   {| f_nodes := f_nodes e; f_clock := f_clock e; f_lag := f_lag e;
      f_honours_terminate := f_honours_terminate e;
      f_created := f_created e; f_seed := S (f_seed e);
      f_answer := f_answer e; f_exitcode := f_exitcode e;
      f_docker := f_docker e |}).

#[global] Instance environment : Environment Env := {|
  env_get_node_provider _ _ e := e;
  env_non_terminated_nodes tag_filters e := (list_nodes tag_filters e, e);
  env_node_tags n e := (tags_of n e, e);
  env_create_node _ t count e := create t count e;
  env_terminate_node n e := terminate [n] e;
  env_terminate_nodes ns e := terminate ns e;
  env_set_node_tags n t e := retag n t e;
  env_internal_ip n e := ("10.0.0." +:+ n, e);
  env_external_ip n e := ("52.0.0." +:+ n, e);
  env_cleanup e := e;
  env_bootstrap_config c e := (c, e);
  env_time e := (f_clock e, e);
  env_sleep secs e := sleep secs e;
  env_sample population k e := sample population k e;
  env_confirm _ e := (f_answer e, e);
  env_mktemp prefix e := (prefix +:+ "0001", e);
  env_updater _ e := (f_exitcode e, e);
  env_is_docker _ e := f_docker e;
  env_shutdown_after_next_cmd _ e := e;
  env_run _ _ e := ("", e);
  env_rsync _ _ _ _ e := e;
  env_sync_file_mounts _ _ e := e;
|}.

(** Stand-ins for the pure helpers: the launch hash is the image named in
    the launch spec followed by the ssh user; config files hold
    ["cluster: <name>"], and both parsers read that one line into
    [base_config]. *)
Definition base_config : Config :=
  {| cluster_name := "default";
     provider := {| provider_type := "aws"; use_internal_ips := false |};
     auth := {[ "ssh_user" := "ubuntu"; "ssh_private_key" := "~/.ssh/key.pem" ]};
     head_node := {[ "ImageId" := "ami-2" ]};
     worker_nodes := {[ "ImageId" := "ami-2" ]};
     file_mounts := {[ "/remote/data" := "/local/data" ]};
     initialization_commands := ["apt-get update"];
     head_setup_commands := ["pip install ray"];
     head_start_ray_commands := ["ray stop"; "ray start --head"];
     min_workers := Some 1;
     max_workers := Some 4;
     docker := None;
     no_restart := None |}.

Fixpoint strip_prefix (p s : string) : option string :=
  match p with
  | EmptyString => Some s
  | String a p' =>
      match s with
      | String b s' => if Ascii.eqb a b then strip_prefix p' s' else None
      | EmptyString => None
      end
  end.

Definition parse (text : string) : option Config :=
  match strip_prefix "cluster: " text with
  | Some name => Some (set_cluster_name name base_config)
  | None => None
  end.

#[global] Instance externals : Externals := {|
  hash_launch_conf spec a :=
    default "" (spec !! "ImageId") +:+ "/" +:+ default "" (a !! "ssh_user");
  hash_runtime_conf _ c := "runtime-" +:+ cluster_name c;
  prepare_config c := c;
  validate_config c := nonempty_str (cluster_name c);
  NODE_PROVIDERS t := bool_decide (t ∈ ["aws"; "gcp"; "kubernetes"; "local"]);
  format_provider p := "{'type': '" +:+ provider_type p +:+ "'}";
  json_dumps c := "cluster: " +:+ cluster_name c;
  json_loads := parse;
  yaml_safe_load := parse;
  config_digest c := "sha1-" +:+ cluster_name c;
  gettempdir := "/tmp";
  path_join a b := a +:+ "/" +:+ b;
  quote s := "'" +:+ s +:+ "'";
|}.

Definition env0 : Env :=
  {| f_nodes := []; f_clock := 1000; f_lag := 0;
     f_honours_terminate := true; f_created := 0; f_seed := 0;
     f_answer := true; f_exitcode := 0; f_docker := false |}.

Definition head_tags (launch_hash : string) : tag_map :=
  {[ TAG_RAY_NODE_TYPE := NODE_TYPE_HEAD;
     TAG_RAY_LAUNCH_CONFIG := launch_hash;
     TAG_RAY_NODE_NAME := "ray-default-head" ]}.

Definition worker_tags : tag_map :=
  {[ TAG_RAY_NODE_TYPE := NODE_TYPE_WORKER ]}.

Definition node (n : node_id) (t : tag_map) : Node :=
  {| id := n; tags := t; gone_at := None |}.

Definition world (e : Env) (c : Config) : World Env :=
  mkWorld e {[ "cluster.yaml" := "cluster: default" ]} c.
End Fake.


(** ** Vocabulary of the statements *)

(** The calls that create or destroy nodes. *)
Definition is_provider_write (ev : event) : bool :=
  match ev with
  | create_node_ev _ _ _ | terminate_node_ev _ | terminate_nodes_ev _ => true
  | _ => false
  end.

Definition provider_writes (t : list event) : list event :=
  List.filter is_provider_write t.

(** The tags the reconciler read back with [node_tags]. *)
Definition tags_read (t : list event) : list (node_id * tag_map) :=
  omap (fun ev => match ev with
                  | node_tags_ev n r => Some (n, r)
                  | _ => None
                  end) t.

(** The updaters that were run. *)
Definition updaters (t : list event) : list UpdaterArgs :=
  omap (fun ev => match ev with
                  | updater_ev a _ => Some a
                  | _ => None
                  end) t.

(** The node listings asked of the provider: filter and answer. *)
Definition queries (t : list event) : list (tag_map * list node_id) :=
  omap (fun ev => match ev with
                  | non_terminated_nodes_ev f r => Some (f, r)
                  | _ => None
                  end) t.

(** The operator's answers to the prompts, oldest first. *)
Definition answers (t : list event) : list bool :=
  omap (fun ev => match ev with
                  | confirm_ev _ answer => Some answer
                  | _ => None
                  end) t.

(** The tags that were set on nodes that exist, with [set_node_tags]. *)
Definition retags (t : list event) : list (node_id * tag_map) :=
  omap (fun ev => match ev with
                  | set_node_tags_ev n tags => Some (n, tags)
                  | _ => None
                  end) t.

(** A stretch of trace without node listings, tag readings, updater runs
    and provider writes. *)
Definition quiet (t : list event) : Prop :=
  provider_writes t = [] /\ tags_read t = [] /\ updaters t = [] /\
  queries t = [].

(** The commands handed to the command runner. *)
Definition commands_run (t : list event) : list (option string) :=
  omap (fun ev => match ev with
                  | run_ev _ r _ => Some (run_cmd r)
                  | _ => None
                  end) t.

Definition head_filter : tag_map := {[ TAG_RAY_NODE_TYPE := NODE_TYPE_HEAD ]}.
Definition worker_filter : tag_map := {[ TAG_RAY_NODE_TYPE := NODE_TYPE_WORKER ]}.

(** [wp m w Q]: the run of [m] from [w] ends in a way that satisfies [Q]. *)
Definition wp {E A} (m : M E A) (w : World E)
    (Q : result A -> World E -> list event -> Prop) : Prop :=
  Q (res (m w)) (final (m w)) (trace (m w)).

(** The clock never runs backwards over the calls of the readiness poll, and
    [sleep(s)] takes at least [s] seconds. *)
Class Timely (E : Type) `{!Environment E} : Prop := {
  time_monotone : forall e : E, (env_time e).1 <= (env_time (env_time e).2).1;
  query_monotone : forall tag_filters (e : E),
    (env_time e).1 <= (env_time (env_non_terminated_nodes tag_filters e).2).1;
  sleep_advances : forall secs (e : E),
    (env_time e).1 + secs <= (env_time (env_sleep secs e)).1;
}.

Section Vocabulary.
Context `{!Externals}.

Definition launch_hash_of (config : Config) : string :=
  hash_launch_conf (head_node config) (auth config).

(** The tags a new head node is created with. *)
Definition new_head_tags (config : Config) : tag_map :=
  <[ TAG_RAY_NODE_NAME := "ray-" +:+ cluster_name config +:+ "-head" ]>
    (<[ TAG_RAY_LAUNCH_CONFIG := launch_hash_of config ]> head_filter).

(** How the create-or-replace decision (lines 276-304) can end: with the
    tag filter for the poll that follows, or aborted at a prompt.  It lists
    the head nodes once and reads the tags of the first one, if any. *)
Inductive decision (config : Config) : result tag_map -> list event -> Prop :=
| decision_abort t nodes :
    queries t = [(head_filter, nodes)] ->
    updaters t = [] ->
    provider_writes t = [] ->
    decision config (Exc Abort) t
| decision_create t :
    queries t = [(head_filter, [])] ->
    updaters t = [] ->
    tags_read t = [] ->
    provider_writes t =
      [create_node_ev (head_node config) (new_head_tags config) 1%nat] ->
    decision config (Ret (new_head_tags config)) t
| decision_keep t h rest tags :
    queries t = [(head_filter, h :: rest)] ->
    updaters t = [] ->
    tags_read t = [(h, tags)] ->
    tags !! TAG_RAY_LAUNCH_CONFIG = Some (launch_hash_of config) ->
    provider_writes t = [] ->
    decision config (Ret head_filter) t
| decision_replace t h rest tags :
    queries t = [(head_filter, h :: rest)] ->
    updaters t = [] ->
    tags_read t = [(h, tags)] ->
    tags !! TAG_RAY_LAUNCH_CONFIG <> Some (launch_hash_of config) ->
    provider_writes t =
      [terminate_node_ev h;
       create_node_ev (head_node config) (new_head_tags config) 1%nat] ->
    decision config (Ret (new_head_tags config)) t.

(** The calls of the readiness poll that started at [start] with the
    filter [tags], and how it ended. *)
Inductive poll_trace (start : Z) (tags : tag_map)
    : list event -> result node_id -> Prop :=
| poll_timeout now :
    50 < now - start ->
    poll_trace start tags [time_ev now]
               (Exc (RuntimeError "Failed to create head node."))
| poll_found now n :
    now - start <= 50 ->
    poll_trace start tags [time_ev now; non_terminated_nodes_ev tags [n]] (Ret n)
| poll_again now nodes t r :
    now - start <= 50 ->
    length nodes <> 1%nat ->
    poll_trace start tags t r ->
    poll_trace start tags
               (time_ev now :: non_terminated_nodes_ev tags nodes
                  :: sleep_ev 1 :: t) r
| poll_fuel :
    poll_trace start tags [] OutOfFuel.

(** [config["file_mounts"]] once the two synthetic mounts are added;
    [None] when the private key is needed and [auth] has none. *)
Definition mounts_with_bootstrap (config : Config) (remote_config_file : string)
    : option (gmap string string) :=
  let mounts := <[ "~/ray_bootstrap_config.yaml" := remote_config_file ]>
                  (file_mounts config) in
  if bool_decide (provider_type (provider config) = "kubernetes")
  then Some mounts
  else match auth config !! "ssh_private_key" with
       | Some key => Some (<[ "~/ray_bootstrap_key.pem" := key ]> mounts)
       | None => None
       end.

(** The updater that reconciliation builds for the head node. *)
Definition head_updater (config : Config) (mounts : gmap string string)
    (head_id : node_id) (no_restart restart_only : bool) : UpdaterArgs :=
  {| upd_node_id := head_id;
     upd_provider_config := provider config;
     upd_auth_config := auth config;
     upd_cluster_name := cluster_name config;
     upd_file_mounts := mounts;
     upd_initialization_commands := initialization_commands config;
     upd_setup_commands := (select_commands config no_restart restart_only).1;
     upd_ray_start_commands := (select_commands config no_restart restart_only).2;
     upd_runtime_hash := hash_runtime_conf (file_mounts config) config;
     upd_docker_config := docker config |}.

(** How the update phase (lines 317-393) can end, the config it leaves and
    the calls it makes. *)
Inductive update_run (config : Config) (tags : tag_map) (head_id : node_id)
    (no_restart restart_only : bool)
    : result string -> Config -> list event -> Prop :=
| update_no_key f :
    mounts_with_bootstrap config f = None ->
    update_run config tags head_id no_restart restart_only
      (Exc (KeyError "ssh_private_key"))
      (set_file_mounts
         (<[ "~/ray_bootstrap_config.yaml" := f ]> (file_mounts config)) config)
      [tempfile_ev f;
       write_ev f (json_dumps (remote_config_of config no_restart))]
| update_ran f mounts code nodes ip :
    mounts_with_bootstrap config f = Some mounts ->
    update_run config tags head_id no_restart restart_only
      (if bool_decide (code = 0) then Ret ip else Exc (SystemExit 1))
      (set_file_mounts mounts config)
      [tempfile_ev f;
       write_ev f (json_dumps (remote_config_of config no_restart));
       updater_ev (head_updater config mounts head_id no_restart restart_only) code;
       non_terminated_nodes_ev tags nodes;
       if use_internal_ips (provider config)
       then internal_ip_ev head_id ip else external_ip_ev head_id ip].

(** Every way a run of [get_or_create_head_node] on [config] can go: how
    it ends, the config it leaves behind, the calls it makes. *)
Inductive reconciliation (config : Config) (no_restart restart_only : bool)
    : result unit -> Config -> list event -> Prop :=
| reconciliation_aborted e td :
    decision config (Exc e) td ->
    reconciliation config no_restart restart_only (Exc e) config
      (get_node_provider_ev (provider config) (cluster_name config)
         :: td ++ [cleanup_ev])
| reconciliation_not_ready tags td start tw e :
    decision config (Ret tags) td ->
    poll_trace start tags tw (Exc e) ->
    reconciliation config no_restart restart_only (Exc e) config
      (get_node_provider_ev (provider config) (cluster_name config)
         :: td ++ time_ev start :: tw ++ [cleanup_ev])
| reconciliation_out_of_fuel tags td start tw :
    decision config (Ret tags) td ->
    poll_trace start tags tw OutOfFuel ->
    reconciliation config no_restart restart_only OutOfFuel config
      (get_node_provider_ev (provider config) (cluster_name config)
         :: td ++ time_ev start :: tw)
| reconciliation_updated tags td start tw head_id r config' tu :
    decision config (Ret tags) td ->
    poll_trace start tags tw (Ret head_id) ->
    update_run config tags head_id no_restart restart_only r config' tu ->
    reconciliation config no_restart restart_only
      (match r with
       | Ret _ => Ret tt
       | Exc e => Exc e
       | OutOfFuel => OutOfFuel
       end)
      config'
      (get_node_provider_ev (provider config) (cluster_name config)
         :: td ++ time_ev start :: tw ++ tu ++ [cleanup_ev]).

(** The calls of one [remaining_nodes()] and the target set it returns. *)
Definition with_head (workers_only : bool) (heads selected : list node_id)
    : list event * list node_id :=
  if workers_only then ([], selected)
  else ([non_terminated_nodes_ev head_filter heads], (heads ++ selected)%list).

Inductive requery (config : Config) (workers_only : bool)
    : bool -> list event -> result (list node_id) -> Prop :=
| requery_all workers heads :
    requery config workers_only false
      (non_terminated_nodes_ev worker_filter workers
         :: (with_head workers_only heads workers).1)
      (Ret (with_head workers_only heads workers).2)
| requery_sampled workers selected heads :
    0 <= Z.of_nat (length workers) - default 0 (min_workers config)
      <= Z.of_nat (length workers) ->
    requery config workers_only true
      (non_terminated_nodes_ev worker_filter workers
         :: sample_ev workers
              (Z.to_nat (Z.of_nat (length workers) - default 0 (min_workers config)))
              selected
         :: (with_head workers_only heads selected).1)
      (Ret (with_head workers_only heads selected).2)
| requery_value_error workers :
    ~ (0 <= Z.of_nat (length workers) - default 0 (min_workers config)
         <= Z.of_nat (length workers)) ->
    requery config workers_only true
      [non_terminated_nodes_ev worker_filter workers]
      (Exc (ValueError "Sample larger than population or is negative")).

(** The calls of the teardown loop entered with the target set [A] and
    fuel for [fuel] turns, and how it ended: it returns on an empty target
    set only; on a non-empty one it asks the provider to terminate the
    whole set, sleeps a second, queries again and goes round; it is cut
    short only when the fuel is used up, one unit per turn. *)
Inductive teardown_trace (config : Config) (workers_only keep_min_workers : bool)
    : nat -> list node_id -> list event -> result unit -> Prop :=
| teardown_done fuel :
    teardown_trace config workers_only keep_min_workers fuel [] [] (Ret tt)
| teardown_round fuel A q A' t r :
    A <> [] ->
    requery config workers_only keep_min_workers q (Ret A') ->
    teardown_trace config workers_only keep_min_workers fuel A' t r ->
    teardown_trace config workers_only keep_min_workers (S fuel) A
      (terminate_nodes_ev A :: sleep_ev 1 :: q ++ t) r
| teardown_raised fuel A q e :
    A <> [] ->
    requery config workers_only keep_min_workers q (Exc e) ->
    teardown_trace config workers_only keep_min_workers (S fuel) A
      (terminate_nodes_ev A :: sleep_ev 1 :: q) (Exc e)
| teardown_out_of_fuel A :
    A <> [] ->
    teardown_trace config workers_only keep_min_workers 0 A [] OutOfFuel.
End Vocabulary.

(** ** Concrete clusters for the examples

    All on the in-memory provider, with the config [Fake.base_config], whose
    launch hash is ["ami-2/ubuntu"]. *)
Module Inputs.
Import Fake.

Definition with_answer (b : bool) (e : Env) : Env :=
  {| f_nodes := f_nodes e; f_clock := f_clock e; f_lag := f_lag e;
     f_honours_terminate := f_honours_terminate e;
     f_created := f_created e; f_seed := f_seed e; f_answer := b;
     f_exitcode := f_exitcode e; f_docker := f_docker e |}.

Definition with_lag (lag : Z) (e : Env) : Env :=
  {| f_nodes := f_nodes e; f_clock := f_clock e; f_lag := lag;
     f_honours_terminate := f_honours_terminate e;
     f_created := f_created e; f_seed := f_seed e; f_answer := f_answer e;
     f_exitcode := f_exitcode e; f_docker := f_docker e |}.

Definition never_terminating (e : Env) : Env :=
  {| f_nodes := f_nodes e; f_clock := f_clock e; f_lag := f_lag e;
     f_honours_terminate := false;
     f_created := f_created e; f_seed := f_seed e; f_answer := f_answer e;
     f_exitcode := f_exitcode e; f_docker := f_docker e |}.

(** A head node launched from an older image. *)
Definition stale_head : Env :=
  with_nodes [node "head-1" (head_tags "ami-1/ubuntu")] env0.

(** A head node launched from the current config. *)
Definition current_head : Env :=
  with_nodes [node "head-1" (head_tags "ami-2/ubuntu")] env0.

(** A current head node and three workers. *)
Definition three_workers : Env :=
  with_nodes [node "head-1" (head_tags "ami-2/ubuntu");
              node "w1" worker_tags; node "w2" worker_tags;
              node "w3" worker_tags] env0.

(** One worker that the provider never lets go of. *)
Definition stubborn_worker : Env :=
  never_terminating (with_nodes [node "w1" worker_tags] env0).
End Inputs.

(** ** The remaining commands

    [kill_node] is left out: [random.choice] on an empty worker list raises
    an [IndexError], which the exceptions above do not include. *)

Section MoreCommands.
Context {E : Type} `{!Environment E} `{!Externals}.

(** Lines 241-253.  The result of [exec_cluster] is dropped. *)
Definition monitor_cluster (fuel : nat) (cluster_config_file : string)
    (num_lines : Z) (override_cluster_name : option string) : M E unit :=
  let cmd := "tail -n " +:+ pretty num_lines
               +:+ " -f /tmp/ray/session_*/logs/monitor*" in
  exec_cluster fuel cluster_config_file (Some cmd) "auto"
               false false false false override_cluster_name None false;;;
  ret tt.

(** Lines 427-441 of [attach_cluster]: the command to attach with. *)
Definition attach_command (use_screen use_tmux new : bool) : M E string :=
  if use_tmux then
    ret (if new then "tmux new" else "tmux attach || tmux new")
  else if use_screen then
    ret (if new then "screen -L" else "screen -L -xRR")
  else if new then
    raise (ValueError "--new only makes sense if passing --screen or --tmux")
  else ret "$SHELL".

(** Lines 413-452.  The result of [exec_cluster] is dropped. *)
Definition attach_cluster (fuel : nat) (config_file : string)
    (start use_screen use_tmux : bool) (override_cluster_name : option string)
    (new : bool) (port_forward : option (list Z)) : M E unit :=
  cmd <- attach_command use_screen use_tmux new;;
  exec_cluster fuel config_file (Some cmd) "auto"
               false false false start override_cluster_name port_forward false;;;
  ret tt.

(** Lines 642-659.  The config is loaded and not resolved. *)
Definition get_head_node_ip (config_file : string)
    (override_cluster_name : option string) : M E string :=
  config <- load_config config_file;;
  let config := override_with set_cluster_name override_cluster_name config in
  set_config config;;;
  get_node_provider (provider config) (cluster_name config);;;
  try_finally
    (head_id <- _get_head_node 0 config_file override_cluster_name false;;
     config <- get_config;;
     if use_internal_ips (provider config)
     then internal_ip head_id
     else external_ip head_id)
    cleanup.

(** [[f(x) for x in xs]] *)
Fixpoint map_each {A B} (f : A -> M E B) (xs : list A) : M E (list B) :=
  match xs with
  | [] => ret []
  | x :: xs' => y <- f x;; ys <- map_each f xs';; ret (y :: ys)
  end.

(** Lines 662-680. *)
Definition get_worker_node_ips (config_file : string)
    (override_cluster_name : option string) : M E (list string) :=
  config <- load_config config_file;;
  let config := override_with set_cluster_name override_cluster_name config in
  set_config config;;;
  get_node_provider (provider config) (cluster_name config);;;
  try_finally
    (nodes <- non_terminated_nodes {[ TAG_RAY_NODE_TYPE := NODE_TYPE_WORKER ]};;
     if use_internal_ips (provider config)
     then map_each internal_ip nodes
     else map_each external_ip nodes)
    cleanup.
End MoreCommands.

(** Python's [sub in s] on strings. *)
Definition contains (sub s : string) : bool :=
  match String.index 0 sub s with
  | Some _ => true
  | None => false
  end.

(** The two warnings of [warn_about_bad_start_command]. *)
Inductive warning :=
| ray_start_missing
| autoscaling_config_missing.

(** Lines 256-267, with the warnings logged as the result. *)
Definition warn_about_bad_start_command (start_commands : list string)
    : list warning :=
  let ray_start_cmd := List.filter (contains "ray start") start_commands in
  (if (length ray_start_cmd =? 0)%nat then [ray_start_missing] else []) ++
  (if negb (existsb (contains "autoscaling-config") ray_start_cmd)
   then [autoscaling_config_missing] else []).

(** The string ["\n"]. *)
Definition newline : string :=
  String (Ascii.Ascii false true false true false false false false) "".

(** Lines 49-60.  [kv] is the internal key-value store behind
    [_internal_kv_get], with the byte strings it holds taken as text; the
    two keys come from [ray.autoscaler.util]. *)
Definition debug_status (DEBUG_AUTOSCALING_STATUS DEBUG_AUTOSCALING_ERROR : string)
    (kv : gmap string string) : string :=
  let status := kv !! DEBUG_AUTOSCALING_STATUS in
  let error := kv !! DEBUG_AUTOSCALING_ERROR in
  let status := if negb (truthy status) then "No cluster status."
                else default "" status in
  if truthy error
  then (status +:+ newline) +:+ default "" error
  else status.

(** The requests that [request_resources] publishes: the arguments of
    [json.dumps]. *)
Inductive resource_request :=
| cpu_request (num_cpus : Z)              (* {"CPU": num_cpus} *)
| bundles_request (bundles : list (gmap string Z)).

(** The module-level [redis_client], the clients created so far with
    [services.create_redis_client] (address and password), and what was
    published on the resource request channel, oldest first. *)
Record Redis := {
  redis_client : option (string * option string);
  clients_created : list (string * option string);
  published : list resource_request;
}.

(** Lines 40-46; [address] and [password] are those of the global worker's
    node. *)
Definition _redis (address : string) (password : option string) (r : Redis)
    : (string * option string) * Redis :=
  match redis_client r with
  | Some client => (client, r)
  | None =>
      let client := (address, password) in
      (client, {| redis_client := Some client;
                  clients_created := clients_created r ++ [client];
                  published := published r |})
  end.

Definition publish (request : resource_request) (r : Redis) : Redis :=
  {| redis_client := redis_client r;
     clients_created := clients_created r;
     published := published r ++ [request] |}.

(** Lines 63-84. *)
Definition request_resources (address : string) (password : option string)
    (num_cpus : option Z) (bundles : option (list (gmap string Z)))
    (r : Redis) : Redis :=
  let r := (_redis address password r).2 in
  let r := match num_cpus with
           | Some n => if 0 <? n then publish (cpu_request n) r else r
           | None => r
           end in
  match bundles with
  | Some (b :: bs) => publish (bundles_request (b :: bs)) r
  | _ => r
  end.

(** ** Vocabulary of the further statements *)

(** [only allowed m]: from whatever state, a run of [m] makes no call
    outside [allowed]. *)
Definition only {E A} (allowed : event -> bool) (m : M E A) : Prop :=
  forall w, Forall (fun ev => allowed ev = true) (trace (m w)).

(** The calls of config resolution. *)
Definition resolution_call (ev : event) : bool :=
  match ev with
  | read_ev _ | write_ev _ _ | validate_config_ev _ _
  | bootstrap_config_ev _ _ => true
  | _ => false
  end.

(** Opening a provider, listing nodes, releasing the provider. *)
Definition listing_call (ev : event) : bool :=
  match ev with
  | get_node_provider_ev _ _ | non_terminated_nodes_ev _ _ | cleanup_ev => true
  | _ => false
  end.

(** The calls [exec_cluster] may make when it is not to start the cluster:
    it resolves the config, lists nodes and runs the command. *)
Definition exec_call (ev : event) : bool :=
  resolution_call ev || listing_call ev ||
  match ev with
  | run_ev _ _ _ | shutdown_after_next_cmd_ev _ => true
  | _ => false
  end.

(** The calls [rsync] may make. *)
Definition rsync_call (ev : event) : bool :=
  resolution_call ev || listing_call ev ||
  match ev with
  | rsync_ev _ _ _ _ | sync_file_mounts_ev _ _ => true
  | _ => false
  end.

(** The calls the two address look-ups may make. *)
Definition address_call (ev : event) : bool :=
  listing_call ev ||
  match ev with
  | read_ev _ | internal_ip_ev _ _ | external_ip_ev _ _ => true
  | _ => false
  end.

(** The calls of the teardown loop and of [remaining_nodes]; with
    [workers_only] the head nodes are not listed. *)
Definition loop_call (workers_only : bool) (ev : event) : bool :=
  match ev with
  | sample_ev _ _ _ | terminate_nodes_ev (_ :: _) | sleep_ev _ => true
  | non_terminated_nodes_ev f _ =>
      negb workers_only || bool_decide (f = worker_filter)
  | _ => false
  end.

(** The calls [teardown_cluster] may make: it reads and validates the
    config, prompts, opens and releases a provider and runs the loop;
    unless [workers_only], it also runs [exec_cluster]. *)
Definition teardown_call (workers_only : bool) (ev : event) : bool :=
  loop_call workers_only ev ||
  match ev with
  | read_ev _ | validate_config_ev _ _ | confirm_ev _ _
  | get_node_provider_ev _ _ | cleanup_ev => true
  | write_ev _ _ | bootstrap_config_ev _ _ | run_ev _ _ _
  | shutdown_after_next_cmd_ev _ => negb workers_only
  | _ => false
  end.

(** The calls of the readiness poll and of the update phase of head-node
    reconciliation. *)
Definition update_call (ev : event) : bool :=
  match ev with
  | non_terminated_nodes_ev _ _ | internal_ip_ev _ _ | external_ip_ev _ _
  | time_ev _ | sleep_ev _ | tempfile_ev _ | updater_ev _ _ | write_ev _ _ => true
  | _ => false
  end.

(** The calls of head-node reconciliation between opening its provider and
    releasing it. *)
Definition reconcile_call (ev : event) : bool :=
  update_call ev ||
  match ev with
  | node_tags_ev _ _ | create_node_ev _ _ _ | terminate_node_ev _
  | confirm_ev _ _ => true
  | _ => false
  end.

(** The calls [create_or_update_cluster] may make. *)
Definition up_call (ev : event) : bool :=
  resolution_call ev || listing_call ev || reconcile_call ev.

(** What [exec_cluster] may do when it may start the cluster: all of the
    above but prompting. *)
Definition unattended_call (ev : event) : bool :=
  match ev with
  | confirm_ev _ _ => false
  | _ => exec_call ev || reconcile_call ev
  end.

(** Reading or writing a local file. *)
Definition is_file_call (ev : event) : bool :=
  match ev with read_ev _ | write_ev _ _ => true | _ => false end.

(** A listing of nodes. *)
Definition is_listing (ev : event) : bool :=
  match ev with non_terminated_nodes_ev _ _ => true | _ => false end.

(** A prompt. *)
Definition is_prompt (ev : event) : bool :=
  match ev with confirm_ev _ _ => true | _ => false end.

(** [declining m]: a run of [m] ends in [Abort] exactly when the operator
    answered no to one of its prompts. *)
Definition declining {E A} (m : M E A) : Prop :=
  forall w, false ∈ answers (trace (m w)) <-> res (m w) = Exc Abort.

(** Every exception but the operator's [Abort]. *)
Definition not_abort (e : exn) : bool :=
  match e with Abort => false | _ => true end.

(** ** Provider handles *)

Definition is_open (ev : event) : bool :=
  match ev with get_node_provider_ev _ _ => true | _ => false end.

Definition is_release (ev : event) : bool :=
  match ev with cleanup_ev => true | _ => false end.

(** How many providers a run opened with [get_node_provider], and how many
    it released with [cleanup]. *)
Definition opened (t : list event) : nat := length (List.filter is_open t).
Definition released (t : list event) : nat := length (List.filter is_release t).

Definition handle_free (ev : event) : bool := negb (is_open ev || is_release ev).

(** [handles n m]: a run of [m] that is not cut short opens [n] more
    providers than it releases, however it ends. *)
Definition handles {E A} (n : Z) (m : M E A) : Prop :=
  forall w, res (m w) <> OutOfFuel ->
            Z.of_nat (opened (trace (m w))) =
            Z.of_nat (released (trace (m w))) + n.

(** ** Exceptions that escape *)

(** [raises allowed m]: from whatever state, a run of [m] that ends in an
    exception ends in one that [allowed] accepts. *)
Definition raises {E A} (allowed : exn -> bool) (m : M E A) : Prop :=
  forall w e, res (m w) = Exc e -> allowed e = true.

(** What loading the config file can raise. *)
Definition load_error (e : exn) : bool :=
  match e with FileNotFoundError _ | YAMLError => true | _ => false end.

(** What loading and resolving the config can raise. *)
Definition config_error (e : exn) : bool :=
  load_error e ||
  match e with
  | JSONDecodeError | InvalidConfig | NotImplementedError _ => true
  | _ => false
  end.

(** What looking the head node up can raise. *)
Definition not_found (e : exn) : bool :=
  match e with RuntimeError _ => true | _ => false end.

(** What [exec_cluster] and [rsync] can raise when the cluster is not to
    be started. *)
Definition exec_error (e : exn) : bool :=
  config_error e || not_found e ||
  match e with AssertionError _ => true | _ => false end.

(** What head-node reconciliation can raise when it does not prompt. *)
Definition start_error (e : exn) : bool :=
  match e with
  | RuntimeError _ | KeyError "ssh_private_key" | SystemExit 1 => true
  | _ => false
  end.

(** What the teardown loop can raise: the [ValueError] of [random.sample]. *)
Definition sample_error (e : exn) : bool :=
  match e with ValueError _ => true | _ => false end.

(** What [teardown_cluster] can raise. *)
Definition teardown_error (e : exn) : bool :=
  match e with
  | FileNotFoundError _ | YAMLError | InvalidConfig | Abort | ValueError _ => true
  | _ => false
  end.

(** The commands handed to the command runner, with the updater they were
    run through and what they returned. *)
Definition runs (t : list event) : list (UpdaterArgs * RunArgs * string) :=
  omap (fun ev => match ev with
                  | run_ev a r out => Some (a, r, out)
                  | _ => None
                  end) t.

(** The three calls of one look-up of the head node. *)
Definition lookup_calls (config : Config) (nodes : list node_id) : list event :=
  [get_node_provider_ev (provider config) (cluster_name config);
   non_terminated_nodes_ev head_filter nodes;
   cleanup_ev].

(** The error of a look-up that found no head node. *)
Definition head_not_found (config : Config) : exn :=
  RuntimeError ("Head node of cluster (" +:+ cluster_name config +:+ ") not found!").

(** How a look-up that lists [nodes] ends. *)
Definition lookup_result (config : Config) (nodes : list node_id)
    : result node_id :=
  match nodes with
  | head_id :: _ => Ret head_id
  | [] => Exc (head_not_found config)
  end.

(** What [exec_cluster] hands to the command runner when it is given
    neither [screen], [tmux] nor [stop]: the command as it was given and at
    most once; when it returns, once, through an updater built from the
    config it ends with, and what it returns is what the runner returned. *)
Definition ran_plainly {E} (cmd : option string) (run_env : string)
    (port_forward : option (list Z)) (with_output : bool)
    (r : result string) (w' : World E) (t : list event) : Prop :=
  let args := {| run_cmd := cmd; run_exit_on_fail := true;
                 run_port_forward := port_forward;
                 run_with_output := with_output;
                 run_run_env := run_env |} in
  (forall out,
      r = Ret out ->
      exists head_id, runs t = [(plain_updater head_id (cfg w'), args, out)]) /\
  (length (runs t) <= 1)%nat /\
  Forall (fun run : UpdaterArgs * RunArgs * string => run.1.2 = args) (runs t).

(** ** File transfers and address look-ups *)

(** What [rsync] transfers for one node: the given pair of paths, or the
    file mounts when [source] and [target] are not both given. *)
Definition transfer_of (source target : option string)
    : option (string * string) :=
  match source, target with
  | Some src, Some tgt =>
      if nonempty_str src && nonempty_str tgt then Some (src, tgt) else None
  | _, _ => None
  end.

(** The transfers made: node, direction, and the paths ([None]: the file
    mounts). *)
Definition transfers (t : list event)
    : list (node_id * bool * option (string * string)) :=
  omap (fun ev => match ev with
                  | rsync_ev a down src tgt =>
                      Some (upd_node_id a, down, Some (src, tgt))
                  | sync_file_mounts_ev a down =>
                      Some (upd_node_id a, down, None)
                  | _ => None
                  end) t.

(** The addresses asked of the provider: node, answer, and whether the
    internal address was asked for. *)
Definition addresses (t : list event) : list (node_id * string * bool) :=
  omap (fun ev => match ev with
                  | internal_ip_ev n ip => Some (n, ip, true)
                  | external_ip_ev n ip => Some (n, ip, false)
                  | _ => None
                  end) t.

(** The exit codes of the updaters that were run. *)
Definition exit_codes (t : list event) : list Z :=
  omap (fun ev => match ev with
                  | updater_ev _ code => Some code
                  | _ => None
                  end) t.

(** A series of [request_resources] calls, each with its [num_cpus] and
    [bundles]. *)
Definition request_all (address : string) (password : option string)
    (calls : list (option Z * option (list (gmap string Z)))) (r : Redis)
    : Redis :=
  foldl (fun r call => request_resources address password call.1 call.2 r)
        r calls.

(** ** Reasoning about runs *)

Section Runs.
Context {E : Type} `{!Environment E} `{!Externals}.

Lemma provider_writes_app t1 t2 :
  provider_writes (t1 ++ t2) = (provider_writes t1 ++ provider_writes t2)%list.
Proof. apply List.filter_app. Qed.

Lemma tags_read_app t1 t2 :
  tags_read (t1 ++ t2) = (tags_read t1 ++ tags_read t2)%list.
Proof. apply omap_app. Qed.

Lemma updaters_app t1 t2 :
  updaters (t1 ++ t2) = (updaters t1 ++ updaters t2)%list.
Proof. apply omap_app. Qed.

Lemma queries_app t1 t2 :
  queries (t1 ++ t2) = (queries t1 ++ queries t2)%list.
Proof. apply omap_app. Qed.

Lemma queries_cons ev t :
  queries (ev :: t) =
  match ev with
  | non_terminated_nodes_ev f r => (f, r) :: queries t
  | _ => queries t
  end.
Proof. destruct ev; reflexivity. Qed.

Lemma updaters_cons ev t :
  updaters (ev :: t) =
  match ev with updater_ev a _ => a :: updaters t | _ => updaters t end.
Proof. destruct ev; reflexivity. Qed.

Lemma tags_read_cons ev t :
  tags_read (ev :: t) =
  match ev with node_tags_ev n r => (n, r) :: tags_read t | _ => tags_read t end.
Proof. destruct ev; reflexivity. Qed.

Lemma provider_writes_cons ev t :
  provider_writes (ev :: t) =
  if is_provider_write ev then ev :: provider_writes t else provider_writes t.
Proof. reflexivity. Qed.

Lemma wp_bind {A B} (m : M E A) (k : A -> M E B) (w : World E) Q :
  wp m w (fun r w' t =>
            match r with
            | Ret a => wp (k a) w' (fun r' w'' t' => Q r' w'' (t ++ t')%list)
            | Exc e => Q (Exc e) w' t
            | OutOfFuel => Q OutOfFuel w' t
            end) ->
  wp (bind m k) w Q.
Proof. unfold wp, bind. cbv zeta. destruct (res (m w)); auto. Qed.

Lemma wp_ret {A} (a : A) (w : World E) Q : Q (Ret a) w [] -> wp (ret a) w Q.
Proof. auto. Qed.

Lemma wp_out_of_fuel {A} (w : World E) (Q : result A -> World E -> list event -> Prop) :
  Q OutOfFuel w [] -> wp out_of_fuel w Q.
Proof. auto. Qed.

Lemma wp_raise {A} e (w : World E) (Q : result A -> World E -> list event -> Prop) :
  Q (Exc e) w [] -> wp (raise e) w Q.
Proof. auto. Qed.

Lemma wp_call {A} (f : E -> A * E) ev (w : World E) Q :
  Q (Ret (f (env w)).1) (mkWorld (f (env w)).2 (fs w) (cfg w)) [ev (f (env w)).1] ->
  wp (call f ev) w Q.
Proof. auto. Qed.

Lemma wp_call_ (f : E -> E) ev (w : World E) Q :
  Q (Ret tt) (mkWorld (f (env w)) (fs w) (cfg w)) [ev] -> wp (call_ f ev) w Q.
Proof. auto. Qed.

Lemma wp_ret_emit ev (w : World E) Q : Q (Ret tt) w [ev] -> wp (emit ev) w Q.
Proof. auto. Qed.

Lemma wp_get_config (w : World E) Q : Q (Ret (cfg w)) w [] -> wp get_config w Q.
Proof. auto. Qed.

Lemma wp_set_config c (w : World E) Q :
  Q (Ret tt) (mkWorld (env w) (fs w) c) [] -> wp (set_config c) w Q.
Proof. auto. Qed.

Lemma wp_read_file path (w : World E) Q :
  Q (match fs w !! path with
     | Some text => Ret text
     | None => Exc (FileNotFoundError path)
     end) w [read_ev path] ->
  wp (read_file path) w Q.
Proof. auto. Qed.

Lemma wp_write_file path contents (w : World E) Q :
  Q (Ret tt) (mkWorld (env w) (<[path := contents]> (fs w)) (cfg w))
    [write_ev path contents] ->
  wp (write_file path contents) w Q.
Proof. auto. Qed.

Lemma wp_path_exists path (w : World E) Q :
  Q (Ret (bool_decide (is_Some (fs w !! path)))) w [] ->
  wp (path_exists path) w Q.
Proof. auto. Qed.

Lemma wp_confirm msg yes (w : World E) Q :
  (yes = true -> Q (Ret tt) w []) ->
  (yes = false -> forall e', Q (Ret tt) (mkWorld e' (fs w) (cfg w)) [confirm_ev msg true]) ->
  (yes = false -> forall e', Q (Exc Abort) (mkWorld e' (fs w) (cfg w)) [confirm_ev msg false]) ->
  wp (confirm msg yes) w Q.
Proof.
  intros Hy Ht Hf. unfold confirm. destruct yes; [apply Hy; reflexivity|].
  apply wp_bind, wp_call.
  destruct (env_confirm msg (env w)) as [[] e']; cbn [fst snd].
  - apply wp_ret. rewrite app_nil_r. apply Ht. reflexivity.
  - apply wp_raise. apply Hf. reflexivity.
Qed.

(** A prompt leaves no mark but its own event. *)
Lemma wp_confirm_quiet msg yes (w : World E) Q :
  (forall e' t, quiet t -> Q (Ret tt) (mkWorld e' (fs w) (cfg w)) t) ->
  (forall e' t, quiet t -> Q (Exc Abort) (mkWorld e' (fs w) (cfg w)) t) ->
  wp (confirm msg yes) w Q.
Proof.
  intros HR HA. destruct w as [e f c]; cbn [fs cfg] in *.
  apply wp_confirm; intros; first [apply HR | apply HA];
    repeat split; reflexivity.
Qed.

Lemma wp_first_confirm (b1 b2 : bool) msg1 msg2 yes (w : World E) Q :
  (forall e' t, quiet t -> Q (Ret tt) (mkWorld e' (fs w) (cfg w)) t) ->
  (forall e' t, quiet t -> Q (Exc Abort) (mkWorld e' (fs w) (cfg w)) t) ->
  wp (if b1 then confirm msg1 yes
      else if b2 then confirm msg2 yes else ret tt) w Q.
Proof.
  intros HR HA. destruct b1; [|destruct b2]; try (apply wp_confirm_quiet; assumption).
  destruct w as [e f c]; cbn [fs cfg] in *. apply wp_ret, HR; repeat split; reflexivity.
Qed.

Lemma wp_try_finally_cleanup {A} (body : M E A) (w : World E) Q :
  wp body w (fun r w' t =>
               match r with
               | OutOfFuel => Q OutOfFuel w' t
               | _ => Q r (mkWorld (env_cleanup (env w')) (fs w') (cfg w'))
                        (t ++ [cleanup_ev])%list
               end) ->
  wp (try_finally body cleanup) w Q.
Proof.
  unfold wp, try_finally. cbv zeta.
  destruct (body w) as [r w' t]; cbn [res final trace].
  destruct r; auto.
Qed.

Lemma wp_elim {A} (m : M E A) (w : World E) Q :
  wp m w Q -> Q (res (m w)) (final (m w)) (trace (m w)).
Proof. auto. Qed.

Lemma wp_any {A} (m : M E A) (w : World E) (Q : result A -> World E -> list event -> Prop) :
  (forall r w' t, Q r w' t) -> wp m w Q.
Proof. unfold wp. auto. Qed.

Lemma wp_intro {A} (m : M E A) (w : World E) (Q : result A -> World E -> list event -> Prop) :
  Q (res (m w)) (final (m w)) (trace (m w)) -> wp m w Q.
Proof. auto. Qed.

(** A fact proved about a run can be used where the run occurs. *)
Lemma wp_mono {A} (m : M E A) w (P Q : result A -> World E -> list event -> Prop) :
  wp m w P ->
  (forall r w' t, P r w' t -> Q r w' t) ->
  wp m w Q.
Proof. unfold wp. auto. Qed.
End Runs.

#[global] Opaque wp.

Ltac wp_step :=
  lazymatch goal with
  | |- wp (bind _ _) _ _ => apply wp_bind
  | |- wp (ret _) _ _ => apply wp_ret
  | |- wp (raise _) _ _ => apply wp_raise
  | |- wp out_of_fuel _ _ => apply wp_out_of_fuel
  | |- wp get_config _ _ => apply wp_get_config
  | |- wp (set_config _) _ _ => apply wp_set_config
  | |- wp (call _ _) _ _ => apply wp_call
  | |- wp (call_ _ _) _ _ => apply wp_call_
  | |- wp (get_node_provider _ _) _ _ => apply wp_call_
  | |- wp (non_terminated_nodes _) _ _ => apply wp_call
  | |- wp (node_tags _) _ _ => apply wp_call
  | |- wp (create_node _ _ _) _ _ => apply wp_call_
  | |- wp (terminate_node _) _ _ => apply wp_call_
  | |- wp (terminate_nodes _) _ _ => apply wp_call_
  | |- wp (internal_ip _) _ _ => apply wp_call
  | |- wp (external_ip _) _ _ => apply wp_call
  | |- wp cleanup _ _ => apply wp_call_
  | |- wp time_time _ _ => apply wp_call
  | |- wp (time_sleep _) _ _ => apply wp_call_
  | |- wp (emit _) _ _ => apply wp_ret_emit
  | |- wp (read_file _) _ _ => apply wp_read_file
  | |- wp (write_file _ _) _ _ => apply wp_write_file
  | |- wp (path_exists _) _ _ => apply wp_path_exists
  | |- wp (try_finally _ cleanup) _ _ => apply wp_try_finally_cleanup
  end.

Ltac wp_steps := repeat (wp_step; cbv beta iota).

(** Normalises the projections of a trace made of known events and unknown
    segments. *)
Ltac trace_norm :=
  unfold provider_writes, tags_read, updaters, queries in *;
  repeat (rewrite ?List.filter_app, ?omap_app;
          cbn [app List.filter omap is_provider_write]).


(** Right-nests the appends of a trace. *)
Ltac list_norm :=
  repeat (progress (rewrite <- ?List.app_assoc, ?List.app_nil_r; cbn [app])).

(** ** Bounding the calls of a command *)

Section Only.
Context {E : Type} `{!Environment E} `{!Externals}.
Variable allowed : event -> bool.

Lemma only_ret {A} (a : A) : only (E:=E) allowed (ret a).
Proof. intros w. constructor. Qed.

Lemma only_raise {A} e : only (E:=E) (A:=A) allowed (raise e).
Proof. intros w. constructor. Qed.

Lemma only_out_of_fuel {A} : only (E:=E) (A:=A) allowed out_of_fuel.
Proof. intros w. constructor. Qed.

Lemma only_get_config : only (E:=E) allowed get_config.
Proof. intros w. constructor. Qed.

Lemma only_set_config c : only (E:=E) allowed (set_config c).
Proof. intros w. constructor. Qed.

Lemma only_path_exists p : only (E:=E) allowed (path_exists p).
Proof. intros w. constructor. Qed.

Lemma only_state {A} (f : World E -> A) :
  only allowed (fun w => mkOutcome (Ret (f w)) w []).
Proof. intros w. constructor. Qed.

Lemma only_call {A} (f : E -> A * E) ev :
  (forall a, allowed (ev a) = true) -> only allowed (call f ev).
Proof. intros Hev w. cbn. repeat constructor. apply Hev. Qed.

Lemma only_call_ (f : E -> E) ev :
  allowed ev = true -> only allowed (call_ f ev).
Proof. intros Hev w. cbn. repeat constructor. exact Hev. Qed.

Lemma only_emit ev : allowed ev = true -> only (E:=E) allowed (emit ev).
Proof. intros Hev w. cbn. repeat constructor. exact Hev. Qed.

Lemma only_read_file p :
  allowed (read_ev p) = true -> only (E:=E) allowed (read_file p).
Proof. intros Hev w. cbn. repeat constructor. exact Hev. Qed.

Lemma only_write_file p c :
  allowed (write_ev p c) = true -> only (E:=E) allowed (write_file p c).
Proof. intros Hev w. cbn. repeat constructor. exact Hev. Qed.

Lemma only_bind {A B} (m : M E A) (k : A -> M E B) :
  only allowed m -> (forall a, only allowed (k a)) -> only allowed (bind m k).
Proof.
  intros Hm Hk w. unfold bind. specialize (Hm w).
  destruct (res (m w)) as [a| |]; cbn; [|assumption..].
  apply Forall_app. split; [assumption | apply Hk].
Qed.

Lemma only_try_finally {A} (body : M E A) fin :
  only allowed body -> only allowed fin -> only allowed (try_finally body fin).
Proof.
  intros Hb Hf w. unfold try_finally. specialize (Hb w).
  destruct (res (body w)); cbn; try assumption;
    apply Forall_app; (split; [assumption | apply Hf]).
Qed.

Lemma only_try_except (body : M E unit) :
  only allowed body -> only allowed (try_except_Exception body).
Proof.
  intros Hb w. unfold try_except_Exception. specialize (Hb w).
  destruct (res (body w)) as [|e|]; try assumption.
  destruct (is_Exception e); assumption.
Qed.

Lemma only_with_own_config {A} (m : M E A) :
  only allowed m -> only allowed (with_own_config m).
Proof. intros Hm w. apply Hm. Qed.

Lemma only_confirm msg yes :
  (forall b, allowed (confirm_ev msg b) = true) -> only allowed (confirm msg yes).
Proof.
  intros Hev. unfold confirm. destruct yes; [apply only_ret|].
  apply only_bind; [apply only_call; exact Hev|].
  intros []; [apply only_ret | apply only_raise].
Qed.

Lemma only_for_each {A} (xs : list A) (body : A -> M E unit) :
  (forall x, only allowed (body x)) -> only allowed (for_each xs body).
Proof.
  intros Hb. induction xs as [|x xs IH]; cbn [for_each]; [apply only_ret|].
  apply only_bind; [apply Hb | intros; exact IH].
Qed.

Lemma only_map_each {A B} (f : A -> M E B) xs :
  (forall x, only allowed (f x)) -> only allowed (map_each f xs).
Proof.
  intros Hf. induction xs as [|x xs IH]; cbn [map_each]; [apply only_ret|].
  apply only_bind; [apply Hf | intros].
  apply only_bind; [exact IH | intros; apply only_ret].
Qed.
End Only.

Lemma only_mono {E A} (a b : event -> bool) (m : M E A) :
  (forall ev, a ev = true -> b ev = true) -> only a m -> only b m.
Proof.
  intros Hab Hm w. eapply Forall_impl; [apply Hm|]. exact Hab.
Qed.

(** Splits a command into its calls; what is left are the calls that
    [allowed] has to accept. *)
Ltac only_side :=
  intros; cbn;
  repeat match goal with
         | |- context [bool_decide (?a = ?b)] =>
             rewrite (bool_decide_eq_true_2 (a = b)) by reflexivity
         end;
  cbn; rewrite ?orb_true_r; reflexivity.

Ltac only_step :=
  lazymatch goal with
  | |- only _ (bind _ _) => apply only_bind; [|intros]
  | |- only _ (ret _) => apply only_ret
  | |- only _ (raise _) => apply only_raise
  | |- only _ out_of_fuel => apply only_out_of_fuel
  | |- only _ get_config => apply only_get_config
  | |- only _ (set_config _) => apply only_set_config
  | |- only _ (path_exists _) => apply only_path_exists
  | |- only _ (call _ _) => apply only_call; only_side
  | |- only _ (call_ _ _) => apply only_call_; only_side
  | |- only _ (emit _) => apply only_emit; only_side
  | |- only _ (read_file _) => apply only_read_file; only_side
  | |- only _ (write_file _ _) => apply only_write_file; only_side
  | |- only _ (confirm _ true) => apply only_ret
  | |- only _ (confirm _ _) => apply only_confirm; only_side
  | |- only _ (try_finally _ _) => apply only_try_finally
  | |- only _ (try_except_Exception _) => apply only_try_except
  | |- only _ (with_own_config _) => apply only_with_own_config
  | |- only _ (for_each _ _) => apply only_for_each; intros
  | |- only _ (map_each _ _) => apply only_map_each; intros
  | |- only _ (fun w => mkOutcome (Ret _) w []) => apply only_state
  | |- only _ (if ?b then _ else _) => destruct b
  | |- only _ (match ?x with _ => _ end) => destruct x
  end.

Ltac only_unfold :=
  unfold load_config, validate, _bootstrap_config, find_head_node,
    head_node_not_found, _get_head_node, _get_worker_nodes, _exec,
    get_node_provider, non_terminated_nodes, node_tags, create_node,
    terminate_node, terminate_nodes, internal_ip, external_ip, cleanup,
    time_time, time_sleep, random_sample.

Ltac only_tac := repeat (only_unfold; only_step).

Section OnlyCommands.
Context {E : Type} `{!Environment E} `{!Externals}.

Lemma exec_cluster_only fuel config_file cmd run_env screen tmux stop
    override_cluster_name port_forward with_output :
  only (E:=E) exec_call
    (exec_cluster fuel config_file cmd run_env screen tmux stop false
                  override_cluster_name port_forward with_output).
Proof. unfold exec_cluster. only_tac. Qed.

Lemma remaining_nodes_only workers_only keep_min_workers :
  only (E:=E) (loop_call workers_only)
       (remaining_nodes workers_only keep_min_workers).
Proof. unfold remaining_nodes. only_tac. Qed.

Lemma teardown_loop_only fuel workers_only keep_min_workers A :
  only (E:=E) (loop_call workers_only)
       (teardown_loop fuel workers_only keep_min_workers A).
Proof.
  revert A. induction fuel as [|fuel IH]; intros [|n A]; cbn [teardown_loop];
    try (only_tac; fail).
  apply only_bind; [only_tac | intros].
  apply only_bind; [only_tac | intros].
  apply only_bind; [apply remaining_nodes_only | intros; apply IH].
Qed.

Lemma wait_for_head_node_only fuel start tags :
  only (E:=E) update_call (wait_for_head_node fuel start tags).
Proof.
  induction fuel as [|fuel IH]; cbn [wait_for_head_node]; [apply only_out_of_fuel|].
  apply only_bind; [only_tac | intros now].
  destruct (50 <? now - start); [apply only_raise|].
  apply only_bind; [only_tac | intros nodes].
  assert (Hgo : only (E:=E) update_call
                  (time_sleep 1;;; wait_for_head_node fuel start tags)).
  { apply only_bind; [only_tac | intros; exact IH]. }
  destruct nodes as [|n [|n' nodes]]; [exact Hgo | apply only_ret | exact Hgo].
Qed.

Lemma create_or_replace_head_node_only no_restart yes :
  only (E:=E) reconcile_call (create_or_replace_head_node no_restart yes).
Proof. unfold create_or_replace_head_node. only_tac. Qed.

Lemma update_head_node_only head_id tags no_restart restart_only :
  only (E:=E) update_call
       (update_head_node head_id tags no_restart restart_only).
Proof. unfold update_head_node. only_tac. Qed.

(** With [yes], the create-or-replace decision does not prompt. *)
Lemma create_or_replace_head_node_yes no_restart :
  only (E:=E) unattended_call (create_or_replace_head_node no_restart true).
Proof. unfold create_or_replace_head_node. only_tac. Qed.

Lemma get_or_create_head_node_only fuel config_file no_restart restart_only
    yes override_cluster_name :
  only (E:=E) up_call
    (get_or_create_head_node fuel config_file no_restart restart_only yes
                             override_cluster_name).
Proof.
  unfold get_or_create_head_node.
  apply only_bind; [only_tac | intros].
  apply only_bind; [only_tac | intros].
  apply only_try_finally; [|only_tac].
  apply only_bind; [|intros].
  { eapply only_mono; [|apply create_or_replace_head_node_only].
    intros ev Hev. unfold up_call. rewrite Hev. apply orb_true_r. }
  apply only_bind; [only_tac | intros].
  apply only_bind; [|intros].
  { eapply only_mono; [|apply wait_for_head_node_only].
    intros ev Hev. unfold up_call, reconcile_call. rewrite Hev. apply orb_true_r. }
  apply only_bind; [|intros; apply only_ret].
  eapply only_mono; [|apply update_head_node_only].
  intros ev Hev. unfold up_call, reconcile_call. rewrite Hev. apply orb_true_r.
Qed.

Lemma get_head_node_only fuel config_file override_cluster_name
    create_if_needed :
  only (E:=E) up_call
    (_get_head_node fuel config_file override_cluster_name create_if_needed).
Proof.
  unfold _get_head_node. unfold find_head_node at 1.
  apply only_bind; [only_tac | intros].
  apply only_bind; [only_tac | intros].
  apply only_bind; [only_tac | intros nodes].
  destruct nodes; [|apply only_ret].
  destruct create_if_needed; [|only_tac].
  apply only_bind; [apply get_or_create_head_node_only | intros; only_tac].
Qed.

Lemma update_call_unattended ev :
  update_call ev = true -> unattended_call ev = true.
Proof. destruct ev; cbn; try discriminate; intros _; reflexivity. Qed.

Lemma get_or_create_head_node_yes fuel config_file no_restart restart_only
    override_cluster_name :
  only (E:=E) unattended_call
    (get_or_create_head_node fuel config_file no_restart restart_only true
                             override_cluster_name).
Proof.
  unfold get_or_create_head_node.
  apply only_bind; [only_tac | intros].
  apply only_bind; [only_tac | intros].
  apply only_try_finally; [|only_tac].
  apply only_bind; [apply create_or_replace_head_node_yes | intros].
  apply only_bind; [only_tac | intros].
  apply only_bind; [|intros].
  { eapply only_mono; [apply update_call_unattended | apply wait_for_head_node_only]. }
  apply only_bind; [|intros; apply only_ret].
  eapply only_mono; [apply update_call_unattended | apply update_head_node_only].
Qed.

Lemma exec_cluster_unattended fuel config_file cmd run_env screen tmux stop
    start override_cluster_name port_forward with_output :
  only (E:=E) unattended_call
    (exec_cluster fuel config_file cmd run_env screen tmux stop start
                  override_cluster_name port_forward with_output).
Proof.
  unfold exec_cluster.
  destruct (screen && tmux); [apply only_raise|].
  destruct (negb _); [apply only_raise|].
  apply only_bind; [only_tac | intros].
  apply only_bind; [only_tac | intros].
  apply only_bind; [only_tac | intros].
  apply only_bind; [|intros; only_tac].
  unfold _get_head_node. unfold find_head_node at 1.
  apply only_bind; [only_tac | intros].
  apply only_bind; [only_tac | intros].
  apply only_bind; [only_tac | intros nodes].
  destruct nodes; [|apply only_ret].
  destruct start; [|only_tac].
  apply only_bind; [apply get_or_create_head_node_yes | intros; only_tac].
Qed.
Lemma unattended_unprompted ev :
  unattended_call ev = true -> negb (is_prompt ev) = true.
Proof. destruct ev; cbn; intros; first [discriminate | reflexivity]. Qed.

Lemma loop_unprompted workers_only ev :
  loop_call workers_only ev = true -> negb (is_prompt ev) = true.
Proof. destruct ev; cbn; intros; first [discriminate | reflexivity]. Qed.

(** Lines 140-191 of [teardown_cluster], what follows the prompt, asks
    nothing more of the operator. *)
Lemma teardown_after_prompt_unprompted fuel config_file workers_only
    override_cluster_name keep_min_workers config :
  only (E:=E) (fun ev => negb (is_prompt ev))
    ((if negb workers_only then
        try_except_Exception
          (with_own_config
             (exec_cluster fuel config_file (Some "ray stop") "auto"
                           false false false false override_cluster_name
                           None false);;;
           ret tt)
      else ret tt);;;
     get_node_provider (provider config) (cluster_name config);;;
     try_finally
       (A <- remaining_nodes workers_only keep_min_workers;;
        teardown_loop fuel workers_only keep_min_workers A)
       cleanup).
Proof.
  apply only_bind.
  { destruct workers_only; cbn [negb]; [apply only_ret|].
    apply only_try_except. apply only_bind; [|intros; apply only_ret].
    apply only_with_own_config.
    eapply only_mono; [exact unattended_unprompted | apply exec_cluster_unattended]. }
  intros. apply only_bind; [only_tac | intros].
  apply only_try_finally; [|only_tac].
  eapply only_mono; [apply (loop_unprompted workers_only)|].
  apply only_bind; [apply remaining_nodes_only
                   | intros; apply teardown_loop_only].
Qed.
End OnlyCommands.


(** ** Bounding the exceptions of a command *)

Section Raises.
Context {E : Type} `{!Environment E} `{!Externals}.
Variable allowed : exn -> bool.

Lemma raises_ret {A} (a : A) : raises (E:=E) allowed (ret a).
Proof. intros w e [=]. Qed.

Lemma raises_raise {A} e :
  allowed e = true -> raises (E:=E) (A:=A) allowed (raise e).
Proof. intros He w e' [= <-]. exact He. Qed.

Lemma raises_out_of_fuel {A} : raises (E:=E) (A:=A) allowed out_of_fuel.
Proof. intros w e [=]. Qed.

Lemma raises_get_config : raises (E:=E) allowed get_config.
Proof. intros w e [=]. Qed.

Lemma raises_set_config c : raises (E:=E) allowed (set_config c).
Proof. intros w e [=]. Qed.

Lemma raises_path_exists p : raises (E:=E) allowed (path_exists p).
Proof. intros w e [=]. Qed.

Lemma raises_state {A} (f : World E -> A) :
  raises allowed (fun w => mkOutcome (Ret (f w)) w []).
Proof. intros w e [=]. Qed.

Lemma raises_call {A} (f : E -> A * E) ev : raises allowed (call f ev).
Proof. intros w e [=]. Qed.

Lemma raises_call_ (f : E -> E) ev : raises allowed (call_ f ev).
Proof. intros w e [=]. Qed.

Lemma raises_emit ev : raises (E:=E) allowed (emit ev).
Proof. intros w e [=]. Qed.

Lemma raises_read_file p :
  allowed (FileNotFoundError p) = true -> raises (E:=E) allowed (read_file p).
Proof.
  intros Hp w e. unfold read_file. cbn [res].
  destruct (fs w !! p); intros [= <-]. exact Hp.
Qed.

Lemma raises_write_file p c : raises (E:=E) allowed (write_file p c).
Proof. intros w e [=]. Qed.

Lemma raises_bind {A B} (m : M E A) (k : A -> M E B) :
  raises allowed m -> (forall a, raises allowed (k a)) -> raises allowed (bind m k).
Proof.
  intros Hm Hk w e. unfold bind. cbv zeta. specialize (Hm w).
  destruct (res (m w)) as [a|e'|]; cbn [res].
  - apply Hk.
  - intros [= <-]. apply Hm. reflexivity.
  - intros [=].
Qed.

Lemma raises_try_finally_cleanup {A} (body : M E A) :
  raises allowed body -> raises allowed (try_finally body cleanup).
Proof.
  intros Hb w e. unfold try_finally. cbv zeta. specialize (Hb w).
  destruct (res (body w)) as [a|e'|] eqn:Hr; cbn [res cleanup call_].
  - intros [=].
  - intros [= <-]. apply Hb. reflexivity.
  - rewrite Hr. intros [=].
Qed.

Lemma raises_with_own_config {A} (m : M E A) :
  raises allowed m -> raises allowed (with_own_config m).
Proof. intros Hm w e. apply Hm. Qed.

Lemma raises_confirm msg yes :
  (yes = false -> allowed Abort = true) -> raises allowed (confirm msg yes).
Proof.
  intros Hy w e. unfold confirm. destruct yes; [intros [=]|].
  unfold bind, call. cbn [res final]. destruct (env_confirm msg (env w)).1; cbn.
  - intros [=].
  - intros [= <-]. apply Hy. reflexivity.
Qed.

Lemma raises_for_each {A} (xs : list A) (body : A -> M E unit) :
  (forall x, raises allowed (body x)) -> raises allowed (for_each xs body).
Proof.
  intros Hb. induction xs as [|x xs IH]; cbn [for_each]; [apply raises_ret|].
  apply raises_bind; [apply Hb | intros; exact IH].
Qed.

Lemma raises_map_each {A B} (f : A -> M E B) xs :
  (forall x, raises allowed (f x)) -> raises allowed (map_each f xs).
Proof.
  intros Hf. induction xs as [|x xs IH]; cbn [map_each]; [apply raises_ret|].
  apply raises_bind; [apply Hf | intros].
  apply raises_bind; [exact IH | intros; apply raises_ret].
Qed.
End Raises.

Lemma raises_mono {E A} (a b : exn -> bool) (m : M E A) :
  (forall e, a e = true -> b e = true) -> raises a m -> raises b m.
Proof. intros Hab Hm w e Hr. apply Hab. eapply Hm. exact Hr. Qed.

(** [except Exception] lets through what is not an [Exception]. *)
Lemma raises_try_except {E} (a b : exn -> bool) (body : M E unit) :
  raises a body ->
  (forall e, a e = true -> is_Exception e = false -> b e = true) ->
  raises b (try_except_Exception body).
Proof.
  intros Hb Hab w e. unfold try_except_Exception. specialize (Hb w).
  destruct (res (body w)) as [|e'|] eqn:Hr.
  - rewrite Hr. intros [=].
  - destruct (is_Exception e') eqn:He; cbn [res]; [intros [=]|].
    rewrite Hr. intros [= <-]. apply Hab; [apply Hb; reflexivity | exact He].
  - rewrite Hr. intros [=].
Qed.

Ltac raises_step :=
  lazymatch goal with
  | |- raises _ (bind _ _) => apply raises_bind; [|intros]
  | |- raises _ (ret _) => apply raises_ret
  | |- raises _ (raise _) => apply raises_raise; reflexivity
  | |- raises _ out_of_fuel => apply raises_out_of_fuel
  | |- raises _ get_config => apply raises_get_config
  | |- raises _ (set_config _) => apply raises_set_config
  | |- raises _ (path_exists _) => apply raises_path_exists
  | |- raises _ (call _ _) => apply raises_call
  | |- raises _ (call_ _ _) => apply raises_call_
  | |- raises _ (emit _) => apply raises_emit
  | |- raises _ (read_file _) => apply raises_read_file; reflexivity
  | |- raises _ (write_file _ _) => apply raises_write_file
  | |- raises _ (confirm _ true) => apply raises_ret
  | |- raises _ (confirm _ _) => apply raises_confirm; intros; reflexivity
  | |- raises _ (try_finally _ _) => apply raises_try_finally_cleanup
  | |- raises _ (with_own_config _) => apply raises_with_own_config
  | |- raises _ (for_each _ _) => apply raises_for_each; intros
  | |- raises _ (map_each _ _) => apply raises_map_each; intros
  | |- raises _ (fun w => mkOutcome (Ret _) w []) => apply raises_state
  | |- raises _ (if ?b then _ else _) => destruct b
  | |- raises _ (match ?x with _ => _ end) => destruct x
  end.

Ltac raises_tac := repeat (only_unfold; raises_step).

Section RaisesCommands.
Context {E : Type} `{!Environment E} `{!Externals}.

Lemma exec_cluster_raises fuel config_file cmd run_env screen tmux stop
    override_cluster_name port_forward with_output :
  raises (E:=E) exec_error
    (exec_cluster fuel config_file cmd run_env screen tmux stop false
                  override_cluster_name port_forward with_output).
Proof. unfold exec_cluster. raises_tac. Qed.

Lemma wait_for_head_node_raises fuel start tags :
  raises (E:=E) start_error (wait_for_head_node fuel start tags).
Proof.
  induction fuel as [|fuel IH]; cbn [wait_for_head_node]; [apply raises_out_of_fuel|].
  apply raises_bind; [raises_tac | intros now].
  destruct (50 <? now - start); [apply raises_raise; reflexivity|].
  apply raises_bind; [raises_tac | intros nodes].
  assert (Hgo : raises (E:=E) start_error
                  (time_sleep 1;;; wait_for_head_node fuel start tags)).
  { apply raises_bind; [raises_tac | intros; exact IH]. }
  destruct nodes as [|n [|n' nodes]]; [exact Hgo | apply raises_ret | exact Hgo].
Qed.

Lemma update_head_node_raises head_id tags no_restart restart_only :
  raises (E:=E) start_error
         (update_head_node head_id tags no_restart restart_only).
Proof. unfold update_head_node. raises_tac. Qed.

Lemma get_or_create_head_node_raises fuel config_file no_restart restart_only
    override_cluster_name :
  raises (E:=E) start_error
    (get_or_create_head_node fuel config_file no_restart restart_only true
                             override_cluster_name).
Proof.
  unfold get_or_create_head_node.
  apply raises_bind; [raises_tac | intros].
  apply raises_bind; [raises_tac | intros].
  apply raises_try_finally_cleanup.
  apply raises_bind; [unfold create_or_replace_head_node; raises_tac | intros].
  apply raises_bind; [raises_tac | intros].
  apply raises_bind; [apply wait_for_head_node_raises | intros].
  apply raises_bind; [apply update_head_node_raises | intros; apply raises_ret].
Qed.

Lemma remaining_nodes_raises workers_only keep_min_workers :
  raises (E:=E) sample_error (remaining_nodes workers_only keep_min_workers).
Proof. unfold remaining_nodes. raises_tac. Qed.

Lemma teardown_loop_raises fuel workers_only keep_min_workers A :
  raises (E:=E) sample_error
         (teardown_loop fuel workers_only keep_min_workers A).
Proof.
  revert A. induction fuel as [|fuel IH]; intros [|n A]; cbn [teardown_loop];
    try (raises_tac; fail).
  apply raises_bind; [raises_tac | intros].
  apply raises_bind; [raises_tac | intros].
  apply raises_bind; [apply remaining_nodes_raises | intros; apply IH].
Qed.
(** Lines 140-191 of [teardown_cluster]: what follows the prompt. *)
Lemma teardown_after_prompt_raises fuel config_file workers_only
    override_cluster_name keep_min_workers config :
  raises (E:=E) sample_error
    ((if negb workers_only then
        try_except_Exception
          (with_own_config
             (exec_cluster fuel config_file (Some "ray stop") "auto"
                           false false false false override_cluster_name
                           None false);;;
           ret tt)
      else ret tt);;;
     get_node_provider (provider config) (cluster_name config);;;
     try_finally
       (A <- remaining_nodes workers_only keep_min_workers;;
        teardown_loop fuel workers_only keep_min_workers A)
       cleanup).
Proof.
  apply raises_bind.
  { destruct (negb workers_only); [|apply raises_ret].
    eapply raises_try_except.
    - apply raises_bind; [|intros; apply raises_ret].
      apply raises_with_own_config, exec_cluster_raises.
    - intros []; cbn; intros; discriminate. }
  intros. apply raises_bind; [raises_tac | intros].
  apply raises_try_finally_cleanup.
  apply raises_bind; [apply remaining_nodes_raises | intros].
  apply teardown_loop_raises.
Qed.

(** Past its two assertions, [exec_cluster] raises no [AssertionError]. *)
Lemma exec_cluster_checked_raises fuel config_file cmd run_env screen tmux stop
    start override_cluster_name port_forward with_output :
  screen && tmux = false ->
  run_env ∈ RUN_ENV_TYPES ->
  raises (E:=E) (fun e => config_error e || not_found e || start_error e)
    (exec_cluster fuel config_file cmd run_env screen tmux stop start
                  override_cluster_name port_forward with_output).
Proof.
  intros Hst Henv. unfold exec_cluster.
  rewrite Hst, (bool_decide_eq_true_2 _ Henv). cbn [negb].
  apply raises_bind; [raises_tac | intros].
  apply raises_bind; [raises_tac | intros].
  apply raises_bind; [raises_tac | intros].
  apply raises_bind; [|intros; raises_tac].
  unfold _get_head_node. unfold find_head_node at 1.
  apply raises_bind; [raises_tac | intros].
  apply raises_bind; [raises_tac | intros].
  apply raises_bind; [raises_tac | intros nodes].
  destruct nodes; [|apply raises_ret].
  destruct start; [|raises_tac].
  apply raises_bind; [|intros; raises_tac].
  eapply raises_mono; [|apply get_or_create_head_node_raises].
  intros e He. rewrite He. apply orb_true_r.
Qed.

Lemma exec_cluster_start_raises fuel config_file cmd run_env screen tmux stop
    start override_cluster_name port_forward with_output :
  raises (E:=E) (fun e => exec_error e || start_error e)
    (exec_cluster fuel config_file cmd run_env screen tmux stop start
                  override_cluster_name port_forward with_output).
Proof.
  destruct (screen && tmux) eqn:Hst.
  { unfold exec_cluster. rewrite Hst. apply raises_raise. reflexivity. }
  destruct (decide (run_env ∈ RUN_ENV_TYPES)) as [Henv|Henv].
  - eapply raises_mono; [|apply exec_cluster_checked_raises; assumption].
    intros e He. cbv beta in He. unfold exec_error.
    apply orb_true_iff in He as [He|He]; rewrite He;
      [reflexivity | apply orb_true_r].
  - unfold exec_cluster. rewrite Hst, (bool_decide_eq_false_2 _ Henv).
    apply raises_raise. reflexivity.
Qed.
End RaisesCommands.


(** ** Using a bound where a run occurs *)

Section RunsWithin.
Context {E : Type} `{!Environment E} `{!Externals}.

Lemma wp_only {A} (allowed : event -> bool) (m : M E A) (w : World E) Q :
  only allowed m ->
  (forall r w' t, Forall (fun ev => allowed ev = true) t -> Q r w' t) ->
  wp m w Q.
Proof. intros Hm HQ. apply wp_intro, HQ, Hm. Qed.

Lemma wp_bind_only {A B} (allowed : event -> bool) (m : M E A)
    (k : A -> M E B) (w : World E) Q :
  only allowed m ->
  (forall a w' t, Forall (fun ev => allowed ev = true) t ->
                  wp (k a) w' (fun r w'' t' => Q r w'' (t ++ t')%list)) ->
  (forall e w' t, Forall (fun ev => allowed ev = true) t -> Q (Exc e) w' t) ->
  (forall w' t, Forall (fun ev => allowed ev = true) t -> Q OutOfFuel w' t) ->
  wp (bind m k) w Q.
Proof.
  intros Hm Hk He Hf. apply wp_bind. eapply wp_only; [exact Hm|].
  intros [a|e|] w' t Ht; auto.
Qed.

Lemma wp_facts {A} (allowed : event -> bool) (errors : exn -> bool)
    (m : M E A) (w : World E) Q :
  only allowed m ->
  raises errors m ->
  (forall r w' t,
      Forall (fun ev => allowed ev = true) t ->
      (forall e, r = Exc e -> errors e = true) ->
      Q r w' t) ->
  wp m w Q.
Proof.
  intros Ho Hr HQ. apply wp_intro, HQ; [apply Ho|]. intros e. apply Hr.
Qed.

Lemma runs_app t1 t2 : runs (t1 ++ t2) = (runs t1 ++ runs t2)%list.
Proof. apply omap_app. Qed.

Lemma runs_cons ev t :
  runs (ev :: t) =
  match ev with run_ev a r out => (a, r, out) :: runs t | _ => runs t end.
Proof. destruct ev; reflexivity. Qed.

Lemma up_call_runs t : Forall (fun ev => up_call ev = true) t -> runs t = [].
Proof.
  induction 1 as [|ev t Hev _ IH]; [reflexivity|].
  rewrite runs_cons, IH. destruct ev; try reflexivity; discriminate Hev.
Qed.

End RunsWithin.

(** ** Declined prompts *)

Section Declining.
Context {E : Type} `{!Environment E} `{!Externals}.

Lemma answers_app t1 t2 : answers (t1 ++ t2) = (answers t1 ++ answers t2)%list.
Proof. apply omap_app. Qed.

Lemma answers_cons ev t :
  answers (ev :: t) =
  match ev with confirm_ev _ answer => answer :: answers t | _ => answers t end.
Proof. destruct ev; reflexivity. Qed.

Lemma unprompted_answers t :
  Forall (fun ev => negb (is_prompt ev) = true) t -> answers t = [].
Proof.
  induction 1 as [|ev t Hev _ IH]; [reflexivity|].
  rewrite answers_cons, IH. destruct ev; try reflexivity; discriminate Hev.
Qed.

Lemma retags_cons ev t :
  retags (ev :: t) =
  match ev with set_node_tags_ev n tags => (n, tags) :: retags t | _ => retags t end.
Proof. destruct ev; reflexivity. Qed.

Lemma up_call_retags t : Forall (fun ev => up_call ev = true) t -> retags t = [].
Proof.
  induction 1 as [|ev t Hev _ IH]; [reflexivity|].
  rewrite retags_cons, IH. destruct ev; try reflexivity; discriminate Hev.
Qed.

(** A command that neither prompts nor raises [Abort]. *)
Lemma declining_quiet {A} (m : M E A) :
  only (fun ev => negb (is_prompt ev)) m -> raises not_abort m -> declining m.
Proof.
  intros Ho Hr w. rewrite (unprompted_answers _ (Ho w)). split.
  - intros Hin. apply elem_of_nil in Hin. destruct Hin.
  - intros Ha. discriminate (Hr w _ Ha).
Qed.

Lemma declining_confirm msg yes : declining (E:=E) (confirm msg yes).
Proof.
  intros w. unfold confirm. destruct yes.
  - cbn. split; [intros Hin; apply elem_of_nil in Hin; destruct Hin | discriminate].
  - unfold bind, call. cbn [res final trace].
    destruct (env_confirm msg (env w)).1; cbn.
    + split; [|discriminate]. intros Hin.
      apply list_elem_of_singleton in Hin. discriminate Hin.
    + split; [reflexivity|]. intros _. apply list_elem_of_singleton. reflexivity.
Qed.

Lemma declining_bind {A B} (m : M E A) (k : A -> M E B) :
  declining m -> (forall a, declining (k a)) -> declining (bind m k).
Proof.
  intros Hm Hk w. specialize (Hm w). unfold bind. cbv zeta.
  destruct (res (m w)) as [a|e|] eqn:Hr; cbn [res trace].
  - rewrite answers_app, elem_of_app, <- (Hk a (final (m w))).
    split; [|auto]. intros [Hin|Hin]; [|exact Hin].
    apply Hm in Hin. discriminate Hin.
  - rewrite Hm. split; intros [= ->]; reflexivity.
  - split; [|discriminate]. intros Hin. apply Hm in Hin. discriminate Hin.
Qed.

Lemma declining_try_finally_cleanup {A} (body : M E A) :
  declining body -> declining (try_finally body cleanup).
Proof.
  intros Hb w. specialize (Hb w). unfold try_finally. cbv zeta.
  destruct (res (body w)) as [a|e|] eqn:Hr; cbn [res trace cleanup call_].
  - rewrite answers_app, app_nil_r. rewrite Hb. split; discriminate.
  - rewrite answers_app, app_nil_r. exact Hb.
  - rewrite Hr. exact Hb.
Qed.

Lemma create_or_replace_head_node_declining no_restart yes :
  declining (E:=E) (create_or_replace_head_node no_restart yes).
Proof.
  assert (Hq : forall A (m : M E A),
             only (fun ev => negb (is_prompt ev)) m -> raises not_abort m ->
             declining m) by (intros; apply declining_quiet; assumption).
  unfold create_or_replace_head_node.
  apply declining_bind; [apply Hq; [only_tac | raises_tac] | intros config].
  apply declining_bind; [apply Hq; [only_tac | raises_tac] | intros nodes].
  apply declining_bind.
  { destruct (negb (truthy (head nodes))); [apply declining_confirm|].
    destruct (negb no_restart); [apply declining_confirm|].
    apply Hq; [only_tac | raises_tac]. }
  intros _. apply declining_bind.
  { destruct (head nodes); (apply Hq; [only_tac | raises_tac]). }
  intros stale. destruct stale; [|apply Hq; [only_tac | raises_tac]].
  apply declining_bind.
  { destruct (head nodes); [|apply Hq; [only_tac | raises_tac]].
    apply declining_bind; [apply declining_confirm | intros].
    apply Hq; [only_tac | raises_tac]. }
  intros _. apply Hq; [only_tac | raises_tac].
Qed.

Lemma start_error_not_abort e : start_error e = true -> not_abort e = true.
Proof. destruct e; cbn; intros; first [discriminate | reflexivity]. Qed.

Lemma update_call_unprompted ev :
  update_call ev = true -> negb (is_prompt ev) = true.
Proof. destruct ev; cbn; intros; first [discriminate | reflexivity]. Qed.

(** Reconciliation ends in [Abort] exactly when the operator declined one
    of its prompts. *)
Lemma get_or_create_head_node_declining fuel config_file no_restart
    restart_only yes override_cluster_name :
  declining (E:=E)
    (get_or_create_head_node fuel config_file no_restart restart_only yes
                             override_cluster_name).
Proof.
  unfold get_or_create_head_node.
  apply declining_bind; [apply declining_quiet; [only_tac | raises_tac] | intros].
  apply declining_bind; [apply declining_quiet; [only_tac | raises_tac] | intros].
  apply declining_try_finally_cleanup.
  apply declining_bind; [apply create_or_replace_head_node_declining | intros].
  apply declining_bind; [apply declining_quiet; [only_tac | raises_tac] | intros].
  apply declining_bind; [|intros].
  { apply declining_quiet.
    - eapply only_mono; [exact update_call_unprompted
                        | apply wait_for_head_node_only].
    - eapply raises_mono; [exact start_error_not_abort
                          | apply wait_for_head_node_raises]. }
  apply declining_bind; [|intros; apply declining_quiet; [only_tac | raises_tac]].
  apply declining_quiet.
  - eapply only_mono; [exact update_call_unprompted
                      | apply update_head_node_only].
  - eapply raises_mono; [exact start_error_not_abort
                        | apply update_head_node_raises].
Qed.
End Declining.
Section Reconciliation.
Context {E : Type} `{!Environment E} `{!Externals}.

Lemma create_or_replace_decision no_restart yes (w : World E) :
  wp (create_or_replace_head_node no_restart yes) w
     (fun r w' t => decision (cfg w) r t /\ cfg w' = cfg w /\ fs w' = fs w).
Proof.
  unfold create_or_replace_head_node.
  wp_steps.
  destruct (env_non_terminated_nodes _ (env w)) as [nodes e1]; cbn [fst snd].
  destruct nodes as [|h rest]; cbn [head].
  - (* no head node *)
    cbn [truthy negb]. apply wp_confirm; intros; wp_steps; cbn [fst snd cfg fs];
      try (split; [|split; reflexivity]);
      first [ eapply decision_abort; reflexivity
            | apply decision_create; reflexivity ].
  - (* nodes[0] is the head node *)
    apply wp_first_confirm; cbn [fs cfg].
    2:{ intros e' t (Hw & _ & Hu & Hq). split; [|split; reflexivity].
        apply (decision_abort _ _ (h :: rest)); trace_norm;
          rewrite ?Hw, ?Hu, ?Hq; reflexivity. }
    intros e' t (Hw & Hr & Hu & Hq). wp_steps. cbn [env fst snd].
    destruct (env_node_tags h e') as [tags e2]; cbn [fst snd].
    destruct (bool_decide_reflect (tags !! TAG_RAY_LAUNCH_CONFIG =
                Some (hash_launch_conf (head_node (cfg w)) (auth (cfg w)))))
      as [Heq|Hne]; cbn [negb].
    + wp_steps. split; [|split; reflexivity].
      apply (decision_keep _ _ h rest tags); [| | | exact Heq |];
        trace_norm; rewrite ?Hr, ?Hw, ?Hu, ?Hq; reflexivity.
    + wp_steps. apply wp_confirm; intros; wp_steps; cbn [fst snd cfg fs env];
        (split; [|split; reflexivity]).
      * apply (decision_replace _ _ h rest tags); [| | | exact Hne |];
          trace_norm; rewrite ?Hr, ?Hw, ?Hu, ?Hq; reflexivity.
      * apply (decision_replace _ _ h rest tags); [| | | exact Hne |];
          trace_norm; rewrite ?Hr, ?Hw, ?Hu, ?Hq; reflexivity.
      * apply (decision_abort _ _ (h :: rest)); trace_norm;
          rewrite ?Hr, ?Hw, ?Hu, ?Hq; reflexivity.
Qed.

Lemma wait_for_head_node_poll fuel start tags (w : World E) :
  wp (wait_for_head_node fuel start tags) w
     (fun r w' t => poll_trace start tags t r /\
                    cfg w' = cfg w /\ fs w' = fs w).
Proof.
  revert w. induction fuel as [|fuel IH]; intros w.
  - cbn [wait_for_head_node]. wp_steps. split; [constructor | split; reflexivity].
  - cbn [wait_for_head_node]. wp_steps.
    destruct (env_time (env w)) as [now e1]; cbn [fst snd].
    destruct (Z.ltb_spec 50 (now - start)) as [Hlate|Hok].
    + wp_steps. split; [|split; reflexivity]. apply poll_timeout. exact Hlate.
    + wp_steps. cbn [env fs cfg].
      destruct (env_non_terminated_nodes tags e1) as [nodes e2]; cbn [fst snd].
      assert (Hagain : length nodes <> 1%nat ->
                wp (time_sleep 1;;; wait_for_head_node fuel start tags)
                   (mkWorld e2 (fs w) (cfg w))
                   (fun r w' t =>
                      poll_trace start tags
                        ([time_ev now] ++ [non_terminated_nodes_ev tags nodes] ++ t) r /\
                      cfg w' = cfg w /\ fs w' = fs w)).
      { intros Hlen. wp_steps. cbn [env fs cfg].
        eapply wp_mono; [apply IH|]. cbn [cfg fs].
        intros r w' t (Hp & Hc & Hf). split; [|split; assumption].
        cbn. apply poll_again; assumption. }
      destruct nodes as [|n [|n' rest]].
      * apply Hagain. discriminate.
      * wp_steps. split; [|split; reflexivity]. cbn. apply poll_found. exact Hok.
      * apply Hagain. discriminate.
Qed.

Lemma select_commands_set_file_mounts mounts config no_restart restart_only :
  select_commands (set_file_mounts mounts config) no_restart restart_only =
  select_commands config no_restart restart_only.
Proof. reflexivity. Qed.

(** Lines 351-393, once [config["file_mounts"]] holds [mounts]. *)
Lemma update_head_node_tail config f mounts head_id tags no_restart restart_only
    (e1 : E) fs1 (Q : result string -> World E -> list event -> Prop) :
  mounts_with_bootstrap config f = Some mounts ->
  (forall r w' t,
      update_run config tags head_id no_restart restart_only r (cfg w')
        ([tempfile_ev f;
          write_ev f (json_dumps (remote_config_of config no_restart))] ++ t) ->
      Q r w' t) ->
  wp (let config' := set_file_mounts mounts config in
      let '(init_commands, ray_start_commands) :=
        select_commands config' no_restart restart_only in
      let updater :=
        {| upd_node_id := head_id;
           upd_provider_config := provider config';
           upd_auth_config := auth config';
           upd_cluster_name := cluster_name config';
           upd_file_mounts := file_mounts config';
           upd_initialization_commands := initialization_commands config';
           upd_setup_commands := init_commands;
           upd_ray_start_commands := ray_start_commands;
           upd_runtime_hash := hash_runtime_conf (file_mounts config) config;
           upd_docker_config := docker config' |} in
      exitcode <- call (env_updater updater) (updater_ev updater);;
      non_terminated_nodes tags;;;
      head_node_ip <- (if use_internal_ips (provider config')
                       then internal_ip head_id
                       else external_ip head_id);;
      if bool_decide (exitcode = 0) then ret head_node_ip
      else raise (SystemExit 1))
     (mkWorld e1 fs1 (set_file_mounts mounts config)) Q.
Proof.
  intros Hm HQ. cbv zeta.
  rewrite select_commands_set_file_mounts.
  pose proof (fun code nodes ip =>
                update_ran config tags head_id no_restart restart_only
                           f mounts code nodes ip Hm) as HU.
  unfold head_updater in HU.
  destruct (select_commands config no_restart restart_only)
    as [init_commands ray_start_commands]; cbn [fst snd] in HU.
  cbn [provider auth cluster_name file_mounts initialization_commands docker
       set_file_mounts].
  wp_steps. cbn [env fs cfg fst snd].
  match goal with
  | |- context [env_updater ?a e1] =>
      destruct (env_updater a e1) as [code e2]
  end; cbn [fst snd].
  destruct (env_non_terminated_nodes tags e2) as [nodes e3]; cbn [fst snd].
  specialize (HU code nodes).
  destruct (use_internal_ips (provider config)); wp_steps; cbn [env fs cfg fst snd].
  - destruct (env_internal_ip head_id e3) as [ip e4]; cbn [fst snd].
    specialize (HU ip).
    destruct (bool_decide (code = 0)); wp_steps; apply HQ; exact HU.
  - destruct (env_external_ip head_id e3) as [ip e4]; cbn [fst snd].
    specialize (HU ip).
    destruct (bool_decide (code = 0)); wp_steps; apply HQ; exact HU.
Qed.

Lemma update_head_node_run head_id tags no_restart restart_only (w : World E) :
  wp (update_head_node head_id tags no_restart restart_only) w
     (fun r w' t =>
        update_run (cfg w) tags head_id no_restart restart_only r (cfg w') t).
Proof.
  unfold update_head_node. wp_steps. cbn [env fs cfg fst snd].
  destruct (env_mktemp "ray-bootstrap-" (env w)) as [f e1]; cbn [fst snd].
  pose proof (eq_refl (mounts_with_bootstrap (cfg w) f)) as Hm.
  unfold mounts_with_bootstrap at 2 in Hm.
  destruct (bool_decide (provider_type (provider (cfg w)) = "kubernetes")).
  - wp_steps. cbn [env fs cfg fst snd].
    apply (update_head_node_tail (cfg w) f _ head_id tags); [exact Hm |].
    intros r w' t HU. exact HU.
  - wp_steps. cbn [env fs cfg fst snd auth set_file_mounts].
    destruct (auth (cfg w) !! "ssh_private_key") as [key|].
    + wp_steps. cbn [env fs cfg fst snd file_mounts set_file_mounts].
      apply (update_head_node_tail (cfg w) f _ head_id tags); [exact Hm |].
      intros r w' t HU. exact HU.
    + wp_steps. cbn [cfg]. apply update_no_key. exact Hm.
Qed.

(** Every run of [get_or_create_head_node] is one of the four kinds of
    [reconciliation]. *)
Lemma get_or_create_head_node_run fuel config_file no_restart restart_only yes
    override_cluster_name (w : World E) :
  wp (get_or_create_head_node fuel config_file no_restart restart_only yes
                              override_cluster_name) w
     (fun r w' t => reconciliation (cfg w) no_restart restart_only r (cfg w') t).
Proof.
  unfold get_or_create_head_node. wp_steps. cbn [env fs cfg].
  eapply wp_mono; [apply create_or_replace_decision|].
  cbn [cfg fs]. intros rd w1 td (Hd & Hc1 & _).
  destruct rd as [tags|e|].
  - wp_steps. cbn [env fs cfg fst snd].
    destruct (env_time (env w1)) as [start e2]; cbn [fst snd].
    eapply wp_mono; [apply wait_for_head_node_poll|].
    cbn [cfg fs]. intros rw w2 tw (Hp & Hc2 & _).
    destruct rw as [head_id|e|].
    + wp_steps. eapply wp_mono; [apply update_head_node_run|].
      intros ru w3 tu Hu. rewrite Hc2, Hc1 in Hu.
      pose proof (reconciliation_updated _ _ _ _ _ _ _ _ _ _ _ Hd Hp Hu) as HR.
      destruct ru as [ip|e|]; wp_steps; cbn [cfg] in *; list_norm;
        try exact HR.
      inversion Hu.
      all: match goal with
           | H : (if ?b then _ else _) = OutOfFuel |- _ => destruct b; discriminate H
           end.
    + cbn [cfg]. rewrite Hc2, Hc1. list_norm.
      apply (reconciliation_not_ready _ _ _ _ _ _ _ _ Hd Hp).
    + cbn [cfg]. rewrite Hc2, Hc1. list_norm.
      apply (reconciliation_out_of_fuel _ _ _ _ _ _ _ Hd Hp).
  - cbn [cfg]. rewrite Hc1. list_norm.
    apply (reconciliation_aborted _ _ _ _ _ Hd).
  - inversion Hd.
Qed.
End Reconciliation.

Section ReconciliationFacts.
Context `{!Externals}.

Lemma poll_trace_quiet start tags t r :
  poll_trace start tags t r ->
  provider_writes t = [] /\ tags_read t = [] /\ updaters t = [].
Proof. induction 1; cbn; auto. Qed.

Lemma poll_trace_not_abort start tags t :
  ~ poll_trace start tags t (Exc Abort).
Proof.
  intros Hp. remember (Exc Abort) as r eqn:Hr.
  induction Hp; try discriminate; auto.
Qed.

Lemma update_run_quiet config tags head_id no_restart restart_only r config' t :
  update_run config tags head_id no_restart restart_only r config' t ->
  provider_writes t = [] /\ tags_read t = [].
Proof.
  destruct 1; cbn; auto.
  destruct (use_internal_ips (provider config)); cbn; auto.
Qed.

Lemma update_run_not_abort config tags head_id no_restart restart_only r config' t :
  update_run config tags head_id no_restart restart_only r config' t ->
  match r with Ret _ => Ret tt | Exc e => Exc e | OutOfFuel => OutOfFuel end
    <> Exc Abort.
Proof.
  destruct 1; [discriminate|]. destruct (bool_decide (code = 0)); discriminate.
Qed.

Lemma decision_queries config rd td :
  decision config rd td -> exists nodes, queries td = [(head_filter, nodes)].
Proof. destruct 1; eauto. Qed.

(** The nodes a reconciliation creates or terminates, and the tags it
    reads, are those of its create-or-replace decision, whose listing of
    the head nodes is the first listing it asks for; it ends aborted exactly
    when the decision was. *)
Lemma reconciliation_decision config no_restart restart_only r config' t :
  reconciliation config no_restart restart_only r config' t ->
  exists rd td,
    decision config rd td /\
    provider_writes t = provider_writes td /\
    tags_read t = tags_read td /\
    head (queries t) = head (queries td) /\
    (r = Exc Abort <-> rd = Exc Abort).
Proof.
  assert (Hhead : forall rd td rest,
             decision config rd td ->
             head (queries (get_node_provider_ev (provider config)
                                                 (cluster_name config)
                              :: td ++ rest)) = head (queries td)).
  { intros rd td rest Hd. destruct (decision_queries _ _ _ Hd) as (nodes & Hq).
    rewrite queries_cons, queries_app, Hq. reflexivity. }
  destruct 1 as [e td Hd | tags td start tw e Hd Hp | tags td start tw Hd Hp
                | tags td start tw head_id r config' tu Hd Hp Hu].
  - exists (Exc e), td. split; [exact Hd|].
    rewrite (Hhead _ _ _ Hd).
    rewrite provider_writes_cons, tags_read_cons, provider_writes_app, tags_read_app.
    cbn. rewrite !List.app_nil_r.
    repeat split; congruence.
  - exists (Ret tags), td. split; [exact Hd|].
    rewrite (Hhead _ _ _ Hd).
    destruct (poll_trace_quiet _ _ _ _ Hp) as (Hw & Hr & _).
    rewrite provider_writes_cons, tags_read_cons, provider_writes_app, tags_read_app.
    rewrite provider_writes_cons, tags_read_cons, provider_writes_app, tags_read_app.
    rewrite Hw, Hr. cbn. rewrite !List.app_nil_r.
    repeat split; try discriminate.
    intros [= ->]. exfalso. exact (poll_trace_not_abort _ _ _ Hp).
  - exists (Ret tags), td. split; [exact Hd|].
    rewrite (Hhead _ _ _ Hd).
    destruct (poll_trace_quiet _ _ _ _ Hp) as (Hw & Hr & _).
    rewrite provider_writes_cons, tags_read_cons, provider_writes_app, tags_read_app.
    rewrite provider_writes_cons, tags_read_cons.
    rewrite Hw, Hr. cbn. rewrite !List.app_nil_r.
    repeat split; discriminate.
  - exists (Ret tags), td. split; [exact Hd|].
    rewrite (Hhead _ _ _ Hd).
    destruct (poll_trace_quiet _ _ _ _ Hp) as (Hw & Hr & _).
    destruct (update_run_quiet _ _ _ _ _ _ _ _ Hu) as (Hw' & Hr').
    rewrite provider_writes_cons, tags_read_cons, provider_writes_app, tags_read_app.
    rewrite provider_writes_cons, tags_read_cons, !provider_writes_app, !tags_read_app.
    rewrite Hw, Hr, Hw', Hr'. cbn. rewrite !List.app_nil_r.
    repeat split; try discriminate.
    intros Ha. exfalso. exact (update_run_not_abort _ _ _ _ _ _ _ _ Hu Ha).
Qed.

Lemma decision_quiet config rd td :
  decision config rd td -> updaters td = [].
Proof. destruct 1; assumption. Qed.

Lemma decision_filter_head config tags td :
  decision config (Ret tags) td ->
  tags !! TAG_RAY_NODE_TYPE = Some NODE_TYPE_HEAD.
Proof.
  inversion 1; subst; unfold new_head_tags, head_filter;
    rewrite ?lookup_insert_ne by discriminate;
    apply lookup_singleton_eq.
Qed.

Lemma poll_trace_found start tags t n :
  poll_trace start tags t (Ret n) ->
  exists pre now,
    t = (pre ++ [time_ev now; non_terminated_nodes_ev tags [n]])%list.
Proof.
  intros Hp. remember (Ret n) as r eqn:Hr.
  induction Hp as [now Hlate | now n' Hok | now nodes t r Hok Hlen Hp IH |];
    try discriminate.
  - injection Hr as ->. exists [], now. reflexivity.
  - destruct (IH Hr) as (pre & now' & ->).
    exists (time_ev now :: non_terminated_nodes_ev tags nodes :: sleep_ev 1 :: pre),
           now'.
    reflexivity.
Qed.

(** The updater only runs right after a poll that returned exactly the
    node it is run on, for the filter in effect: role=head alone when no
    node was created, the tags of the new node when one was. *)
Lemma reconciliation_update_after_poll config no_restart restart_only r config' t a :
  reconciliation config no_restart restart_only r config' t ->
  a ∈ updaters t ->
  exists pre now tags f code post,
    t = (pre ++ [time_ev now;
                 non_terminated_nodes_ev tags [upd_node_id a];
                 tempfile_ev f;
                 write_ev f (json_dumps (remote_config_of config no_restart));
                 updater_ev a code] ++ post)%list /\
    tags = (if nonempty (provider_writes t) then new_head_tags config
            else head_filter) /\
    tags !! TAG_RAY_NODE_TYPE = Some NODE_TYPE_HEAD.
Proof.
  destruct 1 as [e td Hd | tags td start tw e Hd Hp | tags td start tw Hd Hp
                | tags td start tw head_id r config' tu Hd Hp Hu];
    intros Ha; pose proof (decision_quiet _ _ _ Hd) as Hqd;
    rewrite updaters_cons, updaters_app, Hqd in Ha; cbn [app] in Ha.
  - inversion Ha.
  - destruct (poll_trace_quiet _ _ _ _ Hp) as (_ & _ & Hqp).
    rewrite updaters_cons, updaters_app, Hqp in Ha. inversion Ha.
  - destruct (poll_trace_quiet _ _ _ _ Hp) as (_ & _ & Hqp).
    rewrite updaters_cons, Hqp in Ha. inversion Ha.
  - destruct (poll_trace_quiet _ _ _ _ Hp) as (_ & _ & Hqp).
    rewrite updaters_cons, !updaters_app, Hqp in Ha.
    cbn [app] in Ha. change (updaters [cleanup_ev]) with (@nil UpdaterArgs) in Ha.
    rewrite app_nil_r in Ha.
    assert (Hwrites :
              provider_writes
                (get_node_provider_ev (provider config) (cluster_name config)
                   :: td ++ time_ev start :: tw ++ tu ++ [cleanup_ev])
              = provider_writes td).
    { destruct (poll_trace_quiet _ _ _ _ Hp) as (Hw & _ & _).
      destruct (update_run_quiet _ _ _ _ _ _ _ _ Hu) as (Hw' & _).
      rewrite provider_writes_cons, provider_writes_app, provider_writes_cons,
        !provider_writes_app, Hw, Hw'.
      cbn. rewrite app_nil_r. reflexivity. }
    rewrite Hwrites. clear Hwrites.
    destruct (poll_trace_found _ _ _ _ Hp) as (pre & now & ->).
    pose proof (decision_filter_head _ _ _ Hd) as Hhead.
    destruct Hu as [f Hm | f mounts code nodes ip Hm].
    + inversion Ha.
    + assert (a = head_updater config mounts head_id no_restart restart_only)
        as ->.
      { destruct (use_internal_ips (provider config)); cbn in Ha;
          apply list_elem_of_singleton in Ha; exact Ha. }
      exists (get_node_provider_ev (provider config) (cluster_name config)
                :: td ++ time_ev start :: pre)%list, now, tags, f, code.
      exists [non_terminated_nodes_ev tags nodes;
              if use_internal_ips (provider config)
              then internal_ip_ev head_id ip else external_ip_ev head_id ip;
              cleanup_ev].
      split; [|split; [|exact Hhead]].
      * cbn [upd_node_id head_updater]. list_norm. reflexivity.
      * inversion Hd as [| t Hqt _ Htr Hpw
                         | t h' rest' tags' Hqt _ Htr Hfresh Hpw
                         | t h' rest' tags' Hqt _ Htr Hold Hpw]; subst;
          rewrite Hpw; reflexivity.
Qed.
End ReconciliationFacts.

(** ** Head-node reconciliation: create, keep or replace *)

(** C1 (as amended).  When the provider lists a head node and the
    launch-hash tag that reconciliation reads from it differs from the hash
    of the current head launch spec and auth config, then: if the operator
    answered no to a prompt, reconciliation terminates and creates nothing
    and ends in [Abort] (and it ends in [Abort] in no other case);
    otherwise it terminates that node and creates exactly one node tagged
    role=head, launch_hash, name, and makes no other call that creates or
    destroys a node.  In either case it makes no [set_node_tags] call: no
    tag of a node that exists is changed. *)
Theorem stale_head_is_replaced {E} `{!Environment E} `{!Externals}
    fuel config_file no_restart restart_only yes override_cluster_name
    (w : World E) h rest :
  let o := get_or_create_head_node fuel config_file no_restart restart_only yes
                                   override_cluster_name w in
  head (queries (trace o)) = Some (head_filter, h :: rest) ->
  Forall (fun read : node_id * tag_map =>
            read.2 !! TAG_RAY_LAUNCH_CONFIG <> Some (launch_hash_of (cfg w)))
         (tags_read (trace o)) ->
  provider_writes (trace o) =
    (if bool_decide (false ∈ answers (trace o)) then []
     else [terminate_node_ev h;
           create_node_ev (head_node (cfg w)) (new_head_tags (cfg w)) 1%nat]) /\
  (false ∈ answers (trace o) <-> res o = Exc Abort) /\
  retags (trace o) = [].
Proof.
  intros o Hlisted Hstale. subst o.
  pose proof (get_or_create_head_node_declining fuel config_file no_restart
                restart_only yes override_cluster_name w) as Hdeclined.
  split; [|split; [exact Hdeclined|]].
  2:{ apply up_call_retags. apply get_or_create_head_node_only. }
  pose proof (wp_elim _ _ _ (get_or_create_head_node_run fuel config_file
                no_restart restart_only yes override_cluster_name w)) as HR.
  cbv beta in HR.
  apply reconciliation_decision in HR as (rd & td & Hd & Hw & Hr & Hq & Ha).
  rewrite Hw. rewrite Hr in Hstale. rewrite Hq in Hlisted.
  inversion Hd as [t nodes Hqt _ Hpw | t Hqt _ Htr Hpw
                  | t h' rest' tags' Hqt _ Htr Hfresh Hpw
                  | t h' rest' tags' Hqt _ Htr Hold Hpw]; subst;
    rewrite Hqt in Hlisted; cbn in Hlisted.
  - rewrite bool_decide_eq_true_2; [exact Hpw|].
    apply Hdeclined. exact (proj2 Ha eq_refl).
  - discriminate.
  - rewrite Htr in Hstale. inversion Hstale; subst. contradiction.
  - injection Hlisted as -> ->. rewrite Hpw.
    rewrite bool_decide_eq_false_2; [reflexivity|].
    intros Hin. apply Hdeclined in Hin. discriminate (proj1 Ha Hin).
Qed.

Lemma stale_head_is_replaced_witness :
  let o := get_or_create_head_node 60 "cluster.yaml" false false false None
             (Fake.world Inputs.stale_head Fake.base_config) in
  answers (trace o) = [true; true] /\
  (provider_writes (trace o) =
     (if bool_decide (false ∈ answers (trace o)) then []
      else [terminate_node_ev "head-1";
            create_node_ev (head_node Fake.base_config)
                           (new_head_tags Fake.base_config) 1%nat]) /\
   (false ∈ answers (trace o) <-> res o = Exc Abort) /\
   retags (trace o) = []).
Proof.
  cbv zeta. split; [vm_compute; reflexivity|].
  apply (stale_head_is_replaced 60 "cluster.yaml" false false false None
           (Fake.world Inputs.stale_head Fake.base_config) "head-1" []).
  - vm_compute. reflexivity.
  - vm_compute. constructor; [discriminate | constructor].
Defined.

(** C1 as stated fails: the head node's launch hash is stale, the operator
    is asked whether the node may be terminated and declines, and
    reconciliation ends without terminating or creating anything. *)
Lemma stale_head_kept_when_declined :
  let w := Fake.world (Inputs.with_answer false Inputs.stale_head)
                      Fake.base_config in
  let o := get_or_create_head_node 60 "cluster.yaml" true false false None w in
  queries (trace o) = [(head_filter, ["head-1"])] /\
  tags_read (trace o) = [("head-1", Fake.head_tags "ami-1/ubuntu")] /\
  Fake.head_tags "ami-1/ubuntu" !! TAG_RAY_LAUNCH_CONFIG
    <> Some (launch_hash_of (cfg w)) /\
  answers (trace o) = [false] /\
  res o = Exc Abort /\
  provider_writes (trace o) = [].
Proof.
  cbv zeta. split; [|split; [|split; [|split; [|split]]]].
  - vm_compute. reflexivity.
  - vm_compute. reflexivity.
  - vm_compute. discriminate.
  - vm_compute. reflexivity.
  - vm_compute. reflexivity.
  - vm_compute. reflexivity.
Qed.

(** C2 (as amended).  Reconciliation changes nothing on an up-to-date head
    that it finds: when the first head node that the provider lists, the
    one reconciliation looks at, carries a launch-hash tag equal to the hash
    computed from the current config, the call (and so a second call with
    no state change in between) makes no [create_node] and no
    [terminate_node] (nor [terminate_nodes]) call, whatever the flags and
    the operator's answers. *)
Theorem current_head_no_create_no_terminate {E} `{!Environment E} `{!Externals}
    fuel config_file no_restart restart_only yes override_cluster_name
    (w : World E) h rest :
  let o := get_or_create_head_node fuel config_file no_restart restart_only yes
                                   override_cluster_name w in
  head (queries (trace o)) = Some (head_filter, h :: rest) ->
  Forall (fun read : node_id * tag_map =>
            read.2 !! TAG_RAY_LAUNCH_CONFIG = Some (launch_hash_of (cfg w)))
         (tags_read (trace o)) ->
  provider_writes (trace o) = [].
Proof.
  intros o Hlisted Hfresh. subst o.
  pose proof (wp_elim _ _ _ (get_or_create_head_node_run fuel config_file
                no_restart restart_only yes override_cluster_name w)) as HR.
  cbv beta in HR.
  apply reconciliation_decision in HR as (rd & td & Hd & Hw & Hr & Hq & Ha).
  rewrite Hw. rewrite Hr in Hfresh. rewrite Hq in Hlisted.
  inversion Hd as [t nodes Hqt _ Hpw | t Hqt _ Htr Hpw
                  | t h' rest' tags' Hqt _ Htr Hfresh' Hpw
                  | t h' rest' tags' Hqt _ Htr Hold Hpw]; subst;
    rewrite Hqt in Hlisted; cbn in Hlisted.
  - exact Hpw.
  - discriminate.
  - exact Hpw.
  - rewrite Htr in Hfresh. inversion Hfresh; subst. contradiction.
Qed.

Lemma current_head_no_create_no_terminate_witness :
  let first_call :=
    get_or_create_head_node 60 "cluster.yaml" false false true None
      (Fake.world Fake.env0 Fake.base_config) in
  let second_call :=
    get_or_create_head_node 60 "cluster.yaml" false false true None
      (Fake.world (env (final first_call)) Fake.base_config) in
  provider_writes (trace first_call) =
    [create_node_ev (head_node Fake.base_config)
                    (new_head_tags Fake.base_config) 1%nat] /\
  provider_writes (trace second_call) = [].
Proof.
  cbv zeta. split.
  - vm_compute. reflexivity.
  - apply (current_head_no_create_no_terminate 60 "cluster.yaml" false false
             true None _ "node-0" []).
    + vm_compute. reflexivity.
    + vm_compute. repeat constructor.
Defined.

(** C2 as stated fails: an up-to-date head node that is not listed first
    is not found.  The provider still lists the stale head it was asked to
    terminate 5 seconds ago.  The first call replaced that node by
    [node-0], which carries the current launch hash; the second call, in
    the state the first one left, looks at [head-1] again, asks for its
    termination and creates one more node. *)
Lemma current_head_behind_stale_one_is_replaced :
  let first_call :=
    get_or_create_head_node 60 "cluster.yaml" false false true None
      (Fake.world (Inputs.with_lag 5 Inputs.stale_head) Fake.base_config) in
  let state := env (final first_call) in
  let second_call :=
    get_or_create_head_node 60 "cluster.yaml" false false true None
      (Fake.world state Fake.base_config) in
  Fake.list_nodes head_filter state = ["head-1"; "node-0"] /\
  Fake.tags_of "node-0" state !! TAG_RAY_LAUNCH_CONFIG
    = Some (launch_hash_of Fake.base_config) /\
  tags_read (trace second_call) = [("head-1", Fake.head_tags "ami-1/ubuntu")] /\
  provider_writes (trace second_call) =
    [terminate_node_ev "head-1";
     create_node_ev (head_node Fake.base_config)
                    (new_head_tags Fake.base_config) 1%nat].
Proof.
  cbv zeta. repeat split; vm_compute; reflexivity.
Qed.

(** ** Head-node reconciliation: the readiness poll *)

Section Readiness.
Context {E : Type} `{!Environment E} `{!Externals}.

(** With a clock that moves on, the poll gives up or finds its node within
    52 turns: turn [i] starts at least [i] seconds after [start]. *)
Lemma wait_for_head_node_ends `{!Timely E} fuel start tags (w : World E) :
  (Z.to_nat (51 - ((env_time (env w)).1 - start)) < fuel)%nat ->
  wp (wait_for_head_node fuel start tags) w (fun r _ _ => r <> OutOfFuel).
Proof.
  revert w. induction fuel as [|fuel IH]; intros w Hfuel; [lia|].
  cbn [wait_for_head_node]. wp_steps.
  pose proof (time_monotone (env w)) as Hmono.
  destruct (env_time (env w)) as [now e1]; cbn [fst snd] in *.
  destruct (Z.ltb_spec 50 (now - start)) as [Hlate|Hok].
  - wp_steps. discriminate.
  - wp_steps. cbn [env fs cfg].
    pose proof (query_monotone tags e1) as Hq.
    destruct (env_non_terminated_nodes tags e1) as [nodes e2]; cbn [fst snd] in *.
    assert (Hagain :
              wp (time_sleep 1;;; wait_for_head_node fuel start tags)
                 (mkWorld e2 (fs w) (cfg w)) (fun r _ _ => r <> OutOfFuel)).
    { wp_steps. cbn [env fs cfg].
      eapply wp_mono; [apply IH|]; cbn [env].
      - pose proof (sleep_advances 1 e2). lia.
      - intros r _ _ Hr. exact Hr. }
    destruct nodes as [|n [|n' rest]]; try exact Hagain.
    wp_steps. discriminate.
Qed.

Lemma get_or_create_head_node_ends `{!Timely E} fuel config_file no_restart
    restart_only yes override_cluster_name (w : World E) :
  (52 <= fuel)%nat ->
  wp (get_or_create_head_node fuel config_file no_restart restart_only yes
                              override_cluster_name) w
     (fun r _ _ => r <> OutOfFuel).
Proof.
  intros Hfuel. unfold get_or_create_head_node. wp_steps. cbn [env fs cfg].
  eapply wp_mono; [apply create_or_replace_decision|].
  cbn [cfg fs]. intros rd w1 td (Hd & _ & _).
  destruct rd as [tags|e|]; [| discriminate | inversion Hd].
  wp_steps. cbn [env fs cfg fst snd].
  pose proof (time_monotone (env w1)) as Hmono.
  destruct (env_time (env w1)) as [start e2]; cbn [fst snd] in *.
  eapply wp_mono; [apply wait_for_head_node_ends; cbn [env]; lia|].
  intros rw w2 tw Hrw.
  destruct rw as [head_id|e|]; [| discriminate | contradiction].
  wp_steps. eapply wp_mono; [apply update_head_node_run|].
  intros ru w3 tu Hu.
  destruct ru as [ip|e|]; wp_steps; try discriminate.
  inversion Hu.
  match goal with
  | H : (if ?b then _ else _) = OutOfFuel |- _ => destruct b; discriminate H
  end.
Qed.
End Readiness.

(** A poll that was cut short has listed the nodes once per unit of
    fuel. *)
Lemma wait_for_head_node_fuel {E} `{!Environment E} `{!Externals}
    fuel start tags (w : World E) :
  wp (wait_for_head_node fuel start tags) w
     (fun r _ t => r = OutOfFuel -> length (queries t) = fuel).
Proof.
  revert w. induction fuel as [|fuel IH]; intros w.
  - cbn [wait_for_head_node]. wp_steps. reflexivity.
  - cbn [wait_for_head_node]. wp_steps.
    destruct (50 <? _); [wp_steps; discriminate|].
    wp_steps. cbn [env fs cfg].
    destruct (env_non_terminated_nodes tags _) as [nodes e2]; cbn [fst snd].
    assert (Hagain :
              wp (time_sleep 1;;; wait_for_head_node fuel start tags)
                 (mkWorld e2 (fs w) (cfg w))
                 (fun r _ t =>
                    r = OutOfFuel ->
                    length (queries ([time_ev (env_time (env w)).1] ++
                                     [non_terminated_nodes_ev tags nodes] ++ t))
                    = S fuel)).
    { wp_steps. eapply wp_mono; [apply IH|].
      intros r w' t Ht Hr. cbn [app].
      rewrite queries_cons, queries_cons, queries_cons. cbn [length].
      rewrite (Ht Hr). reflexivity. }
    destruct nodes as [|n [|n' rest]]; try exact Hagain.
    wp_steps. discriminate.
Qed.

Lemma fake_timely : Timely Fake.Env.
Proof. split; intros; cbn; lia. Qed.

(** C4 (as amended).  After the create-or-replace decision, reconciliation
    polls the provider with the head tag filter then in effect, sleeping 1
    second between polls, until exactly one node is returned; a turn that
    starts more than 50 seconds after the start raises
    [RuntimeError("Failed to create head node.")] instead of polling; the
    poll stops for no other reason (cut short, it has polled once per unit
    of fuel).  The updater only runs right after a poll that returned
    exactly one node, the node it is then run on, and the filter of that
    poll is role=head alone when reconciliation created no node, and
    role=head with the new launch_hash and name tags when it created one:
    nodes tagged role=head that the filter leaves out are not looked at.
    With a clock that moves on, 52 turns are enough for the poll to end. *)
Theorem head_readiness_poll {E} `{!Environment E} `{!Externals} :
  (forall fuel start tags (w : World E),
      let o := wait_for_head_node fuel start tags w in
      poll_trace start tags (trace o) (res o) /\
      (res o = OutOfFuel -> length (queries (trace o)) = fuel)) /\
  (forall fuel config_file no_restart restart_only yes override_cluster_name
          (w : World E) a,
      let o := get_or_create_head_node fuel config_file no_restart restart_only
                                       yes override_cluster_name w in
      a ∈ updaters (trace o) ->
      exists pre now tags f code post,
        trace o =
          (pre ++ [time_ev now;
                   non_terminated_nodes_ev tags [upd_node_id a];
                   tempfile_ev f;
                   write_ev f (json_dumps (remote_config_of (cfg w) no_restart));
                   updater_ev a code] ++ post)%list /\
        tags = (if nonempty (provider_writes (trace o))
                then new_head_tags (cfg w) else head_filter) /\
        tags !! TAG_RAY_NODE_TYPE = Some NODE_TYPE_HEAD) /\
  (Timely E ->
   forall fuel config_file no_restart restart_only yes override_cluster_name
          (w : World E),
     (52 <= fuel)%nat ->
     res (get_or_create_head_node fuel config_file no_restart restart_only yes
                                  override_cluster_name w) <> OutOfFuel).
Proof.
  split; [|split].
  - intros fuel start tags w o. subst o. split.
    + exact (proj1 (wp_elim _ _ _ (wait_for_head_node_poll fuel start tags w))).
    + exact (wp_elim _ _ _ (wait_for_head_node_fuel fuel start tags w)).
  - intros fuel config_file no_restart restart_only yes override_cluster_name
           w a o Ha. subst o.
    eapply reconciliation_update_after_poll; [|exact Ha].
    exact (wp_elim _ _ _ (get_or_create_head_node_run fuel config_file
             no_restart restart_only yes override_cluster_name w)).
  - intros Htimely fuel config_file no_restart restart_only yes
           override_cluster_name w Hfuel.
    exact (wp_elim _ _ _ (get_or_create_head_node_ends fuel config_file
             no_restart restart_only yes override_cluster_name w Hfuel)).
Qed.

Lemma head_readiness_poll_witness :
  let o := get_or_create_head_node 52 "cluster.yaml" false false true None
             (Fake.world Inputs.stale_head Fake.base_config) in
  res o <> OutOfFuel /\
  exists pre now tags f code post,
    trace o =
      (pre ++ [time_ev now;
               non_terminated_nodes_ev tags ["node-0"];
               tempfile_ev f;
               write_ev f (json_dumps (remote_config_of Fake.base_config false));
               updater_ev (head_updater Fake.base_config
                             (<[ "~/ray_bootstrap_key.pem" := "~/.ssh/key.pem" ]>
                                (<[ "~/ray_bootstrap_config.yaml" :=
                                      "ray-bootstrap-0001" ]>
                                   (file_mounts Fake.base_config)))
                             "node-0" false false) code] ++ post)%list /\
    tags = (if nonempty (provider_writes (trace o))
            then new_head_tags Fake.base_config else head_filter) /\
    tags !! TAG_RAY_NODE_TYPE = Some NODE_TYPE_HEAD.
Proof.
  cbv zeta. split.
  - apply (proj2 (proj2 head_readiness_poll) fake_timely). lia.
  - apply (proj1 (proj2 head_readiness_poll) 52%nat "cluster.yaml" false false
             true None (Fake.world Inputs.stale_head Fake.base_config)
             (head_updater Fake.base_config
                (<[ "~/ray_bootstrap_key.pem" := "~/.ssh/key.pem" ]>
                   (<[ "~/ray_bootstrap_config.yaml" := "ray-bootstrap-0001" ]>
                      (file_mounts Fake.base_config)))
                "node-0" false false)).
    vm_compute. apply list_elem_of_singleton. reflexivity.
Defined.

(** C4 as stated fails where the provider keeps listing a node for a while
    after it was asked to terminate it (here 5 seconds).  The stale head is
    terminated and a new one created; the poll asks for role=head together
    with the new launch hash and name, gets the new node alone and goes on to
    the update, while the provider lists two nodes tagged role=head. *)
Lemma update_runs_with_two_heads_listed :
  let w := Fake.world (Inputs.with_lag 5 Inputs.stale_head) Fake.base_config in
  let o := get_or_create_head_node 60 "cluster.yaml" false false true None w in
  res o = Ret tt /\
  map upd_node_id (updaters (trace o)) = ["node-0"] /\
  queries (trace o) =
    [(head_filter, ["head-1"]);
     (new_head_tags Fake.base_config, ["node-0"]);
     (new_head_tags Fake.base_config, ["node-0"])] /\
  new_head_tags Fake.base_config <> head_filter /\
  Fake.list_nodes head_filter (env (final o)) = ["head-1"; "node-0"].
Proof.
  cbv zeta. repeat split; try (vm_compute; reflexivity).
  intros Heq. apply (f_equal (fun m => m !! TAG_RAY_LAUNCH_CONFIG)) in Heq.
  vm_compute in Heq. discriminate Heq.
Qed.

(** ** Teardown *)

Section Teardown.
Context {E : Type} `{!Environment E} `{!Externals}.

Lemma remaining_nodes_requery workers_only keep_min_workers (w : World E) :
  wp (remaining_nodes workers_only keep_min_workers) w
     (fun r w' t => requery (cfg w) workers_only keep_min_workers t r /\
                    cfg w' = cfg w /\ fs w' = fs w).
Proof.
  unfold remaining_nodes. wp_steps. cbn [env fs cfg fst snd].
  destruct (env_non_terminated_nodes _ (env w)) as [workers e1]; cbn [fst snd].
  destruct keep_min_workers.
  - unfold random_sample.
    set (k := Z.of_nat (length workers) - default 0 (min_workers (cfg w))).
    destruct (Z.ltb_spec k 0) as [Hneg|Hpos]; cbn [orb].
    { wp_steps. split; [|split; reflexivity].
      apply requery_value_error. fold k. lia. }
    destruct (Z.ltb_spec (Z.of_nat (length workers)) k) as [Hbig|Hfit].
    { wp_steps. split; [|split; reflexivity].
      apply requery_value_error. fold k. lia. }
    wp_steps. cbn [env fs cfg fst snd].
    destruct (env_sample workers (Z.to_nat k) e1) as [selected e2]; cbn [fst snd].
    destruct workers_only; wp_steps; cbn [env fs cfg fst snd].
    + split; [|split; reflexivity].
      apply (requery_sampled _ true workers selected []). fold k. lia.
    + destruct (env_non_terminated_nodes _ e2) as [heads e3]; cbn [fst snd].
      split; [|split; reflexivity].
      apply (requery_sampled _ false workers selected heads). fold k. lia.
  - wp_steps. destruct workers_only; wp_steps; cbn [env fs cfg fst snd].
    + split; [|split; reflexivity].
      apply (requery_all _ true workers []).
    + destruct (env_non_terminated_nodes _ e1) as [heads e2]; cbn [fst snd].
      split; [|split; reflexivity].
      apply (requery_all _ false workers heads).
Qed.

Lemma teardown_loop_trace fuel workers_only keep_min_workers A (w : World E) :
  wp (teardown_loop fuel workers_only keep_min_workers A) w
     (fun r w' t =>
        teardown_trace (cfg w) workers_only keep_min_workers fuel A t r /\
        cfg w' = cfg w /\ fs w' = fs w).
Proof.
  revert A w. induction fuel as [|fuel IH]; intros A w.
  - destruct A as [|n A]; cbn [teardown_loop]; wp_steps.
    + split; [constructor | split; reflexivity].
    + split; [constructor; discriminate | split; reflexivity].
  - destruct A as [|n A]; cbn [teardown_loop]; wp_steps.
    + split; [constructor | split; reflexivity].
    + cbn [env fs cfg].
      eapply wp_mono; [apply remaining_nodes_requery|]. cbn [cfg fs].
      intros rq w1 q (Hq & Hc & Hf).
      destruct rq as [A'|e|].
      * eapply wp_mono; [apply IH|].
        intros r w2 t (Ht & Hc2 & Hf2). rewrite Hc in Ht.
        split; [|split; congruence].
        cbn [app]. eapply teardown_round; [discriminate | exact Hq | exact Ht].
      * split; [|split; assumption].
        cbn [app]. apply teardown_raised; [discriminate | exact Hq].
      * inversion Hq.
Qed.
End Teardown.

Section TeardownFacts.
Context `{!Externals}.

(** A loop that returned was last told that the target set is empty. *)
Lemma teardown_trace_returns config workers_only keep_min_workers fuel A t r :
  teardown_trace config workers_only keep_min_workers fuel A t r ->
  r = Ret tt ->
  (A = [] /\ t = []) \/
  exists pre q,
    t = (pre ++ q)%list /\
    requery config workers_only keep_min_workers q (Ret []).
Proof.
  induction 1 as [fuel | fuel A q A' t r HA Hq Ht IH | fuel A q e HA Hq | A HA];
    intros Hr; try discriminate.
  - left. auto.
  - right. destruct (IH Hr) as [[-> ->] | (pre & q' & -> & Hq')].
    + exists [terminate_nodes_ev A; sleep_ev 1], q.
      rewrite app_nil_r. auto.
    + exists (terminate_nodes_ev A :: sleep_ev 1 :: q ++ pre)%list, q'.
      split; [|exact Hq']. cbn. rewrite <- List.app_assoc. reflexivity.
Qed.

(** Querying terminates nothing. *)
Lemma requery_writes config workers_only keep_min_workers q r :
  requery config workers_only keep_min_workers q r -> provider_writes q = [].
Proof. destruct 1; destruct workers_only; reflexivity. Qed.

(** One terminate request per turn; a loop that was cut short has used up
    its fuel on as many turns. *)
Lemma teardown_trace_turns config workers_only keep_min_workers fuel A t r :
  teardown_trace config workers_only keep_min_workers fuel A t r ->
  (length (provider_writes t) <= fuel)%nat /\
  (r = OutOfFuel -> length (provider_writes t) = fuel).
Proof.
  induction 1 as [fuel | fuel A q A' t r HA Hq Ht [IHle IHeq]
                 | fuel A q e HA Hq | A HA].
  - split; [cbn; lia | discriminate].
  - rewrite provider_writes_cons, provider_writes_cons, provider_writes_app,
      (requery_writes _ _ _ _ _ Hq).
    cbn. split; [lia|]. intros Hr. rewrite (IHeq Hr). reflexivity.
  - rewrite provider_writes_cons, provider_writes_cons,
      (requery_writes _ _ _ _ _ Hq).
    cbn. split; [lia | discriminate].
  - split; [cbn; lia | reflexivity].
Qed.

(** Nothing but an empty target set stops the loop: while every listing of
    the workers comes back non-empty (and no sample is taken), the loop
    goes on for as many turns as it has fuel. *)
Lemma teardown_trace_runs_on config workers_only fuel A t r :
  teardown_trace config workers_only false fuel A t r ->
  A <> [] ->
  Forall (fun q : tag_map * list node_id => q.1 = worker_filter -> q.2 <> [])
         (queries t) ->
  r = OutOfFuel /\ length (provider_writes t) = fuel.
Proof.
  induction 1 as [fuel | fuel A q A' t r HA Hq Ht IH | fuel A q e HA Hq | A HA];
    intros Hne Hall.
  - destruct (Hne eq_refl).
  - pose proof (requery_writes _ _ _ _ _ Hq) as Hw.
    inversion Hq as [workers heads | |]; subst.
    cbn [app] in Hall. rewrite !queries_cons in Hall. cbv beta iota in Hall.
    rewrite queries_app in Hall. apply Forall_cons in Hall as [Hworkers Hall].
    apply Forall_app in Hall as [_ Hall].
    assert (Hnext : (with_head workers_only heads workers).2 <> []).
    { specialize (Hworkers eq_refl). cbn [snd] in Hworkers.
      unfold with_head. destruct workers_only; cbn [snd]; [exact Hworkers|].
      intros Happ. apply app_eq_nil in Happ as [_ ?]. contradiction. }
    destruct (IH Hnext Hall) as [-> Hlen]. split; [reflexivity|].
    rewrite provider_writes_cons, provider_writes_cons, provider_writes_app, Hw.
    cbn. rewrite Hlen. reflexivity.
  - inversion Hq.
  - split; reflexivity.
Qed.
End TeardownFacts.

(** On the provider that never lets go of its worker, the loop is still
    running after any number of rounds. *)
Lemma teardown_loop_stubborn n (e : Fake.Env) fs0 c :
  Fake.f_nodes e = [Fake.node "w1" Fake.worker_tags] ->
  Fake.f_honours_terminate e = false ->
  wp (teardown_loop n true false ["w1"]) (mkWorld e fs0 c)
     (fun r _ t => r = OutOfFuel /\ length (provider_writes t) = n).
Proof.
  revert e. induction n as [|n IH]; intros e Hnodes Hhon.
  - cbn [teardown_loop]. wp_steps. split; reflexivity.
  - cbn [teardown_loop]. wp_steps. unfold remaining_nodes. wp_steps.
    cbn [env fs cfg fst snd env_terminate_nodes env_sleep env_non_terminated_nodes
         Fake.environment].
    unfold Fake.terminate. rewrite Hhon.
    assert (Hlist : Fake.list_nodes {[ TAG_RAY_NODE_TYPE := NODE_TYPE_WORKER ]}
                      (Fake.sleep 1 e) = ["w1"]).
    { unfold Fake.list_nodes. cbn [Fake.sleep Fake.f_nodes Fake.f_clock].
      rewrite Hnodes. vm_compute. reflexivity. }
    rewrite Hlist.
    eapply wp_mono; [apply (IH (Fake.sleep 1 e)); assumption|].
    intros r _ t [-> Hlen]. split; [reflexivity|].
    cbn [app]. rewrite !provider_writes_cons. cbn [is_provider_write].
    cbn [length]. rewrite Hlen. reflexivity.
Qed.

(** C3.  The teardown loop returns only once [remaining_nodes()] has come
    back empty (the provider reports no non-terminated node in the target
    set); on every turn with a non-empty target set it asks the provider to
    terminate the whole set, sleeps 1 second, queries the provider again and
    goes round.  Nothing else stops it and nothing bounds the number of
    turns: cut short after [fuel] turns it has made [fuel] terminate
    requests, and while every listing of the workers comes back non-empty
    (no sample being taken) it is still running after any number of turns,
    as it is on a provider that never lets go of its worker. *)
Theorem teardown_loop_converges_or_runs_on :
  (forall E `(!Environment E) `(!Externals) fuel workers_only keep_min_workers
          A (w : World E),
      let o := teardown_loop fuel workers_only keep_min_workers A w in
      teardown_trace (cfg w) workers_only keep_min_workers fuel A
                     (trace o) (res o) /\
      (res o = Ret tt ->
       (A = [] /\ trace o = []) \/
       exists pre q,
         trace o = (pre ++ q)%list /\
         requery (cfg w) workers_only keep_min_workers q (Ret [])) /\
      (res o = OutOfFuel -> length (provider_writes (trace o)) = fuel) /\
      (keep_min_workers = false ->
       A <> [] ->
       Forall (fun q : tag_map * list node_id =>
                 q.1 = worker_filter -> q.2 <> [])
              (queries (trace o)) ->
       res o = OutOfFuel /\ length (provider_writes (trace o)) = fuel)) /\
  (forall n,
      let o := teardown_loop n true false ["w1"]
                 (Fake.world Inputs.stubborn_worker Fake.base_config) in
      res o = OutOfFuel /\ length (provider_writes (trace o)) = n).
Proof.
  split.
  - intros E HE HX fuel workers_only keep_min_workers A w o. subst o.
    pose proof (proj1 (wp_elim _ _ _ (teardown_loop_trace fuel workers_only
                  keep_min_workers A w))) as Ht.
    split; [exact Ht|]. split; [|split].
    + intros Hr. exact (teardown_trace_returns _ _ _ _ _ _ _ Ht Hr).
    + exact (proj2 (teardown_trace_turns _ _ _ _ _ _ _ Ht)).
    + intros -> HA Hall. exact (teardown_trace_runs_on _ _ _ _ _ _ Ht HA Hall).
  - intros n o. subst o.
    apply (wp_elim _ _ _ (teardown_loop_stubborn n Inputs.stubborn_worker _ _
             eq_refl eq_refl)).
Qed.

Lemma teardown_loop_converges_or_runs_on_witness :
  let returned := teardown_loop 5 true false ["w1"; "w2"; "w3"]
                    (Fake.world Inputs.three_workers Fake.base_config) in
  let running := teardown_loop 5 true false ["w1"]
                   (Fake.world Inputs.stubborn_worker Fake.base_config) in
  ((["w1"; "w2"; "w3"] = [] /\ trace returned = []) \/
   exists pre q,
     trace returned = (pre ++ q)%list /\
     requery Fake.base_config true false q (Ret [])) /\
  (res running = OutOfFuel /\ length (provider_writes (trace running)) = 5%nat).
Proof.
  cbv zeta. split.
  - apply (proj1 (proj2 (proj1 teardown_loop_converges_or_runs_on _ _ _ 5%nat
                           true false ["w1"; "w2"; "w3"]
                           (Fake.world Inputs.three_workers Fake.base_config)))).
    vm_compute. reflexivity.
  - apply (proj2 (proj2 (proj2 (proj1 teardown_loop_converges_or_runs_on _ _ _
                                  5%nat true false ["w1"]
                                  (Fake.world Inputs.stubborn_worker
                                              Fake.base_config))))).
    + reflexivity.
    + discriminate.
    + assert (Hq : queries
                     (trace (teardown_loop 5 true false ["w1"]
                               (Fake.world Inputs.stubborn_worker
                                           Fake.base_config)))
                   = replicate 5 (worker_filter, ["w1"]))
        by (vm_compute; reflexivity).
      rewrite Hq. apply Forall_replicate. intros _. discriminate.
Defined.

(** C8 on a provider that keeps listing a node for 2 seconds after it was
    asked to terminate it: three workers, [min_workers = 1],
    [teardown --workers-only --keep-min-workers].  The first round samples
    [w1; w2]; a second later all three are still listed and the second round
    samples afresh, [w2; w3].  Every worker has then been asked to terminate,
    and one second after the command returned none is left, although one was
    to be kept. *)
Lemma keep_min_workers_resampled_each_round :
  let w := Fake.world (Inputs.with_lag 2 Inputs.three_workers) Fake.base_config in
  let o := teardown_cluster 10 "cluster.yaml" true true None true w in
  min_workers (cfg w) = Some 1 /\
  Fake.list_nodes worker_filter (env w) = ["w1"; "w2"; "w3"] /\
  res o = Ret tt /\
  provider_writes (trace o) =
    [terminate_nodes_ev ["w1"; "w2"]; terminate_nodes_ev ["w2"; "w3"]] /\
  Fake.list_nodes worker_filter (Fake.sleep 1 (env (final o))) = [].
Proof.
  cbv zeta. repeat split; vm_compute; reflexivity.
Qed.

(** ** Config resolution and its cache *)

Section Resolution.
Context {E : Type} `{!Environment E} `{!Externals}.

Lemma bootstrap_config_cached config (w : World E) text :
  fs w !! cache_key_of (prepare_config config) = Some text ->
  wp (_bootstrap_config config false) w
     (fun r w' t =>
        r = match json_loads text with
            | Some cached => Ret cached
            | None => Exc JSONDecodeError
            end /\
        w' = w /\
        t = [read_ev (cache_key_of (prepare_config config))]).
Proof.
  intros Hfs. unfold _bootstrap_config. wp_steps.
  rewrite Hfs. rewrite bool_decide_eq_true_2 by eauto. cbn [andb negb].
  wp_steps. rewrite Hfs.
  destruct (json_loads text); wp_steps; auto.
Qed.

Lemma bootstrap_config_resolved config no_config_cache (w : World E) :
  no_config_cache = true \/
    fs w !! cache_key_of (prepare_config config) = None ->
  validate_config (prepare_config config) = true ->
  NODE_PROVIDERS (provider_type (provider (prepare_config config))) = true ->
  wp (_bootstrap_config config no_config_cache) w
     (fun r w' t =>
        let c := prepare_config config in
        let resolved := (env_bootstrap_config c (env w)).1 in
        r = Ret resolved /\
        env w' = (env_bootstrap_config c (env w)).2 /\
        cfg w' = cfg w /\
        fs w' = (if no_config_cache then fs w
                 else <[cache_key_of c := json_dumps resolved]> (fs w)) /\
        t = ([validate_config_ev c true; bootstrap_config_ev c resolved] ++
             if no_config_cache then []
             else [write_ev (cache_key_of c) (json_dumps resolved)])%list).
Proof.
  intros Hmiss Hvalid Hsupported. unfold _bootstrap_config. wp_steps.
  assert (bool_decide (is_Some (fs w !! cache_key_of (prepare_config config)))
            && negb no_config_cache = false) as ->.
  { destruct Hmiss as [-> | ->]; [apply andb_false_r|].
    rewrite bool_decide_eq_false_2; [reflexivity|]. intros [? ?]; discriminate. }
  unfold validate. wp_steps. rewrite Hvalid. wp_steps.
  rewrite Hsupported. cbn [negb]. wp_steps.
  destruct no_config_cache; cbn [negb]; wp_steps; cbn; auto.
Qed.
End Resolution.

(** C5 (as amended).  With the cache allowed, if a file exists under the
    cache key of the prepared config and holds JSON, [_bootstrap_config]
    returns what the file holds and neither validates the config nor calls
    the provider's bootstrap; if no such file exists, it validates, calls
    the provider's bootstrap, writes the result under the cache key and
    returns it.  If the file exists and does not hold JSON, it raises the
    decoding error: a damaged cache entry is not replaced by a full
    resolution. *)
Theorem bootstrap_config_cache {E} `{!Environment E} `{!Externals}
    config (w : World E) :
  let c := prepare_config config in
  let key := cache_key_of c in
  let o := _bootstrap_config config false w in
  (forall text cached,
      fs w !! key = Some text -> json_loads text = Some cached ->
      res o = Ret cached /\ final o = w /\ trace o = [read_ev key]) /\
  (forall text,
      fs w !! key = Some text -> json_loads text = None ->
      res o = Exc JSONDecodeError /\ final o = w /\ trace o = [read_ev key]) /\
  (fs w !! key = None ->
   validate_config c = true ->
   NODE_PROVIDERS (provider_type (provider c)) = true ->
   let resolved := (env_bootstrap_config c (env w)).1 in
   res o = Ret resolved /\
   fs (final o) = <[key := json_dumps resolved]> (fs w) /\
   trace o = [validate_config_ev c true;
              bootstrap_config_ev c resolved;
              write_ev key (json_dumps resolved)]).
Proof.
  cbv zeta. split; [|split].
  - intros text cached Hfs Hjson.
    pose proof (wp_elim _ _ _ (bootstrap_config_cached config w text Hfs)) as HW.
    cbv beta in HW. rewrite Hjson in HW. exact HW.
  - intros text Hfs Hjson.
    pose proof (wp_elim _ _ _ (bootstrap_config_cached config w text Hfs)) as HW.
    cbv beta in HW. rewrite Hjson in HW. exact HW.
  - intros Hfs Hvalid Hsupported.
    pose proof (wp_elim _ _ _ (bootstrap_config_resolved config false w
                  (or_intror Hfs) Hvalid Hsupported)) as HW.
    cbv beta zeta in HW. destruct HW as (Hr & _ & _ & Hf & Ht). auto.
Qed.

Lemma bootstrap_config_cache_witness :
  let w := mkWorld Fake.env0
             {[ "/tmp/ray-config-sha1-default" := "cluster: cached" ]}
             Fake.base_config in
  let o := _bootstrap_config Fake.base_config false w in
  res o = Ret (set_cluster_name "cached" Fake.base_config) /\
  final o = w /\
  trace o = [read_ev (cache_key_of (prepare_config Fake.base_config))].
Proof.
  cbv zeta.
  apply (proj1 (bootstrap_config_cache Fake.base_config
                  (mkWorld Fake.env0
                     {[ "/tmp/ray-config-sha1-default" := "cluster: cached" ]}
                     Fake.base_config))
               "cluster: cached" (set_cluster_name "cached" Fake.base_config)).
  - vm_compute. reflexivity.
  - vm_compute. reflexivity.
Defined.

(** C5 as stated fails on a damaged cache entry: the file under the cache
    key does not hold JSON, and [_bootstrap_config] raises the decoding
    error without validating or bootstrapping anything. *)
Lemma damaged_cache_entry_raises :
  let w := mkWorld Fake.env0
             {[ "/tmp/ray-config-sha1-default" := "{'cluster" ]}
             Fake.base_config in
  let o := _bootstrap_config Fake.base_config false w in
  fs w !! cache_key_of (prepare_config Fake.base_config) = Some "{'cluster" /\
  json_loads "{'cluster" = None /\
  res o = Exc JSONDecodeError /\
  trace o = [read_ev "/tmp/ray-config-sha1-default"].
Proof.
  cbv zeta. repeat split; vm_compute; reflexivity.
Qed.

(** ** Head-node reconciliation: what the updater is given, what happens to
    the config *)

Section UpdateFacts.
Context `{!Externals}.

Lemma reconciliation_updater config no_restart restart_only r config' t a :
  reconciliation config no_restart restart_only r config' t ->
  a ∈ updaters t ->
  exists f mounts,
    mounts_with_bootstrap config f = Some mounts /\
    a = head_updater config mounts (upd_node_id a) no_restart restart_only.
Proof.
  destruct 1 as [e td Hd | tags td start tw e Hd Hp | tags td start tw Hd Hp
                | tags td start tw head_id r config' tu Hd Hp Hu];
    intros Ha; pose proof (decision_quiet _ _ _ Hd) as Hqd;
    rewrite updaters_cons, updaters_app, Hqd in Ha; cbn [app] in Ha.
  - inversion Ha.
  - destruct (poll_trace_quiet _ _ _ _ Hp) as (_ & _ & Hqp).
    rewrite updaters_cons, updaters_app, Hqp in Ha. inversion Ha.
  - destruct (poll_trace_quiet _ _ _ _ Hp) as (_ & _ & Hqp).
    rewrite updaters_cons, Hqp in Ha. inversion Ha.
  - destruct (poll_trace_quiet _ _ _ _ Hp) as (_ & _ & Hqp).
    rewrite updaters_cons, !updaters_app, Hqp in Ha.
    cbn [app] in Ha. change (updaters [cleanup_ev]) with (@nil UpdaterArgs) in Ha.
    rewrite app_nil_r in Ha.
    destruct Hu as [f Hm | f mounts code nodes ip Hm].
    + inversion Ha.
    + exists f, mounts. split; [exact Hm|].
      destruct (use_internal_ips (provider config)); cbn in Ha;
        apply list_elem_of_singleton in Ha; subst a; reflexivity.
Qed.

Lemma mounts_with_bootstrap_lookup config f mounts :
  mounts_with_bootstrap config f = Some mounts ->
  mounts !! "~/ray_bootstrap_config.yaml" = Some f /\
  (provider_type (provider config) <> "kubernetes" ->
   mounts !! "~/ray_bootstrap_key.pem" = auth config !! "ssh_private_key") /\
  (forall k, k <> "~/ray_bootstrap_config.yaml" ->
             k <> "~/ray_bootstrap_key.pem" ->
             mounts !! k = file_mounts config !! k).
Proof.
  unfold mounts_with_bootstrap. case_bool_decide as Hk.
  - intros [= <-]. split; [apply lookup_insert_eq|]. split; [contradiction|].
    intros k Hk1 _. apply lookup_insert_ne. congruence.
  - destruct (auth config !! "ssh_private_key") as [key|]; [|discriminate].
    intros [= <-]. split; [|split].
    + rewrite lookup_insert_ne by discriminate. apply lookup_insert_eq.
    + intros _. apply lookup_insert_eq.
    + intros k Hk1 Hk2. rewrite !lookup_insert_ne by congruence. reflexivity.
Qed.

(** For kubernetes the key mount is left alone. *)
Lemma mounts_with_bootstrap_kubernetes config f mounts :
  mounts_with_bootstrap config f = Some mounts ->
  provider_type (provider config) = "kubernetes" ->
  mounts = <[ "~/ray_bootstrap_config.yaml" := f ]> (file_mounts config).
Proof.
  unfold mounts_with_bootstrap. intros Hm Hk.
  rewrite (bool_decide_eq_true_2 _ Hk) in Hm. congruence.
Qed.

(** What a reconciliation does to the config it was given: nothing, or it
    adds the synthetic mounts. *)
Lemma reconciliation_config config no_restart restart_only r config' t :
  reconciliation config no_restart restart_only r config' t ->
  config' = set_file_mounts (file_mounts config') config /\
  (forall k, k <> "~/ray_bootstrap_config.yaml" ->
             k <> "~/ray_bootstrap_key.pem" ->
             file_mounts config' !! k = file_mounts config !! k) /\
  (provider_type (provider config) = "kubernetes" ->
   file_mounts config' !! "~/ray_bootstrap_key.pem" =
   file_mounts config !! "~/ray_bootstrap_key.pem") /\
  (file_mounts config' !! "~/ray_bootstrap_key.pem" =
     file_mounts config !! "~/ray_bootstrap_key.pem" \/
   file_mounts config' !! "~/ray_bootstrap_key.pem" =
     auth config !! "ssh_private_key") /\
  (r = Ret tt ->
   is_Some (file_mounts config' !! "~/ray_bootstrap_config.yaml") /\
   (provider_type (provider config) <> "kubernetes" ->
    file_mounts config' !! "~/ray_bootstrap_key.pem" =
    auth config !! "ssh_private_key")).
Proof.
  assert (Hid : config = set_file_mounts (file_mounts config) config)
    by (destruct config; reflexivity).
  destruct 1 as [e td Hd | tags td start tw e Hd Hp | tags td start tw Hd Hp
                | tags td start tw head_id r config' tu Hd Hp Hu];
    try (split; [exact Hid
                | split; [reflexivity
                         | split; [reflexivity
                                  | split; [left; reflexivity | discriminate]]]]).
  destruct Hu as [f Hm | f mounts code nodes ip Hm]; cbn [file_mounts set_file_mounts].
  - split; [reflexivity|]. split; [|split; [|split; [|discriminate]]].
    + intros k Hk _. apply lookup_insert_ne. congruence.
    + intros _. apply lookup_insert_ne. discriminate.
    + left. apply lookup_insert_ne. discriminate.
  - destruct (mounts_with_bootstrap_lookup _ _ _ Hm) as (Hc & Hkey & Hrest).
    assert (Hkube : provider_type (provider config) = "kubernetes" ->
                    mounts !! "~/ray_bootstrap_key.pem" =
                    file_mounts config !! "~/ray_bootstrap_key.pem").
    { intros Hk. rewrite (mounts_with_bootstrap_kubernetes _ _ _ Hm Hk).
      apply lookup_insert_ne. discriminate. }
    split; [reflexivity|]. split; [exact Hrest|]. split; [exact Hkube|]. split.
    + destruct (decide (provider_type (provider config) = "kubernetes"));
        [left | right]; auto.
    + intros _. split; [rewrite Hc; eauto | exact Hkey].
Qed.
End UpdateFacts.

Section Lookups.
Context {E : Type} `{!Environment E} `{!Externals}.

Lemma find_head_node_config (missing : M E string) (w : World E)
    (P : Config -> Prop) :
  P (cfg w) ->
  (forall w', cfg w' = cfg w -> wp missing w' (fun _ w'' _ => P (cfg w''))) ->
  wp (find_head_node missing) w (fun _ w' _ => P (cfg w')).
Proof.
  intros HP Hmissing. unfold find_head_node. wp_steps. cbn [env fs cfg fst snd].
  destruct (env_non_terminated_nodes _ _) as [[|h rest] e1]; cbn [fst snd].
  - apply Hmissing. reflexivity.
  - wp_steps. exact HP.
Qed.

Lemma get_head_node_config fuel config_file override_cluster_name (w : World E) :
  wp (_get_head_node fuel config_file override_cluster_name false) w
     (fun _ w' _ => cfg w' = cfg w).
Proof.
  unfold _get_head_node.
  apply (find_head_node_config _ w (fun c => c = cfg w)); [reflexivity|].
  intros w' Hw'. unfold head_node_not_found. wp_steps. exact Hw'.
Qed.

Lemma get_worker_nodes_config override_cluster_name (w : World E) :
  wp (_get_worker_nodes override_cluster_name) w
     (fun _ w' _ =>
        cfg w' = override_with set_cluster_name override_cluster_name (cfg w)).
Proof. unfold _get_worker_nodes. wp_steps. reflexivity. Qed.
End Lookups.

(** C6 (as amended).  The updater that reconciliation runs on the head node
    is always given the config's initialization commands; with [restart_only]
    it is given no setup commands and the head start commands; with
    [no_restart] (and not [restart_only]) the head setup commands and no
    start commands; otherwise the head setup commands and the head start
    commands.  The three lists are handed over separately; in which order
    they are run is the updater's business. *)
Theorem head_updater_commands {E} `{!Environment E} `{!Externals}
    fuel config_file no_restart restart_only yes override_cluster_name
    (w : World E) a :
  let o := get_or_create_head_node fuel config_file no_restart restart_only yes
                                   override_cluster_name w in
  a ∈ updaters (trace o) ->
  upd_initialization_commands a = initialization_commands (cfg w) /\
  upd_setup_commands a =
    (if restart_only then [] else head_setup_commands (cfg w)) /\
  upd_ray_start_commands a =
    (if restart_only then head_start_ray_commands (cfg w)
     else if no_restart then [] else head_start_ray_commands (cfg w)).
Proof.
  intros o Ha. subst o.
  pose proof (wp_elim _ _ _ (get_or_create_head_node_run fuel config_file
                no_restart restart_only yes override_cluster_name w)) as HR.
  cbv beta in HR.
  destruct (reconciliation_updater _ _ _ _ _ _ _ HR Ha) as (f & mounts & _ & ->).
  unfold head_updater, select_commands; cbn.
  destruct restart_only, no_restart; auto.
Qed.

Lemma head_updater_commands_witness :
  let a := head_updater Fake.base_config
             (<[ "~/ray_bootstrap_key.pem" := "~/.ssh/key.pem" ]>
                (<[ "~/ray_bootstrap_config.yaml" := "ray-bootstrap-0001" ]>
                   (file_mounts Fake.base_config)))
             "head-1" true false in
  upd_initialization_commands a = ["apt-get update"] /\
  upd_setup_commands a = ["pip install ray"] /\
  upd_ray_start_commands a = [].
Proof.
  cbv zeta.
  apply (head_updater_commands 60 "cluster.yaml" true false true None
           (Fake.world Inputs.current_head Fake.base_config)).
  assert (updaters
            (trace (get_or_create_head_node 60 "cluster.yaml" true false true None
                      (Fake.world Inputs.current_head Fake.base_config))) =
          [head_updater Fake.base_config
             (<[ "~/ray_bootstrap_key.pem" := "~/.ssh/key.pem" ]>
                (<[ "~/ray_bootstrap_config.yaml" := "ray-bootstrap-0001" ]>
                   (file_mounts Fake.base_config)))
             "head-1" true false]) as ->
    by (vm_compute; reflexivity).
  apply list_elem_of_here.
Defined.

(** C6 as stated fails with [restart_only]: the updater is given the
    initialization commands along with the start commands. *)
Lemma restart_only_keeps_initialization_commands :
  let o := get_or_create_head_node 60 "cluster.yaml" false true true None
             (Fake.world Inputs.current_head Fake.base_config) in
  map (fun a => (upd_initialization_commands a, upd_setup_commands a,
                 upd_ray_start_commands a))
      (updaters (trace o)) =
  [(["apt-get update"], [], ["ray stop"; "ray start --head"])].
Proof. vm_compute. reflexivity. Qed.

(** C7 (as amended).  Head-node reconciliation changes the config it was
    given in its file-mount mapping only: every other field and every mount
    but ["~/ray_bootstrap_config.yaml"] and, for providers other than
    kubernetes, ["~/ray_bootstrap_key.pem"] is as before (for kubernetes
    the key mount is as before too, and for the others it is as before or
    holds the private key of [auth]), and when it returns, the first is
    mounted and, for providers other than kubernetes, the second holds the
    private key of [auth].  The teardown loop with its [remaining_nodes]
    and the head-node look-up without creation leave the config as it is;
    the worker look-up that rsync makes re-assigns [cluster_name] when an
    override name is given and changes nothing else. *)
Theorem config_changes_downstream {E} `{!Environment E} `{!Externals} :
  (forall fuel config_file no_restart restart_only yes override_cluster_name
          (w : World E),
      let o := get_or_create_head_node fuel config_file no_restart restart_only
                                       yes override_cluster_name w in
      let config' := cfg (final o) in
      config' = set_file_mounts (file_mounts config') (cfg w) /\
      (forall k, k <> "~/ray_bootstrap_config.yaml" ->
                 k <> "~/ray_bootstrap_key.pem" ->
                 file_mounts config' !! k = file_mounts (cfg w) !! k) /\
      (provider_type (provider (cfg w)) = "kubernetes" ->
       file_mounts config' !! "~/ray_bootstrap_key.pem" =
       file_mounts (cfg w) !! "~/ray_bootstrap_key.pem") /\
      (file_mounts config' !! "~/ray_bootstrap_key.pem" =
         file_mounts (cfg w) !! "~/ray_bootstrap_key.pem" \/
       file_mounts config' !! "~/ray_bootstrap_key.pem" =
         auth (cfg w) !! "ssh_private_key") /\
      (res o = Ret tt ->
       is_Some (file_mounts config' !! "~/ray_bootstrap_config.yaml") /\
       (provider_type (provider (cfg w)) <> "kubernetes" ->
        file_mounts config' !! "~/ray_bootstrap_key.pem" =
        auth (cfg w) !! "ssh_private_key"))) /\
  (forall workers_only keep_min_workers (w : World E),
      cfg (final (remaining_nodes workers_only keep_min_workers w)) = cfg w) /\
  (forall fuel workers_only keep_min_workers A (w : World E),
      cfg (final (teardown_loop fuel workers_only keep_min_workers A w)) = cfg w) /\
  (forall fuel config_file override_cluster_name (w : World E),
      cfg (final (_get_head_node fuel config_file override_cluster_name false w))
      = cfg w) /\
  (forall override_cluster_name (w : World E),
      cfg (final (_get_worker_nodes override_cluster_name w)) =
      override_with set_cluster_name override_cluster_name (cfg w)).
Proof.
  split; [|split; [|split; [|split]]].
  - intros fuel config_file no_restart restart_only yes override_cluster_name w.
    cbv zeta.
    pose proof (wp_elim _ _ _ (get_or_create_head_node_run fuel config_file
                  no_restart restart_only yes override_cluster_name w)) as HR.
    cbv beta in HR. exact (reconciliation_config _ _ _ _ _ _ HR).
  - intros workers_only keep_min_workers w.
    exact (proj1 (proj2 (wp_elim _ _ _ (remaining_nodes_requery workers_only
                                          keep_min_workers w)))).
  - intros fuel workers_only keep_min_workers A w.
    exact (proj1 (proj2 (wp_elim _ _ _ (teardown_loop_trace fuel workers_only
                                          keep_min_workers A w)))).
  - intros fuel config_file override_cluster_name w.
    exact (wp_elim _ _ _ (get_head_node_config fuel config_file
                            override_cluster_name w)).
  - intros override_cluster_name w.
    exact (wp_elim _ _ _ (get_worker_nodes_config override_cluster_name w)).
Qed.

Lemma config_changes_downstream_witness :
  let w := Fake.world Inputs.current_head Fake.base_config in
  let o := get_or_create_head_node 60 "cluster.yaml" false false true None w in
  is_Some (file_mounts (cfg (final o)) !! "~/ray_bootstrap_config.yaml") /\
  (provider_type (provider (cfg w)) <> "kubernetes" ->
   file_mounts (cfg (final o)) !! "~/ray_bootstrap_key.pem" =
   auth (cfg w) !! "ssh_private_key").
Proof.
  cbv zeta.
  apply (proj2 (proj2 (proj2 (proj2 (proj1 config_changes_downstream 60%nat
                                       "cluster.yaml" false false true None
                                       (Fake.world Inputs.current_head
                                                   Fake.base_config)))))).
  vm_compute. reflexivity.
Defined.

(** C7 as stated fails: reconciliation writes to the file-mount mapping of
    the config it was given. *)
Lemma reconciliation_adds_mounts :
  let w := Fake.world Inputs.current_head Fake.base_config in
  let o := get_or_create_head_node 60 "cluster.yaml" false false true None w in
  file_mounts (cfg w) !! "~/ray_bootstrap_config.yaml" = None /\
  file_mounts (cfg (final o)) !! "~/ray_bootstrap_config.yaml"
    = Some "ray-bootstrap-0001" /\
  file_mounts (cfg w) !! "~/ray_bootstrap_key.pem" = None /\
  file_mounts (cfg (final o)) !! "~/ray_bootstrap_key.pem"
    = Some "~/.ssh/key.pem" /\
  cfg (final o) <> cfg w.
Proof.
  cbv zeta. repeat split; try (vm_compute; reflexivity).
  intros Heq.
  apply (f_equal (fun c => file_mounts c !! "~/ray_bootstrap_key.pem")) in Heq.
  vm_compute in Heq. discriminate Heq.
Qed.

(** ** Remote exec and rsync *)

(** What [stop] makes of a non-empty command: the two teardown commands
    are appended to it as they are, and the shutdown command after them
    unless the container is to be shut down. *)
Lemma stop_command_appends `{!Externals} c is_docker run_env :
  nonempty_str c = true ->
  stop_command (Some c) true is_docker run_env =
  if is_docker && bool_decide (run_env = "docker") then
    (Some (c +:+ "ray stop; ray teardown ~/ray_bootstrap_config.yaml --yes --workers-only"),
     true)
  else
    (Some ((c +:+ "ray stop; ray teardown ~/ray_bootstrap_config.yaml --yes --workers-only")
             +:+ "; sudo shutdown -h now"),
     false).
Proof.
  intros Hc. unfold stop_command. rewrite Hc. cbn [andb].
  destruct (is_docker && bool_decide (run_env = "docker")); reflexivity.
Qed.

(** C9 at [exec --stop "python train.py"] outside a container: the command
    handed to the runner has no separator between the user's command and
    ["ray stop"], so the shell is given ["python train.pyray stop"] as its
    first command. *)
Lemma exec_stop_runs_command_together :
  let o := exec_cluster 60 "cluster.yaml" (Some "python train.py") "auto"
             false false true false None None false
             (Fake.world Inputs.current_head Fake.base_config) in
  commands_run (trace o) =
  [Some ("python train.pyray stop; "
         +:+ "ray teardown ~/ray_bootstrap_config.yaml --yes --workers-only; "
         +:+ "sudo shutdown -h now")].
Proof. vm_compute. reflexivity. Qed.

(** C10.  An rsync call that is given exactly one of source and target
    (the other missing or empty) raises the assertion error and does nothing
    else: no file is read, no provider is opened, nothing is synced, the
    state is as before.  A call that is given both or neither gets past the
    assertion and starts by reading the config file. *)
Theorem rsync_needs_both_or_neither {E} `{!Environment E} `{!Externals}
    config_file source target override_cluster_name down all_nodes
    (w : World E) :
  (truthy source <> truthy target ->
   rsync config_file source target override_cluster_name down all_nodes w =
   mkOutcome
     (Exc (AssertionError "Must either provide both or neither source and target."))
     w []) /\
  (truthy source = truthy target ->
   exists t,
     trace (rsync config_file source target override_cluster_name down all_nodes w)
     = read_ev config_file :: t).
Proof.
  unfold rsync. split; intros Hst.
  - destruct (truthy source), (truthy target); try contradiction; reflexivity.
  - rewrite Hst. rewrite eqb_reflx. cbn [negb].
    apply (wp_elim _ w (fun _ _ t => exists t', t = read_ev config_file :: t')).
    unfold load_config. do 2 apply wp_bind. apply wp_read_file.
    destruct (fs w !! config_file) as [text|].
    + apply wp_any. intros r1 w1 t1.
      destruct r1; [apply wp_any; intros|..]; eexists; reflexivity.
    + eexists; reflexivity.
Qed.

Lemma rsync_needs_both_or_neither_witness :
  let w := Fake.world Inputs.current_head Fake.base_config in
  rsync "cluster.yaml" (Some "/local/data") None None false false w =
  mkOutcome
    (Exc (AssertionError "Must either provide both or neither source and target."))
    w [] /\
  exists t,
    trace (rsync "cluster.yaml" None (Some "") None false false w)
    = read_ev "cluster.yaml" :: t.
Proof.
  cbv zeta. split.
  - apply (proj1 (rsync_needs_both_or_neither "cluster.yaml" (Some "/local/data")
                    None None false false _)).
    vm_compute. discriminate.
  - apply (proj2 (rsync_needs_both_or_neither "cluster.yaml" None (Some "")
                    None false false _)).
    vm_compute. reflexivity.
Defined.

(** ** What a command never does *)

(** X1.  Without [start], [exec_cluster] resolves the config, lists nodes
    and runs the command, and so do [monitor_cluster] and [attach_cluster]:
    they never create or terminate a node, never run the updater, never
    sync files and never prompt. *)
Theorem exec_without_start_calls {E} `{!Environment E} `{!Externals} :
  (forall fuel config_file cmd run_env screen tmux stop override_cluster_name
          port_forward with_output,
      only (E:=E) exec_call
        (exec_cluster fuel config_file cmd run_env screen tmux stop false
                      override_cluster_name port_forward with_output)) /\
  (forall fuel config_file num_lines override_cluster_name,
      only (E:=E) exec_call
        (monitor_cluster fuel config_file num_lines override_cluster_name)) /\
  (forall fuel config_file use_screen use_tmux override_cluster_name new
          port_forward,
      only (E:=E) exec_call
        (attach_cluster fuel config_file false use_screen use_tmux
                        override_cluster_name new port_forward)).
Proof.
  split; [|split]; intros.
  - apply exec_cluster_only.
  - unfold monitor_cluster.
    apply only_bind; [apply exec_cluster_only | intros; apply only_ret].
  - unfold attach_cluster, attach_command.
    apply only_bind; [only_tac | intros].
    apply only_bind; [apply exec_cluster_only | intros; apply only_ret].
Qed.

(** X2.  [rsync] resolves the config, lists nodes and transfers files: it
    never creates or terminates a node, never runs a command or the updater,
    never prompts. *)
Theorem rsync_calls {E} `{!Environment E} `{!Externals}
    config_file source target override_cluster_name down all_nodes :
  only (E:=E) rsync_call
    (rsync config_file source target override_cluster_name down all_nodes).
Proof. unfold rsync. only_tac. Qed.

(** X3.  The two address look-ups read a file, list nodes and ask for
    addresses: they do not resolve the config (no validation, no provider
    bootstrap, nothing written) and never create or terminate a node. *)
Theorem address_lookup_calls {E} `{!Environment E} `{!Externals} :
  (forall config_file override_cluster_name,
      only (E:=E) address_call
           (get_head_node_ip config_file override_cluster_name)) /\
  (forall config_file override_cluster_name,
      only (E:=E) address_call
           (get_worker_node_ips config_file override_cluster_name)).
Proof.
  split; intros.
  - unfold get_head_node_ip. only_tac.
  - unfold get_worker_node_ips. only_tac.
Qed.

(** X4.  [teardown_cluster] never creates a node, never runs the updater,
    and terminates through [terminate_nodes] only, never with an empty
    list; with [workers_only] it moreover lists workers only, runs no
    command on the head, and neither bootstraps a config nor writes a
    file. *)
Theorem teardown_calls {E} `{!Environment E} `{!Externals}
    fuel config_file yes workers_only override_cluster_name keep_min_workers :
  only (E:=E) (teardown_call workers_only)
    (teardown_cluster fuel config_file yes workers_only override_cluster_name
                      keep_min_workers).
Proof.
  unfold teardown_cluster.
  apply only_bind; [only_tac | intros].
  apply only_bind; [only_tac | intros].
  apply only_bind; [only_tac | intros].
  apply only_bind; [only_tac | intros].
  apply only_bind.
  { destruct workers_only; cbn [negb]; [apply only_ret|].
    apply only_try_except. apply only_bind; [|intros; apply only_ret].
    apply only_with_own_config.
    eapply only_mono; [|apply exec_cluster_only].
    intros [] Hev; try discriminate Hev; reflexivity. }
  intros. apply only_bind; [only_tac | intros].
  apply only_try_finally; [|only_tac].
  eapply only_mono; [|apply only_bind;
                        [apply remaining_nodes_only
                        |intros; apply teardown_loop_only]].
  intros ev Hev. unfold teardown_call. rewrite Hev. reflexivity.
Qed.

(** X5.  [exec_cluster] and [attach_cluster] never prompt the operator,
    also when they are to start the cluster; [create_or_update_cluster] and
    [teardown_cluster] do not prompt when they are given [yes]. *)
Theorem no_prompts {E} `{!Environment E} `{!Externals} :
  (forall fuel config_file cmd run_env screen tmux stop start
          override_cluster_name port_forward with_output,
      only (E:=E) (fun ev => negb (is_prompt ev))
        (exec_cluster fuel config_file cmd run_env screen tmux stop start
                      override_cluster_name port_forward with_output)) /\
  (forall fuel config_file start use_screen use_tmux override_cluster_name new
          port_forward,
      only (E:=E) (fun ev => negb (is_prompt ev))
        (attach_cluster fuel config_file start use_screen use_tmux
                        override_cluster_name new port_forward)) /\
  (forall fuel config_file override_min_workers override_max_workers no_restart
          restart_only override_cluster_name no_config_cache,
      only (E:=E) (fun ev => negb (is_prompt ev))
        (create_or_update_cluster fuel config_file override_min_workers
           override_max_workers no_restart restart_only true
           override_cluster_name no_config_cache)) /\
  (forall fuel config_file workers_only override_cluster_name keep_min_workers,
      only (E:=E) (fun ev => negb (is_prompt ev))
        (teardown_cluster fuel config_file true workers_only
                          override_cluster_name keep_min_workers)).
Proof.
  repeat split; intros.
  - eapply only_mono; [exact unattended_unprompted | apply exec_cluster_unattended].
  - unfold attach_cluster, attach_command.
    apply only_bind; [only_tac | intros].
    apply only_bind; [|intros; apply only_ret].
    eapply only_mono; [exact unattended_unprompted | apply exec_cluster_unattended].
  - unfold create_or_update_cluster.
    apply only_bind; [only_tac | intros].
    apply only_bind; [only_tac | intros].
    apply only_bind; [only_tac | intros].
    eapply only_mono; [exact unattended_unprompted | apply get_or_create_head_node_yes].
  - unfold teardown_cluster.
    apply only_bind; [only_tac | intros].
    apply only_bind; [only_tac | intros].
    apply only_bind; [only_tac | intros].
    apply only_bind; [only_tac | intros].
    apply teardown_after_prompt_unprompted.
Qed.

(** X6.  [create_or_update_cluster] resolves the config, opens and releases
    a provider and reconciles the head node: it never runs a command of its
    own on the head, never transfers files outside the updater, never
    samples and never calls [terminate_nodes]. *)
Theorem create_or_update_cluster_calls {E} `{!Environment E} `{!Externals}
    fuel config_file override_min_workers override_max_workers no_restart
    restart_only yes override_cluster_name no_config_cache :
  only (E:=E) up_call
    (create_or_update_cluster fuel config_file override_min_workers
       override_max_workers no_restart restart_only yes override_cluster_name
       no_config_cache).
Proof.
  unfold create_or_update_cluster.
  apply only_bind; [only_tac | intros].
  apply only_bind; [only_tac | intros].
  apply only_bind; [only_tac | intros].
  apply get_or_create_head_node_only.
Qed.

(** ** Provider handles are released *)

Section Handles.
Context {E : Type} `{!Environment E} `{!Externals}.

Lemma opened_app t1 t2 : opened (t1 ++ t2) = (opened t1 + opened t2)%nat.
Proof. unfold opened. rewrite List.filter_app, length_app. reflexivity. Qed.

Lemma released_app t1 t2 : released (t1 ++ t2) = (released t1 + released t2)%nat.
Proof. unfold released. rewrite List.filter_app, length_app. reflexivity. Qed.

Lemma handle_free_counts t :
  Forall (fun ev => handle_free ev = true) t -> opened t = 0%nat /\ released t = 0%nat.
Proof.
  induction 1 as [|ev t Hev _ [IHo IHr]]; [split; reflexivity|].
  unfold opened, released in *. cbn [List.filter].
  unfold handle_free in Hev. apply negb_true_iff, orb_false_iff in Hev.
  destruct Hev as [-> ->]. auto.
Qed.

Lemma handles_only {A} (m : M E A) : only handle_free m -> handles 0 m.
Proof.
  intros Hm w _. destruct (handle_free_counts _ (Hm w)) as [-> ->]. reflexivity.
Qed.

Lemma handles_bind {A B} n (m : M E A) (k : A -> M E B) :
  handles n m -> (forall a, handles 0 (k a)) -> handles n (bind m k).
Proof.
  intros Hm Hk w. specialize (Hm w). unfold bind. cbv zeta.
  destruct (res (m w)) as [a| |] eqn:Hr; cbn [res trace].
  - intros Hk'. specialize (Hk a (final (m w)) Hk').
    rewrite opened_app, released_app. specialize (Hm ltac:(discriminate)). lia.
  - intros _. apply Hm. discriminate.
  - intros Hf. destruct Hf. reflexivity.
Qed.

Lemma handles_open {B} n pc name (k : unit -> M E B) :
  (forall a, handles (n - 1) (k a)) ->
  handles n (bind (get_node_provider pc name) k).
Proof.
  intros Hk w. unfold bind, get_node_provider, call_. cbn [res final trace].
  intros Hr. specialize (Hk tt _ Hr).
  rewrite opened_app, released_app. cbn. lia.
Qed.

Lemma handles_release {A} (body : M E A) :
  handles 0 body -> handles (-1) (try_finally body cleanup).
Proof.
  intros Hb w. specialize (Hb w). unfold try_finally. cbv zeta.
  destruct (res (body w)) eqn:Hr; cbn [res trace]; intros Hr';
    try (rewrite opened_app, released_app;
         specialize (Hb ltac:(discriminate)); cbn; lia).
  rewrite Hr in Hr'. destruct Hr'. reflexivity.
Qed.

Lemma handles_try_except n (body : M E unit) :
  handles n body -> handles n (try_except_Exception body).
Proof.
  intros Hb w. specialize (Hb w). unfold try_except_Exception.
  destruct (res (body w)) as [|e|] eqn:Hr.
  - rewrite Hr. exact Hb.
  - destruct (is_Exception e); cbn [res trace]; [intros _; apply Hb; discriminate|].
    rewrite Hr. exact Hb.
  - rewrite Hr. exact Hb.
Qed.

Lemma handles_with_own_config {A} n (m : M E A) :
  handles n m -> handles n (with_own_config m).
Proof. intros Hm w. apply Hm. Qed.
End Handles.

Ltac handles_leaf :=
  solve [apply handles_only; only_tac].

Ltac handles_step :=
  lazymatch goal with
  | |- handles _ (bind (get_node_provider _ _) _) =>
      apply handles_open; intros; cbn [Z.sub Z.add Z.opp Z.pos_sub]
  | |- handles _ (bind _ _) => apply handles_bind; [|intros]
  | |- handles _ (try_finally _ cleanup) => apply handles_release
  | |- handles _ (try_except_Exception _) => apply handles_try_except
  | |- handles _ (with_own_config _) => apply handles_with_own_config
  | |- handles _ (if ?b then _ else _) => destruct b
  | |- handles _ (match ?x with _ => _ end) => destruct x
  | |- handles 0 _ => handles_leaf
  end.

Ltac handles_unfold :=
  unfold find_head_node, _get_head_node, _get_worker_nodes.

Ltac handles_tac := repeat (handles_unfold; handles_step).

Section HandlesCommands.
Context {E : Type} `{!Environment E} `{!Externals}.

Lemma up_inner_handle_free {A} (m : M E A) :
  only reconcile_call m -> handles 0 m.
Proof.
  intros Hm. apply handles_only. eapply only_mono; [|exact Hm].
  intros []; cbn; try discriminate; reflexivity.
Qed.

Lemma get_or_create_head_node_handles fuel config_file no_restart restart_only
    yes override_cluster_name :
  handles (E:=E) 0
    (get_or_create_head_node fuel config_file no_restart restart_only yes
                             override_cluster_name).
Proof.
  unfold get_or_create_head_node.
  apply handles_bind; [handles_leaf | intros].
  apply handles_open; intros _. apply handles_release.
  apply handles_bind; [|intros].
  { apply up_inner_handle_free, create_or_replace_head_node_only. }
  apply handles_bind; [handles_leaf | intros].
  apply handles_bind; [|intros].
  { apply up_inner_handle_free. eapply only_mono; [|apply wait_for_head_node_only].
    intros ev Hev. unfold reconcile_call. rewrite Hev. reflexivity. }
  apply handles_bind; [|intros; handles_leaf].
  apply up_inner_handle_free. eapply only_mono; [|apply update_head_node_only].
  intros ev Hev. unfold reconcile_call. rewrite Hev. reflexivity.
Qed.

Lemma get_head_node_handles fuel config_file override_cluster_name
    create_if_needed :
  handles (E:=E) 0
    (_get_head_node fuel config_file override_cluster_name create_if_needed).
Proof.
  unfold _get_head_node. unfold find_head_node at 1.
  apply handles_bind; [handles_leaf | intros].
  apply handles_open; intros _.
  apply handles_bind; [handles_tac | intros nodes].
  destruct nodes; [|handles_leaf].
  destruct create_if_needed; [|handles_leaf].
  apply handles_bind; [apply get_or_create_head_node_handles | intros].
  handles_tac.
Qed.

Lemma exec_cluster_handles fuel config_file cmd run_env screen tmux stop start
    override_cluster_name port_forward with_output :
  handles (E:=E) 0
    (exec_cluster fuel config_file cmd run_env screen tmux stop start
                  override_cluster_name port_forward with_output).
Proof.
  unfold exec_cluster.
  destruct (screen && tmux); [handles_leaf|].
  destruct (negb _); [handles_leaf|].
  apply handles_bind; [handles_leaf | intros].
  apply handles_bind; [handles_leaf | intros].
  apply handles_bind; [handles_leaf | intros].
  apply handles_bind; [apply get_head_node_handles | intros].
  handles_tac.
Qed.

Lemma loop_handle_free {A} workers_only (m : M E A) :
  only (loop_call workers_only) m -> handles 0 m.
Proof.
  intros Hm. apply handles_only. eapply only_mono; [|exact Hm].
  intros []; cbn; try discriminate; reflexivity.
Qed.
End HandlesCommands.

(** X7.  Every command releases each provider it opens: over a run that is
    not cut short, as many [cleanup] calls are made as [get_node_provider]
    calls, whether the command returns or raises. *)
Theorem provider_handles_released {E} `{!Environment E} `{!Externals} :
  (forall fuel config_file override_min_workers override_max_workers no_restart
          restart_only yes override_cluster_name no_config_cache,
      handles (E:=E) 0
        (create_or_update_cluster fuel config_file override_min_workers
           override_max_workers no_restart restart_only yes
           override_cluster_name no_config_cache)) /\
  (forall fuel config_file yes workers_only override_cluster_name
          keep_min_workers,
      handles (E:=E) 0
        (teardown_cluster fuel config_file yes workers_only
                          override_cluster_name keep_min_workers)) /\
  (forall fuel config_file cmd run_env screen tmux stop start
          override_cluster_name port_forward with_output,
      handles (E:=E) 0
        (exec_cluster fuel config_file cmd run_env screen tmux stop start
                      override_cluster_name port_forward with_output)) /\
  (forall fuel config_file start use_screen use_tmux override_cluster_name new
          port_forward,
      handles (E:=E) 0
        (attach_cluster fuel config_file start use_screen use_tmux
                        override_cluster_name new port_forward)) /\
  (forall fuel config_file num_lines override_cluster_name,
      handles (E:=E) 0
        (monitor_cluster fuel config_file num_lines override_cluster_name)) /\
  (forall config_file source target override_cluster_name down all_nodes,
      handles (E:=E) 0
        (rsync config_file source target override_cluster_name down all_nodes)) /\
  (forall config_file override_cluster_name,
      handles (E:=E) 0 (get_head_node_ip config_file override_cluster_name)) /\
  (forall config_file override_cluster_name,
      handles (E:=E) 0 (get_worker_node_ips config_file override_cluster_name)).
Proof.
  repeat split; intros.
  - unfold create_or_update_cluster.
    apply handles_bind; [handles_leaf | intros].
    apply handles_bind; [handles_leaf | intros].
    apply handles_bind; [handles_leaf | intros].
    apply get_or_create_head_node_handles.
  - unfold teardown_cluster.
    apply handles_bind; [handles_leaf | intros].
    apply handles_bind; [handles_leaf | intros].
    apply handles_bind; [handles_leaf | intros].
    apply handles_bind; [handles_leaf | intros].
    apply handles_bind; [|intros].
    { destruct (negb workers_only); [|handles_leaf].
      apply handles_try_except, handles_bind; [|intros; handles_leaf].
      apply handles_with_own_config, exec_cluster_handles. }
    apply handles_open; intros _. apply handles_release.
    apply handles_bind; [|intros].
    + eapply loop_handle_free, remaining_nodes_only.
    + eapply loop_handle_free, teardown_loop_only.
  - apply exec_cluster_handles.
  - unfold attach_cluster, attach_command.
    apply handles_bind; [handles_leaf | intros].
    apply handles_bind; [apply exec_cluster_handles | intros; handles_leaf].
  - unfold monitor_cluster.
    apply handles_bind; [apply exec_cluster_handles | intros; handles_leaf].
  - unfold rsync.
    destruct (negb _); [handles_leaf|].
    apply handles_bind; [handles_leaf | intros].
    apply handles_bind; [handles_leaf | intros].
    apply handles_bind; [handles_leaf | intros].
    apply handles_open; intros _. apply handles_release.
    apply handles_bind; [handles_tac | intros].
    apply handles_bind; [apply get_head_node_handles | intros].
    handles_leaf.
  - unfold get_head_node_ip.
    apply handles_bind; [handles_leaf | intros].
    apply handles_bind; [handles_leaf | intros].
    apply handles_open; intros _. apply handles_release.
    apply handles_bind; [apply get_head_node_handles | intros].
    handles_leaf.
  - unfold get_worker_node_ips.
    apply handles_bind; [handles_leaf | intros].
    apply handles_bind; [handles_leaf | intros].
    apply handles_open; intros _. apply handles_release.
    handles_leaf.
Qed.

Lemma provider_handles_released_witness :
  let o := teardown_cluster 5 "cluster.yaml" true false None false
             (Fake.world Inputs.three_workers Fake.base_config) in
  res o <> OutOfFuel /\
  opened (trace o) = 3%nat /\
  Z.of_nat (opened (trace o)) = Z.of_nat (released (trace o)) + 0.
Proof.
  cbv zeta. split; [vm_compute; discriminate|].
  split; [vm_compute; reflexivity|].
  apply (proj1 (proj2 provider_handles_released) 5%nat "cluster.yaml" true false
           None false (Fake.world Inputs.three_workers Fake.base_config)).
  vm_compute. discriminate.
Defined.

(** ** Looking the head node up, and running a command on it *)

Section Exec.
Context {E : Type} `{!Environment E} `{!Externals}.

Lemma find_head_node_lookup (missing : M E node_id) (w : World E) Q :
  (forall e' h nodes,
      Q (Ret h) (mkWorld e' (fs w) (cfg w)) (lookup_calls (cfg w) (h :: nodes))) ->
  (forall e',
      wp missing (mkWorld e' (fs w) (cfg w))
         (fun r w' t => Q r w' (lookup_calls (cfg w) [] ++ t)%list)) ->
  wp (find_head_node missing) w Q.
Proof.
  intros Hfound Hmissing. unfold find_head_node. wp_steps.
  cbn [env fs cfg fst snd].
  destruct (env_non_terminated_nodes _ _).1 as [|h nodes].
  - eapply wp_mono; [apply Hmissing|]. intros r w' t HQ. exact HQ.
  - apply wp_ret. apply Hfound.
Qed.
Lemma head_node_not_found_raises (w : World E) Q :
  Q (Exc (head_not_found (cfg w))) w [] -> wp head_node_not_found w Q.
Proof. intros HQ. unfold head_node_not_found. wp_steps. exact HQ. Qed.

Lemma get_head_node_run fuel config_file override_cluster_name create_if_needed
    (w : World E) :
  wp (_get_head_node fuel config_file override_cluster_name create_if_needed) w
     (fun r w' t =>
        exists nodes rest,
          t = (lookup_calls (cfg w) nodes ++ rest)%list /\
          match nodes with
          | head_id :: _ =>
              r = Ret head_id /\ rest = [] /\ cfg w' = cfg w /\ fs w' = fs w
          | [] =>
              if create_if_needed then
                exists r0 config' tr,
                  reconciliation (cfg w) false false r0 config' tr /\
                  cfg w' = config' /\
                  match r0 with
                  | Ret _ =>
                      exists nodes',
                        rest = (tr ++ lookup_calls config' nodes')%list /\
                        r = lookup_result config' nodes'
                  | Exc e => rest = tr /\ r = Exc e
                  | OutOfFuel => rest = tr /\ r = OutOfFuel
                  end
              else
                r = Exc (head_not_found (cfg w)) /\ rest = [] /\
                cfg w' = cfg w /\ fs w' = fs w
          end).
Proof.
  unfold _get_head_node. apply find_head_node_lookup.
  - intros e' h nodes. exists (h :: nodes), []. rewrite app_nil_r. auto.
  - intros e'. destruct create_if_needed.
    + apply wp_bind.
      eapply wp_mono; [apply get_or_create_head_node_run|].
      cbn [cfg]. intros r0 w1 tr Hrec.
      destruct r0 as [[]| |].
      * apply find_head_node_lookup.
        -- intros e2 h nodes'. exists [], (tr ++ lookup_calls (cfg w1) (h :: nodes'))%list.
           split; [reflexivity|].
           exists (Ret tt), (cfg w1), tr. split; [exact Hrec|]. split; [reflexivity|].
           exists (h :: nodes'). auto.
        -- intros e2. apply head_node_not_found_raises. cbn [cfg].
           exists [], (tr ++ lookup_calls (cfg w1) [])%list.
           split; [rewrite app_nil_r; reflexivity|].
           exists (Ret tt), (cfg w1), tr. split; [exact Hrec|]. split; [reflexivity|].
           exists []. auto.
      * exists [], tr. split; [reflexivity|].
        exists (Exc e), (cfg w1), tr. auto.
      * exists [], tr. split; [reflexivity|].
        exists OutOfFuel, (cfg w1), tr. auto.
    + apply head_node_not_found_raises. cbn [cfg fs].
      exists [], []. auto.
Qed.
Lemma stop_command_off cmd is_docker run_env :
  stop_command cmd false is_docker run_env = (cmd, false).
Proof.
  unfold stop_command. destruct cmd as [c|]; [|reflexivity].
  rewrite andb_false_r. reflexivity.
Qed.

Lemma ran_plainly_nothing cmd run_env port_forward with_output
    (r : result string) (w' : World E) t :
  runs t = [] ->
  (forall out, r <> Ret out) ->
  ran_plainly cmd run_env port_forward with_output r w' t.
Proof.
  intros Ht Hr. unfold ran_plainly. rewrite Ht.
  split; [intros out Hout; destruct (Hr out Hout)|].
  split; [cbn; lia | constructor].
Qed.

Lemma exec_cluster_run fuel config_file cmd run_env start override_cluster_name
    port_forward with_output (w : World E) :
  wp (exec_cluster fuel config_file cmd run_env false false false start
                   override_cluster_name port_forward with_output) w
     (ran_plainly cmd run_env port_forward with_output).
Proof.
  unfold exec_cluster. cbn [andb].
  destruct (negb _);
    [apply wp_raise, ran_plainly_nothing; [reflexivity | discriminate]|].
  apply (wp_bind_only up_call); [unfold load_config; only_tac| |
    intros; apply ran_plainly_nothing;
    [apply up_call_runs; assumption | discriminate]..].
  intros c0 w0 t0 Ht0.
  apply (wp_bind_only up_call); [only_tac| |
    intros; apply ran_plainly_nothing;
    [rewrite runs_app, (up_call_runs t0), up_call_runs by assumption;
     reflexivity | discriminate]..].
  intros c1 w1 t1 Ht1. apply wp_bind, wp_set_config.
  apply (wp_bind_only up_call); [apply get_head_node_only| |
    intros; apply ran_plainly_nothing;
    [cbn [app];
     rewrite !runs_app, (up_call_runs t0), (up_call_runs t1), up_call_runs
       by assumption;
     reflexivity | discriminate]..].
  intros head_id w2 t2 Ht2. wp_steps. cbn [env fs cfg fst snd].
  apply wp_intro; cbn [res final trace]. rewrite stop_command_off.
  wp_steps. unfold _exec. wp_steps.
  cbn [res cfg env fs fst snd]. unfold ran_plainly.
  rewrite !runs_app, (up_call_runs t0), (up_call_runs t1), (up_call_runs t2)
    by assumption.
  assert (Hcmd : match cmd with
                 | Some c => if nonempty_str c then cmd else cmd
                 | None => cmd
                 end = cmd)
    by (destruct cmd as [c|]; [destruct (nonempty_str c)|]; reflexivity).
  cbn. rewrite Hcmd.
  split; [|split; [lia | repeat constructor]].
  intros out [= <-]. exists head_id. reflexivity.
Qed.
End Exec.

(** X11.  [_get_head_node] first looks the head node up: it opens a
    provider, lists the head nodes once and releases the provider.  If a
    node is listed it returns the first one and does nothing else.  If none
    is listed it raises [RuntimeError] naming the cluster, unless it is to
    create the node: then it reconciles the head node once (no restart
    flags, without prompting), and if that returns, looks up a second
    time, with the same two outcomes. *)
Theorem head_node_lookup {E} `{!Environment E} `{!Externals}
    fuel config_file override_cluster_name create_if_needed (w : World E) :
  let o := _get_head_node fuel config_file override_cluster_name
                          create_if_needed w in
  exists nodes rest,
    trace o = (lookup_calls (cfg w) nodes ++ rest)%list /\
    match nodes with
    | head_id :: _ =>
        res o = Ret head_id /\ rest = [] /\
        cfg (final o) = cfg w /\ fs (final o) = fs w
    | [] =>
        if create_if_needed then
          exists r0 config' tr,
            reconciliation (cfg w) false false r0 config' tr /\
            cfg (final o) = config' /\
            match r0 with
            | Ret _ =>
                exists nodes',
                  rest = (tr ++ lookup_calls config' nodes')%list /\
                  res o = lookup_result config' nodes'
            | Exc e => rest = tr /\ res o = Exc e
            | OutOfFuel => rest = tr /\ res o = OutOfFuel
            end
        else
          res o = Exc (head_not_found (cfg w)) /\ rest = [] /\
          cfg (final o) = cfg w /\ fs (final o) = fs w
    end.
Proof.
  cbv zeta.
  exact (wp_elim _ _ _ (get_head_node_run fuel config_file override_cluster_name
                          create_if_needed w)).
Qed.

(** X12.  Given neither [screen], [tmux] nor [stop], [exec_cluster] hands
    the command to the command runner as it was given, with the port
    forwards, the output flag and the run environment it was given and with
    [exit_on_fail], and it does so at most once.  When it returns it has
    done so exactly once, through an updater built from the config as the
    look-up left it, and what it returns is what the runner returned. *)
Theorem exec_cluster_runs_once {E} `{!Environment E} `{!Externals}
    fuel config_file cmd run_env start override_cluster_name port_forward
    with_output (w : World E) :
  let o := exec_cluster fuel config_file cmd run_env false false false start
                        override_cluster_name port_forward with_output w in
  let args := {| run_cmd := cmd; run_exit_on_fail := true;
                 run_port_forward := port_forward;
                 run_with_output := with_output;
                 run_run_env := run_env |} in
  (forall out,
      res o = Ret out ->
      exists head_id,
        runs (trace o) = [(plain_updater head_id (cfg (final o)), args, out)]) /\
  (length (runs (trace o)) <= 1)%nat /\
  Forall (fun run : UpdaterArgs * RunArgs * string => run.1.2 = args)
         (runs (trace o)).
Proof.
  cbv zeta.
  exact (wp_elim _ _ _ (exec_cluster_run fuel config_file cmd run_env start
                          override_cluster_name port_forward with_output w)).
Qed.

(** X13.  [monitor_cluster] runs the [tail] of the monitor logs with the
    number of lines it was given, and [attach_cluster] the multiplexer
    command its flags select or the shell; both in the ["auto"] run
    environment, and they run nothing else: at most one command, and
    exactly one when they return. *)
Theorem monitor_and_attach_commands {E} `{!Environment E} `{!Externals} :
  (forall fuel config_file num_lines override_cluster_name (w : World E),
      let o := monitor_cluster fuel config_file num_lines
                               override_cluster_name w in
      let args :=
        {| run_cmd := Some ("tail -n " +:+ pretty num_lines +:+
                            " -f /tmp/ray/session_*/logs/monitor*");
           run_exit_on_fail := true; run_port_forward := None;
           run_with_output := false; run_run_env := "auto" |} in
      (res o = Ret tt -> exists a out, runs (trace o) = [(a, args, out)]) /\
      (length (runs (trace o)) <= 1)%nat /\
      Forall (fun run : UpdaterArgs * RunArgs * string => run.1.2 = args)
             (runs (trace o))) /\
  (forall fuel config_file start use_screen use_tmux override_cluster_name new
          port_forward (w : World E),
      let o := attach_cluster fuel config_file start use_screen use_tmux
                              override_cluster_name new port_forward w in
      let args :=
        {| run_cmd :=
             Some (if use_tmux
                   then if new then "tmux new" else "tmux attach || tmux new"
                   else if use_screen
                        then if new then "screen -L" else "screen -L -xRR"
                        else "$SHELL");
           run_exit_on_fail := true;
           run_port_forward := port_forward;
           run_with_output := false; run_run_env := "auto" |} in
      (res o = Ret tt -> exists a out, runs (trace o) = [(a, args, out)]) /\
      (length (runs (trace o)) <= 1)%nat /\
      Forall (fun run : UpdaterArgs * RunArgs * string => run.1.2 = args)
             (runs (trace o))).
Proof.
  assert (Hexec : forall fuel config_file cmd start override_cluster_name
                         port_forward (w : World E),
             wp (exec_cluster fuel config_file (Some cmd) "auto" false false
                   false start override_cluster_name port_forward false;;;
                 ret tt) w
                (fun r _ t =>
                   let args := {| run_cmd := Some cmd;
                                  run_exit_on_fail := true;
                                  run_port_forward := port_forward;
                                  run_with_output := false;
                                  run_run_env := "auto" |} in
                   (r = Ret tt -> exists a out, runs t = [(a, args, out)]) /\
                   (length (runs t) <= 1)%nat /\
                   Forall (fun run : UpdaterArgs * RunArgs * string =>
                             run.1.2 = args) (runs t))).
  { intros. apply wp_bind.
    eapply wp_mono; [apply exec_cluster_run|].
    intros r w' t (Hret & Hlen & Hall).
    destruct r as [out| |]; [|split; [discriminate | auto]..].
    apply wp_ret. rewrite app_nil_r. split; [|auto].
    intros _. destruct (Hret out eq_refl) as [h Hran]. eauto. }
  split; intros; cbv zeta.
  - exact (wp_elim _ _ _ (Hexec fuel config_file _ false override_cluster_name
                            None w)).
  - unfold attach_cluster, attach_command.
    destruct use_tmux; [|destruct use_screen; [|destruct new]];
      try exact (wp_elim _ _ _ (Hexec fuel config_file _ start
                                  override_cluster_name port_forward w)).
    cbn. split; [discriminate|]. split; [lia | constructor].
Qed.

(** X14.  [stop] needs a command: with no command or the empty one,
    [exec_cluster] with [stop] does exactly what it does without. *)
Theorem stop_needs_a_command {E} `{!Environment E} `{!Externals}
    fuel config_file cmd run_env screen tmux start override_cluster_name
    port_forward with_output (w : World E) :
  truthy cmd = false ->
  exec_cluster fuel config_file cmd run_env screen tmux true start
               override_cluster_name port_forward with_output w =
  exec_cluster fuel config_file cmd run_env screen tmux false start
               override_cluster_name port_forward with_output w.
Proof.
  intros Hcmd. unfold exec_cluster, stop_command.
  destruct cmd as [[|a c]|]; [reflexivity | discriminate Hcmd | reflexivity].
Qed.

Lemma stop_needs_a_command_witness :
  let w := Fake.world Inputs.current_head Fake.base_config in
  exec_cluster 5 "cluster.yaml" (Some "") "auto" false false true false None
               None false w =
  exec_cluster 5 "cluster.yaml" (Some "") "auto" false false false false None
               None false w.
Proof.
  cbv zeta.
  apply (stop_needs_a_command 5%nat "cluster.yaml" (Some "") "auto" false false
           false None None false
           (Fake.world Inputs.current_head Fake.base_config)).
  reflexivity.
Defined.

(** X15.  The argument checks come first and are the only source of their
    errors.  [exec_cluster] raises [AssertionError] exactly when it is given
    both [screen] and [tmux] or a run environment outside [RUN_ENV_TYPES];
    [attach_cluster] raises [ValueError] exactly when it is given [new]
    without a multiplexer; and in both cases nothing has been done. *)
Theorem argument_errors {E} `{!Environment E} `{!Externals} :
  (forall fuel config_file cmd run_env screen tmux stop start
          override_cluster_name port_forward with_output (w : World E),
      let o := exec_cluster fuel config_file cmd run_env screen tmux stop start
                            override_cluster_name port_forward with_output w in
      ((exists msg, res o = Exc (AssertionError msg)) <->
       (screen && tmux = true \/ run_env ∉ RUN_ENV_TYPES)) /\
      ((exists msg, res o = Exc (AssertionError msg)) ->
       final o = w /\ trace o = [])) /\
  (forall fuel config_file start use_screen use_tmux override_cluster_name new
          port_forward (w : World E),
      let o := attach_cluster fuel config_file start use_screen use_tmux
                              override_cluster_name new port_forward w in
      ((exists msg, res o = Exc (ValueError msg)) <->
       (use_tmux = false /\ use_screen = false /\ new = true)) /\
      ((exists msg, res o = Exc (ValueError msg)) ->
       final o = w /\ trace o = [])).
Proof.
  split; intros until w; cbv zeta.
  - destruct (screen && tmux) eqn:Hst.
    { unfold exec_cluster. rewrite Hst. cbn. split; [|auto].
      split; [auto | eauto]. }
    destruct (decide (run_env ∈ RUN_ENV_TYPES)) as [Henv|Henv].
    + assert (Hno : forall msg,
                 res (exec_cluster fuel config_file cmd run_env screen tmux stop
                        start override_cluster_name port_forward with_output w)
                 <> Exc (AssertionError msg)).
      { intros msg Hr.
        pose proof (exec_cluster_checked_raises fuel config_file cmd run_env
                      screen tmux stop start override_cluster_name port_forward
                      with_output Hst Henv w _ Hr) as Ha.
        discriminate Ha. }
      split; [split|].
      * intros [msg Hr]. destruct (Hno msg Hr).
      * intros [Hf|Hf]; [discriminate Hf | destruct (Hf Henv)].
      * intros [msg Hr]. destruct (Hno msg Hr).
    + unfold exec_cluster. rewrite Hst, (bool_decide_eq_false_2 _ Henv). cbn.
      split; [|auto]. split; [auto | eauto].
  - unfold attach_cluster, attach_command.
    assert (Hno : forall cmd msg,
               res ((exec_cluster fuel config_file (Some cmd) "auto" false false
                       false start override_cluster_name port_forward false;;;
                     ret tt) w) <> Exc (ValueError msg)).
    { intros cmd msg Hr.
      assert (Hraises : raises (E:=E) (fun e => exec_error e || start_error e)
                (exec_cluster fuel config_file (Some cmd) "auto" false false
                   false start override_cluster_name port_forward false;;;
                 ret tt)).
      { apply raises_bind; [apply exec_cluster_start_raises
                           | intros; apply raises_ret]. }
      pose proof (Hraises w _ Hr) as Ha. discriminate Ha. }
    destruct use_tmux; [|destruct use_screen; [|destruct new]].
    3:{ cbn. split; [|auto]. split; [auto | eauto]. }
    all: split; [split|];
      [ intros [msg Hr]; destruct (Hno _ msg Hr)
      | intros (? & ? & ?); discriminate
      | intros [msg Hr]; destruct (Hno _ msg Hr) ].
Qed.

Lemma argument_errors_witness :
  let o := exec_cluster 5 "cluster.yaml" (Some "uptime") "podman" false false
             false false None None false
             (Fake.world Inputs.current_head Fake.base_config) in
  (exists msg, res o = Exc (AssertionError msg)) /\
  final o = Fake.world Inputs.current_head Fake.base_config /\ trace o = [].
Proof.
  cbv zeta.
  assert (Hbad : false && false = true \/ "podman" ∉ RUN_ENV_TYPES).
  { right. intros Hin. apply (bool_decide_eq_true_2 _) in Hin.
    vm_compute in Hin. discriminate Hin. }
  pose proof (proj1 argument_errors 5%nat "cluster.yaml" (Some "uptime")
                "podman" false false false false None None false
                (Fake.world Inputs.current_head Fake.base_config)) as [Hiff Hnone].
  split; [apply Hiff, Hbad | apply Hnone, Hiff, Hbad].
Defined.

(** ** Teardown: the prompt and the sample *)

Section Teardown.
Context {E : Type} `{!Environment E} `{!Externals}.

Lemma unprompted_no_answer msg b t :
  Forall (fun ev => negb (is_prompt ev) = true) t -> confirm_ev msg b ∉ t.
Proof.
  intros Ht Hin. rewrite Forall_forall in Ht. specialize (Ht _ Hin).
  discriminate Ht.
Qed.

Lemma teardown_cluster_prompt fuel config_file yes workers_only
    override_cluster_name keep_min_workers (w : World E) :
  wp (teardown_cluster fuel config_file yes workers_only override_cluster_name
                       keep_min_workers) w
     (fun r w' t =>
        let declined := confirm_ev "This will destroy your cluster" false in
        (declined ∈ t -> r = Exc Abort) /\
        (r = Exc Abort ->
         exists config,
           t = [read_ev config_file; validate_config_ev config true; declined] /\
           fs w' = fs w)).
Proof.
  cbv zeta. unfold teardown_cluster, load_config, validate.
  apply wp_bind, wp_bind, wp_read_file.
  destruct (fs w !! config_file) as [text|].
  2:{ split; [|discriminate]. intros Hin.
      apply list_elem_of_singleton in Hin. discriminate Hin. }
  destruct (yaml_safe_load text) as [c0|].
  2:{ apply wp_raise. rewrite app_nil_r. split; [|discriminate]. intros Hin.
      apply list_elem_of_singleton in Hin. discriminate Hin. }
  apply wp_ret. apply wp_bind, wp_bind, wp_ret_emit.
  set (c := prepare_config _).
  destruct (validate_config c).
  2:{ apply wp_raise. cbn [app]. split; [|discriminate]. intros Hin.
      repeat (apply elem_of_cons in Hin as [Hin|Hin]; [discriminate Hin|]).
      apply elem_of_nil in Hin. destruct Hin. }
  apply wp_ret. apply wp_bind, wp_set_config. apply wp_bind.
  assert (Hrest : forall e',
             wp ((if negb workers_only then
                    try_except_Exception
                      (with_own_config
                         (exec_cluster fuel config_file (Some "ray stop") "auto"
                            false false false false override_cluster_name
                            None false);;;
                       ret tt)
                  else ret tt);;;
                 get_node_provider (provider c) (cluster_name c);;;
                 try_finally
                   (A <- remaining_nodes workers_only keep_min_workers;;
                    teardown_loop fuel workers_only keep_min_workers A)
                   cleanup)
                (mkWorld e' (fs w) c)
                (fun r _ t =>
                   (confirm_ev "This will destroy your cluster" false ∉ t) /\
                   r <> Exc Abort)).
  { intros e'. eapply wp_facts.
    - apply teardown_after_prompt_unprompted.
    - apply teardown_after_prompt_raises.
    - intros r w' t Ht Hr. split; [apply unprompted_no_answer, Ht|].
      intros ->. discriminate (Hr _ eq_refl). }
  cbn [fs cfg env]. apply wp_confirm; intros Hyes; [|intros e'..].
  - eapply wp_mono; [apply (Hrest (env w))|].
    intros r w' t [Hnot Hr]. cbn [app]. split; [|intros Ha; destruct (Hr Ha)].
    intros Hin.
    repeat (apply elem_of_cons in Hin as [Hin|Hin]; [discriminate Hin|]).
    destruct (Hnot Hin).
  - eapply wp_mono; [apply (Hrest e')|].
    intros r w' t [Hnot Hr]. cbn [app]. split; [|intros Ha; destruct (Hr Ha)].
    intros Hin.
    repeat (apply elem_of_cons in Hin as [Hin|Hin]; [discriminate Hin|]).
    destruct (Hnot Hin).
  - cbn [app fs]. split; [reflexivity|]. intros _. exists c. auto.
Qed.
Lemma teardown_cluster_sample fuel config_file yes override_cluster_name
    (w : World E) :
  wp (teardown_cluster fuel config_file yes true override_cluster_name true) w
     (fun r w' t =>
        forall workers,
          head (queries t) = Some (worker_filter, workers) ->
          Z.of_nat (length workers) < default 0 (min_workers (cfg w')) ->
          r = Exc (ValueError "Sample larger than population or is negative") /\
          provider_writes t = [] /\
          last t = Some cleanup_ev).
Proof.
  unfold teardown_cluster, load_config, validate.
  apply wp_bind, wp_bind, wp_read_file.
  destruct (fs w !! config_file) as [text|]; [|intros ? [=]].
  destruct (yaml_safe_load text) as [c0|]; [|apply wp_raise; intros ? [=]].
  apply wp_ret. apply wp_bind, wp_bind, wp_ret_emit.
  set (c := prepare_config _).
  destruct (validate_config c); [|apply wp_raise; intros ? [=]].
  apply wp_ret. apply wp_bind, wp_set_config. apply wp_bind.
  assert (Hrest : forall e' pre,
             queries pre = [] -> provider_writes pre = [] ->
             wp ((if negb true then
                    try_except_Exception
                      (with_own_config
                         (exec_cluster fuel config_file (Some "ray stop") "auto"
                            false false false false override_cluster_name
                            None false);;;
                       ret tt)
                  else ret tt);;;
                 get_node_provider (provider c) (cluster_name c);;;
                 try_finally
                   (A <- remaining_nodes true true;;
                    teardown_loop fuel true true A)
                   cleanup)
                (mkWorld e' (fs w) c)
                (fun r w' t =>
                   forall workers,
                     head (queries (pre ++ t)) = Some (worker_filter, workers) ->
                     Z.of_nat (length workers) < default 0 (min_workers (cfg w')) ->
                     r = Exc (ValueError "Sample larger than population or is negative") /\
                     provider_writes (pre ++ t) = [] /\
                     last (pre ++ t) = Some cleanup_ev)).
  { intros e' pre Hq Hpw. cbn [negb]. wp_steps.
    eapply wp_mono; [apply remaining_nodes_requery|].
    cbn [cfg fs]. intros r w' t (Hreq & Hcfg & _).
    inversion Hreq as [| workers selected heads Hrange
                       | workers Hrange]; subst.
    - eapply wp_mono; [apply teardown_loop_trace|].
      intros r' w'' t' (_ & Hcfg' & _).
      assert (Hno : forall tail workers0,
                 head (queries
                         (pre ++ [] ++
                          [get_node_provider_ev (provider c) (cluster_name c)] ++
                          (non_terminated_nodes_ev worker_filter workers
                             :: tail))) = Some (worker_filter, workers0) ->
                 Z.of_nat (length workers0) < default 0 (min_workers (cfg w'')) ->
                 False).
      { intros tail workers0 Hh Hlt. rewrite queries_app, Hq in Hh.
        change (Some (worker_filter, workers) = Some (worker_filter, workers0)) in Hh.
        injection Hh as <-. rewrite Hcfg', Hcfg in Hlt. lia. }
      destruct r'; intros workers0 Hh Hlt; exfalso; cbn [app] in Hh;
        exact (Hno _ _ Hh Hlt).
    - intros workers0 Hh Hlt.
      split; [reflexivity|]. rewrite !provider_writes_app, Hpw.
      split; [reflexivity|]. rewrite !app_assoc. apply last_snoc. }
  cbn [fs cfg env]. apply wp_confirm; intros Hyes; [|intros e'..].
  - eapply wp_mono; [apply (Hrest (env w) [read_ev config_file;
                                            validate_config_ev c true]);
                     reflexivity|].
    intros r w' t Ht. exact Ht.
  - eapply wp_mono; [apply (Hrest e' [read_ev config_file;
                                      validate_config_ev c true;
                                      confirm_ev "This will destroy your cluster" true]);
                     reflexivity|].
    intros r w' t Ht. exact Ht.
  - intros ? [=].
Qed.
End Teardown.

(** X16.  [teardown_cluster] ends in [Abort] exactly when the operator
    declined its prompt, and then it has read and validated the config and
    asked, and nothing else: no provider was opened, no command run on the
    head, no node terminated. *)
Theorem teardown_declined {E} `{!Environment E} `{!Externals}
    fuel config_file yes workers_only override_cluster_name keep_min_workers
    (w : World E) :
  let o := teardown_cluster fuel config_file yes workers_only
                            override_cluster_name keep_min_workers w in
  let declined := confirm_ev "This will destroy your cluster" false in
  (declined ∈ trace o <-> res o = Exc Abort) /\
  (res o = Exc Abort ->
   exists config,
     trace o = [read_ev config_file; validate_config_ev config true; declined] /\
     fs (final o) = fs w).
Proof.
  cbv zeta.
  pose proof (wp_elim _ _ _ (teardown_cluster_prompt fuel config_file yes
                               workers_only override_cluster_name
                               keep_min_workers w)) as [Hin Habort].
  cbv beta in Hin, Habort.
  split; [split; [exact Hin|] | exact Habort].
  intros Hr. destruct (Habort Hr) as (config & -> & _).
  repeat constructor.
Qed.

Lemma teardown_declined_witness :
  let o := teardown_cluster 5 "cluster.yaml" false false None false
             (Fake.world (Inputs.with_answer false Inputs.three_workers)
                         Fake.base_config) in
  res o = Exc Abort /\
  exists config,
    trace o = [read_ev "cluster.yaml"; validate_config_ev config true;
               confirm_ev "This will destroy your cluster" false] /\
    fs (final o) = fs (Fake.world (Inputs.with_answer false Inputs.three_workers)
                                  Fake.base_config).
Proof.
  cbv zeta.
  assert (Hr : res (teardown_cluster 5 "cluster.yaml" false false None false
                      (Fake.world (Inputs.with_answer false Inputs.three_workers)
                                  Fake.base_config)) = Exc Abort)
    by (vm_compute; reflexivity).
  split; [exact Hr|].
  exact (proj2 (teardown_declined 5%nat "cluster.yaml" false false None false
                  (Fake.world (Inputs.with_answer false Inputs.three_workers)
                              Fake.base_config)) Hr).
Defined.

(** X17.  Keeping more workers than there are.  When [teardown_cluster]
    with [workers_only] and [keep_min_workers] finds fewer workers listed
    than the config's [min_workers], it raises the [ValueError] of
    [random.sample]; no node has been terminated, and the provider is
    released. *)
Theorem teardown_keeps_more_than_listed {E} `{!Environment E} `{!Externals}
    fuel config_file yes override_cluster_name (w : World E) workers :
  let o := teardown_cluster fuel config_file yes true override_cluster_name
                            true w in
  head (queries (trace o)) = Some (worker_filter, workers) ->
  Z.of_nat (length workers) < default 0 (min_workers (cfg (final o))) ->
  res o = Exc (ValueError "Sample larger than population or is negative") /\
  provider_writes (trace o) = [] /\
  last (trace o) = Some cleanup_ev.
Proof.
  cbv zeta.
  exact (wp_elim _ _ _ (teardown_cluster_sample fuel config_file yes
                          override_cluster_name w) workers).
Qed.

Lemma teardown_keeps_more_than_listed_witness :
  let o := teardown_cluster 5 "cluster.yaml" true true None true
             (Fake.world Inputs.current_head Fake.base_config) in
  res o = Exc (ValueError "Sample larger than population or is negative") /\
  provider_writes (trace o) = [] /\
  last (trace o) = Some cleanup_ev.
Proof.
  cbv zeta.
  apply (teardown_keeps_more_than_listed 5%nat "cluster.yaml" true None
           (Fake.world Inputs.current_head Fake.base_config) []);
    vm_compute; reflexivity.
Defined.

(** ** Teardown: the attempt to stop Ray on the head *)

Section StopAttempt.
Context {E : Type} `{!Environment E} `{!Externals}.

Lemma wp_with_own_config {A} (m : M E A) (w : World E) Q :
  wp m w (fun r w' t => Q r (mkWorld (env w') (fs w') (cfg w)) t) ->
  wp (with_own_config m) w Q.
Proof. intros Hm. apply wp_intro. exact (wp_elim _ _ _ Hm). Qed.

Lemma wp_try_except (body : M E unit) (w : World E) Q :
  wp body w (fun r w' t =>
               match r with
               | Exc e => if is_Exception e then Q (Ret tt) w' t
                          else Q (Exc e) w' t
               | _ => Q r w' t
               end) ->
  wp (try_except_Exception body) w Q.
Proof.
  intros Hb. apply wp_intro. apply wp_elim in Hb.
  unfold try_except_Exception.
  destruct (body w) as [r w' t]; cbn [res final trace] in *.
  destruct r as [[]|e|]; try exact Hb.
  destruct (is_Exception e); exact Hb.
Qed.

Lemma filters_differ : worker_filter <> head_filter.
Proof.
  intros Heq. apply (f_equal (fun m => m !! TAG_RAY_NODE_TYPE)) in Heq.
  unfold worker_filter, head_filter in Heq.
  rewrite !lookup_singleton_eq in Heq. discriminate Heq.
Qed.

Lemma unlisted_quiet t :
  Forall (fun ev => negb (is_listing ev) = true) t -> queries t = [].
Proof.
  induction 1 as [|ev t Hev _ IH]; [reflexivity|].
  rewrite queries_cons, IH. destruct ev; try reflexivity; discriminate Hev.
Qed.

Lemma resolution_call_silent t :
  Forall (fun ev => resolution_call ev = true) t ->
  queries t = [] /\ runs t = [].
Proof.
  induction 1 as [|ev t Hev _ [IHq IHr]]; [split; reflexivity|].
  rewrite queries_cons, runs_cons.
  destruct ev; try discriminate Hev; split; assumption.
Qed.

Lemma loop_call_runs workers_only t :
  Forall (fun ev => loop_call workers_only ev = true) t -> runs t = [].
Proof.
  induction 1 as [|ev t Hev _ IH]; [reflexivity|].
  rewrite runs_cons, IH. destruct ev; try reflexivity; discriminate Hev.
Qed.

(** What [exec_cluster] lists when it is not to start the cluster: nothing
    if it fails before the look-up, else the head nodes, once; with none
    listed it runs nothing and ends in an [Exception]. *)
Lemma exec_cluster_lookup fuel config_file cmd run_env screen tmux stop
    override_cluster_name port_forward with_output (w : World E) :
  wp (exec_cluster fuel config_file cmd run_env screen tmux stop false
                   override_cluster_name port_forward with_output) w
     (fun r _ t =>
        (queries t = [] /\ runs t = []) \/
        exists nodes,
          queries t = [(head_filter, nodes)] /\
          (nodes = [] ->
           runs t = [] /\ exists e, r = Exc e /\ is_Exception e = true)).
Proof.
  unfold exec_cluster.
  destruct (screen && tmux); [apply wp_raise; left; auto|].
  destruct (negb _); [apply wp_raise; left; auto|].
  apply (wp_bind_only resolution_call); [unfold load_config; only_tac| |
    intros; left; apply resolution_call_silent; assumption..].
  intros c0 w0 t0 Ht0. destruct (resolution_call_silent _ Ht0) as [Hq0 Hr0].
  apply (wp_bind_only resolution_call); [only_tac| |
    intros ? ? t1 Ht1 + intros ? t1 Ht1;
    destruct (resolution_call_silent _ Ht1) as [Hq1 Hr1]; left;
    rewrite queries_app, runs_app, Hq0, Hr0, Hq1, Hr1; auto..].
  intros c1 w1 t1 Ht1. destruct (resolution_call_silent _ Ht1) as [Hq1 Hr1].
  apply wp_bind, wp_set_config. apply wp_bind.
  eapply wp_mono; [apply get_head_node_run|].
  cbn [cfg]. intros r w2 t2 (nodes & rest & -> & Hlook).
  destruct nodes as [|head_id heads]; destruct Hlook as (-> & -> & _).
  - right. exists []. split.
    + rewrite !queries_app, Hq0, Hq1. reflexivity.
    + intros _. split; [|eexists; split; reflexivity].
      rewrite !runs_app, Hr0, Hr1. reflexivity.
  - apply (wp_only (fun ev => negb (is_listing ev))); [only_tac|].
    intros r w3 t3 Ht3. right. exists (head_id :: heads).
    split; [|discriminate].
    rewrite !queries_app, Hq0, Hq1, (unlisted_quiet _ Ht3). reflexivity.
Qed.

(** Lines 156-191 of [teardown_cluster]: the first listing is of the
    workers, and no command is run. *)
Lemma teardown_nodes_lists_workers fuel workers_only keep_min_workers config
    (w : World E) :
  wp (get_node_provider (provider config) (cluster_name config);;;
      try_finally
        (A <- remaining_nodes workers_only keep_min_workers;;
         teardown_loop fuel workers_only keep_min_workers A)
        cleanup) w
     (fun _ _ t =>
        exists workers rest,
          queries t = (worker_filter, workers) :: rest /\ runs t = []).
Proof.
  wp_steps.
  eapply wp_mono; [apply remaining_nodes_requery|].
  intros r w1 q (Hq & _ & _).
  assert (Hfirst : exists workers rest,
             queries q = (worker_filter, workers) :: rest /\ runs q = []).
  { destruct Hq as [workers heads | workers selected heads Hrange
                   | workers Hrange]; exists workers; eexists;
      (split; [rewrite queries_cons; reflexivity|]);
      unfold with_head; destruct workers_only; reflexivity. }
  destruct Hfirst as (workers & rest & Hqq & Hrq).
  destruct r as [A|e|].
  - apply (wp_only (loop_call workers_only)); [apply teardown_loop_only|].
    intros r w2 t Ht. pose proof (loop_call_runs _ _ Ht) as Hrt.
    destruct r; exists workers; eexists;
      (split; [cbn [app]; rewrite queries_cons, !queries_app, Hqq; reflexivity|]);
      cbn [app]; rewrite runs_cons, !runs_app, Hrq, Hrt; reflexivity.
  - exists workers. eexists.
    split; [cbn [app]; rewrite queries_cons, !queries_app, Hqq; reflexivity|].
    cbn [app]. rewrite runs_cons, !runs_app, Hrq. reflexivity.
  - inversion Hq.
Qed.

Lemma teardown_cluster_without_head fuel config_file yes override_cluster_name
    keep_min_workers (w : World E) :
  wp (teardown_cluster fuel config_file yes false override_cluster_name
                       keep_min_workers) w
     (fun _ _ t =>
        head (queries t) = Some (head_filter, []) ->
        exists workers rest,
          queries t = (head_filter, []) :: (worker_filter, workers) :: rest /\
          runs t = []).
Proof.
  unfold teardown_cluster, load_config, validate.
  apply wp_bind, wp_bind, wp_read_file.
  destruct (fs w !! config_file) as [text|]; [|intros [=]].
  destruct (yaml_safe_load text) as [c0|]; [|apply wp_raise; intros [=]].
  apply wp_ret. apply wp_bind, wp_bind, wp_ret_emit.
  set (c := prepare_config _).
  destruct (validate_config c); [|apply wp_raise; intros [=]].
  apply wp_ret. apply wp_bind, wp_set_config. apply wp_bind.
  assert (Hrest : forall e' pre,
             queries pre = [] -> runs pre = [] ->
             wp ((if negb false then
                    try_except_Exception
                      (with_own_config
                         (exec_cluster fuel config_file (Some "ray stop") "auto"
                            false false false false override_cluster_name
                            None false);;;
                       ret tt)
                  else ret tt);;;
                 get_node_provider (provider c) (cluster_name c);;;
                 try_finally
                   (A <- remaining_nodes false keep_min_workers;;
                    teardown_loop fuel false keep_min_workers A)
                   cleanup)
                (mkWorld e' (fs w) c)
                (fun _ _ t =>
                   head (queries (pre ++ t)) = Some (head_filter, []) ->
                   exists workers rest,
                     queries (pre ++ t) =
                       (head_filter, []) :: (worker_filter, workers) :: rest /\
                     runs (pre ++ t) = [])).
  { intros e' pre Hqp Hrp. cbn [negb].
    assert (Hgo : forall t1 (w1 : World E),
               (queries t1 = [] /\ runs t1 = []) \/
               (exists nodes,
                   queries t1 = [(head_filter, nodes)] /\
                   (nodes = [] -> runs t1 = [])) ->
               wp (get_node_provider (provider c) (cluster_name c);;;
                   try_finally
                     (A <- remaining_nodes false keep_min_workers;;
                      teardown_loop fuel false keep_min_workers A)
                     cleanup) w1
                  (fun _ _ t =>
                     head (queries (pre ++ t1 ++ t)) = Some (head_filter, []) ->
                     exists workers rest,
                       queries (pre ++ t1 ++ t) =
                         (head_filter, []) :: (worker_filter, workers) :: rest /\
                       runs (pre ++ t1 ++ t) = [])).
    { intros t1 w1 Hcase.
      eapply wp_mono; [apply teardown_nodes_lists_workers|].
      intros _ _ t (workers & rest & Hq & Hr).
      rewrite !queries_app, !runs_app, Hqp, Hrp, Hq, Hr. cbn [app].
      destruct Hcase as [[Hq1 Hr1] | (nodes & Hq1 & Hr1)]; rewrite Hq1.
      - cbn [app head]. intros Hh. exfalso.
        apply (f_equal (fun q => fst <$> q)) in Hh.
        cbn [fmap option_fmap option_map fst] in Hh.
        apply filters_differ. congruence.
      - cbn [app head]. intros [= ->]. rewrite (Hr1 eq_refl). eauto. }
    apply wp_bind, wp_try_except, wp_bind, wp_with_own_config.
    eapply wp_mono; [apply exec_cluster_lookup|].
    intros r w1 t1 Hcase.
    assert (Hcase' : (queries t1 = [] /\ runs t1 = []) \/
                     (exists nodes,
                         queries t1 = [(head_filter, nodes)] /\
                         (nodes = [] -> runs t1 = []))).
    { destruct Hcase as [?|(nodes & ? & Hn)]; [left; assumption|].
      right. exists nodes. split; [assumption|]. intros Hnil. apply Hn, Hnil. }
    assert (Hstop : forall e, r = Exc e -> is_Exception e = false ->
               head (queries (pre ++ t1)) = Some (head_filter, []) -> False).
    { intros e -> He. rewrite queries_app, Hqp. cbn [app].
      destruct Hcase as [[-> _] | (nodes & -> & Hn)]; [intros [=]|].
      cbn [app head]. intros [= ->].
      destruct (Hn eq_refl) as (_ & e1 & [= <-] & He1). congruence. }
    destruct r as [out|e|].
    - apply wp_ret. rewrite app_nil_r.
      eapply wp_mono; [apply (Hgo t1 _ Hcase')|]. intros ? ? t Ht. exact Ht.
    - destruct (is_Exception e) eqn:He.
      + eapply wp_mono; [apply (Hgo t1 _ Hcase')|]. intros ? ? t Ht. exact Ht.
      + intros Hh. destruct (Hstop e eq_refl He Hh).
    - rewrite queries_app, Hqp. cbn [app].
      destruct Hcase as [[-> _] | (nodes & -> & Hn)]; [intros [=]|].
      cbn [app head]. intros [= ->].
      destruct (Hn eq_refl) as (_ & e1 & [=] & _). }
  cbn [fs cfg env]. apply wp_confirm; intros Hyes; [|intros e'..].
  - eapply wp_mono; [apply (Hrest (env w) [read_ev config_file;
                                            validate_config_ev c true]);
                     reflexivity|].
    intros r w' t Ht. exact Ht.
  - eapply wp_mono; [apply (Hrest e' [read_ev config_file;
                                      validate_config_ev c true;
                                      confirm_ev "This will destroy your cluster" true]);
                     reflexivity|].
    intros r w' t Ht. exact Ht.
  - intros [=].
Qed.

Lemma teardown_cluster_raises fuel config_file yes workers_only
    override_cluster_name keep_min_workers :
  raises (E:=E) teardown_error
    (teardown_cluster fuel config_file yes workers_only override_cluster_name
                      keep_min_workers).
Proof.
  unfold teardown_cluster.
  apply raises_bind; [raises_tac | intros].
  apply raises_bind; [raises_tac | intros].
  apply raises_bind; [raises_tac | intros].
  apply raises_bind; [raises_tac | intros].
  eapply raises_mono; [|apply teardown_after_prompt_raises].
  intros []; cbn; intros; first [discriminate | reflexivity].
Qed.
End StopAttempt.

(** X9.  A stop attempt that finds no head node does not stop the
    teardown.  When [teardown_cluster] without [workers_only] gets an empty
    listing of the head nodes from its attempt to run "ray stop", no command
    is run, the look-up's "not found" error is not what the teardown ends
    in, the next listing, if there is one, is of the workers, and there is
    one whenever the teardown returns. *)
Theorem teardown_without_head {E} `{!Environment E} `{!Externals}
    fuel config_file yes override_cluster_name keep_min_workers (w : World E) :
  let o := teardown_cluster fuel config_file yes false override_cluster_name
                            keep_min_workers w in
  head (queries (trace o)) = Some (head_filter, []) ->
  runs (trace o) = [] /\
  (forall config, res o <> Exc (head_not_found config)) /\
  exists rest,
    queries (trace o) = (head_filter, []) :: rest /\
    (forall q, head rest = Some q -> q.1 = worker_filter) /\
    (res o = Ret tt -> rest <> []).
Proof.
  cbv zeta. intros Hhead.
  destruct (wp_elim _ _ _ (teardown_cluster_without_head fuel config_file yes
                             override_cluster_name keep_min_workers w) Hhead)
    as (workers & rest & Hq & Hr).
  split; [exact Hr|]. split.
  - intros config Hres.
    pose proof (teardown_cluster_raises fuel config_file yes false
                  override_cluster_name keep_min_workers w _ Hres) as Hallowed.
    discriminate Hallowed.
  - exists ((worker_filter, workers) :: rest). split; [exact Hq|].
    split; [intros q [= <-]; reflexivity | discriminate].
Qed.

Lemma teardown_without_head_witness :
  let w := Fake.world (Fake.with_nodes [Fake.node "w1" Fake.worker_tags;
                                        Fake.node "w2" Fake.worker_tags]
                                       Fake.env0)
                      Fake.base_config in
  let o := teardown_cluster 5 "cluster.yaml" true false None false w in
  res o = Ret tt /\
  provider_writes (trace o) = [terminate_nodes_ev ["w1"; "w2"]] /\
  runs (trace o) = [] /\
  (forall config, res o <> Exc (head_not_found config)) /\
  exists rest,
    queries (trace o) = (head_filter, []) :: rest /\
    (forall q, head rest = Some q -> q.1 = worker_filter) /\
    (res o = Ret tt -> rest <> []).
Proof.
  cbv zeta. split; [vm_compute; reflexivity|].
  split; [vm_compute; reflexivity|].
  apply (teardown_without_head 5%nat "cluster.yaml" true None false
           (Fake.world (Fake.with_nodes [Fake.node "w1" Fake.worker_tags;
                                         Fake.node "w2" Fake.worker_tags]
                                        Fake.env0)
                       Fake.base_config)).
  vm_compute. reflexivity.
Defined.

(** ** Config resolution: rejection, the cache switched off, the round trip *)

Section Config.
Context {E : Type} `{!Environment E} `{!Externals}.

Lemma bootstrap_config_miss config no_config_cache (w : World E) :
  no_config_cache = true \/
    fs w !! cache_key_of (prepare_config config) = None ->
  bool_decide (is_Some (fs w !! cache_key_of (prepare_config config)))
    && negb no_config_cache = false.
Proof.
  intros [-> | ->]; [apply andb_false_r|].
  rewrite bool_decide_eq_false_2; [reflexivity|]. intros [? ?]; discriminate.
Qed.

Lemma bootstrap_config_rejected config no_config_cache (w : World E) :
  no_config_cache = true \/
    fs w !! cache_key_of (prepare_config config) = None ->
  wp (_bootstrap_config config no_config_cache) w
     (fun r w' t =>
        let c := prepare_config config in
        (validate_config c = false ->
         r = Exc InvalidConfig /\ w' = w /\ t = [validate_config_ev c false]) /\
        (validate_config c = true ->
         NODE_PROVIDERS (provider_type (provider c)) = false ->
         r = Exc (NotImplementedError
                    ("Unsupported provider " +:+ format_provider (provider c))) /\
         w' = w /\ t = [validate_config_ev c true])).
Proof.
  intros Hmiss. unfold _bootstrap_config. wp_steps.
  rewrite (bootstrap_config_miss _ _ _ Hmiss).
  unfold validate. wp_steps.
  destruct (validate_config (prepare_config config)) eqn:Hvalid.
  - wp_steps.
    destruct (NODE_PROVIDERS _) eqn:Hsupported; cbn [negb]; wp_steps.
    + destruct no_config_cache; cbn [negb]; wp_steps;
        (split; [discriminate | intros _ [=]]).
    + split; [discriminate|]. intros _ _. destruct w. auto.
  - wp_steps. split; [|discriminate]. intros _. destruct w. auto.
Qed.

Lemma bootstrap_config_uncached_run config (w : World E) :
  wp (_bootstrap_config config true) w
     (fun r w' t =>
        fs w' = fs w /\ cfg w' = cfg w /\
        Forall (fun ev => is_file_call ev = false) t /\
        forall resolved,
          r = Ret resolved ->
          resolved = (env_bootstrap_config (prepare_config config) (env w)).1).
Proof.
  unfold _bootstrap_config. wp_steps. rewrite andb_false_r.
  unfold validate. wp_steps.
  destruct (validate_config (prepare_config config)).
  - wp_steps. destruct (NODE_PROVIDERS _); cbn [negb]; wp_steps.
    + cbn. repeat split; [repeat constructor | congruence].
    + cbn. repeat split; [repeat constructor | discriminate].
  - wp_steps. cbn. repeat split; [repeat constructor | discriminate].
Qed.
End Config.

(** X18.  A config that is not served from the cache is checked before the
    provider sees it: an invalid one raises [InvalidConfig], a valid one of
    an unsupported provider type raises [NotImplementedError] with the
    provider section formatted into its message; in both cases the
    provider's bootstrap was not called and nothing was cached. *)
Theorem bootstrap_config_rejects {E} `{!Environment E} `{!Externals}
    config no_config_cache (w : World E) :
  let c := prepare_config config in
  let o := _bootstrap_config config no_config_cache w in
  no_config_cache = true \/ fs w !! cache_key_of c = None ->
  (validate_config c = false ->
   res o = Exc InvalidConfig /\ final o = w /\
   trace o = [validate_config_ev c false]) /\
  (validate_config c = true ->
   NODE_PROVIDERS (provider_type (provider c)) = false ->
   res o = Exc (NotImplementedError
                  ("Unsupported provider " +:+ format_provider (provider c))) /\
   final o = w /\ trace o = [validate_config_ev c true]).
Proof.
  cbv zeta. intros Hmiss.
  exact (wp_elim _ _ _ (bootstrap_config_rejected config no_config_cache w Hmiss)).
Qed.

Lemma bootstrap_config_rejects_witness :
  let config := set_cluster_name "" Fake.base_config in
  let w := Fake.world Fake.env0 Fake.base_config in
  let o := _bootstrap_config config false w in
  res o = Exc InvalidConfig /\ final o = w /\
  trace o = [validate_config_ev (prepare_config config) false].
Proof.
  cbv zeta.
  apply (bootstrap_config_rejects (set_cluster_name "" Fake.base_config) false
           (Fake.world Fake.env0 Fake.base_config)).
  - right. vm_compute. reflexivity.
  - vm_compute. reflexivity.
Defined.

(** X19.  With the cache switched off, [_bootstrap_config] leaves the local
    files alone, reading and writing none, and what it returns is always
    the provider's answer to this very call. *)
Theorem bootstrap_config_uncached {E} `{!Environment E} `{!Externals}
    config (w : World E) :
  let o := _bootstrap_config config true w in
  fs (final o) = fs w /\ cfg (final o) = cfg w /\
  Forall (fun ev => is_file_call ev = false) (trace o) /\
  forall resolved,
    res o = Ret resolved ->
    resolved = (env_bootstrap_config (prepare_config config) (env w)).1.
Proof.
  cbv zeta. exact (wp_elim _ _ _ (bootstrap_config_uncached_run config w)).
Qed.

(** X20.  The cache round trip.  After a run of [_bootstrap_config] that
    resolved a config and cached it, a second run on the same config makes
    no call to the provider and does not validate: it reads the cache file
    and returns what [json.loads] makes of the [json.dumps] of the first
    result, leaving everything as the first run left it. *)
Theorem bootstrap_config_round_trip {E} `{!Environment E} `{!Externals}
    config (w : World E) :
  let c := prepare_config config in
  let o1 := _bootstrap_config config false w in
  let o2 := _bootstrap_config config false (final o1) in
  fs w !! cache_key_of c = None ->
  validate_config c = true ->
  NODE_PROVIDERS (provider_type (provider c)) = true ->
  exists resolved,
    res o1 = Ret resolved /\
    res o2 = match json_loads (json_dumps resolved) with
             | Some cached => Ret cached
             | None => Exc JSONDecodeError
             end /\
    final o2 = final o1 /\
    trace o2 = [read_ev (cache_key_of c)].
Proof.
  cbv zeta. intros Hmiss Hvalid Hsupported.
  pose proof (wp_elim _ _ _ (bootstrap_config_resolved config false w
                               (or_intror Hmiss) Hvalid Hsupported))
    as (Hr1 & _ & _ & Hfs1 & _).
  cbv zeta in Hr1, Hfs1.
  exists (env_bootstrap_config (prepare_config config) (env w)).1.
  split; [exact Hr1|].
  apply (wp_elim _ _ _ (bootstrap_config_cached config _ _
                          ltac:(rewrite Hfs1; apply lookup_insert_eq))).
Qed.

Lemma bootstrap_config_round_trip_witness :
  let w := mkWorld Fake.env0 ∅ Fake.base_config in
  let o1 := _bootstrap_config Fake.base_config false w in
  let o2 := _bootstrap_config Fake.base_config false (final o1) in
  exists resolved,
    res o1 = Ret resolved /\
    res o2 = match json_loads (json_dumps resolved) with
             | Some cached => Ret cached
             | None => Exc JSONDecodeError
             end /\
    final o2 = final o1 /\
    trace o2 = [read_ev (cache_key_of (prepare_config Fake.base_config))].
Proof.
  cbv zeta.
  apply (bootstrap_config_round_trip Fake.base_config
           (mkWorld Fake.env0 ∅ Fake.base_config));
    vm_compute; reflexivity.
Defined.

(** ** File transfers and address look-ups *)

Section Transfers.
Context {E : Type} `{!Environment E} `{!Externals}.

Lemma transfers_app t1 t2 :
  transfers (t1 ++ t2) = (transfers t1 ++ transfers t2)%list.
Proof. apply omap_app. Qed.

Lemma addresses_app t1 t2 :
  addresses (t1 ++ t2) = (addresses t1 ++ addresses t2)%list.
Proof. apply omap_app. Qed.

Lemma resolution_call_quiet t :
  Forall (fun ev => resolution_call ev = true) t ->
  transfers t = [] /\ queries t = [].
Proof.
  induction 1 as [|ev t Hev _ [IHt IHq]]; [split; reflexivity|].
  destruct ev; try discriminate Hev; split; assumption.
Qed.

Lemma for_each_transfers source target down (nodes : list node_id) (w : World E) :
  wp (for_each nodes
        (fun node =>
           config <- get_config;;
           let updater := plain_updater node config in
           match source, target with
           | Some src, Some tgt =>
               if nonempty_str src && nonempty_str tgt
               then call_ (env_rsync updater down src tgt)
                          (rsync_ev updater down src tgt)
               else call_ (env_sync_file_mounts updater down)
                          (sync_file_mounts_ev updater down)
           | _, _ => call_ (env_sync_file_mounts updater down)
                           (sync_file_mounts_ev updater down)
           end)) w
     (fun r w' t =>
        r = Ret tt /\ cfg w' = cfg w /\ queries t = [] /\
        transfers t =
          map (fun n => (n, down, transfer_of source target)) nodes).
Proof.
  revert w. induction nodes as [|n nodes IH]; intros w; cbn [for_each].
  - apply wp_ret. auto.
  - apply wp_bind.
    assert (Hone : wp (config <- get_config;;
                       let updater := plain_updater n config in
                       match source, target with
                       | Some src, Some tgt =>
                           if nonempty_str src && nonempty_str tgt
                           then call_ (env_rsync updater down src tgt)
                                      (rsync_ev updater down src tgt)
                           else call_ (env_sync_file_mounts updater down)
                                      (sync_file_mounts_ev updater down)
                       | _, _ => call_ (env_sync_file_mounts updater down)
                                       (sync_file_mounts_ev updater down)
                       end) w
                    (fun r w' t =>
                       r = Ret tt /\ cfg w' = cfg w /\ queries t = [] /\
                       transfers t = [(n, down, transfer_of source target)])).
    { wp_steps. unfold transfer_of.
      destruct source as [src|], target as [tgt|];
        [destruct (nonempty_str src && nonempty_str tgt)|..];
        wp_steps; auto. }
    eapply wp_mono; [exact Hone|].
    intros r w1 t1 (-> & Hcfg1 & Hq1 & Ht1).
    eapply wp_mono; [apply IH|].
    intros r w2 t2 (-> & Hcfg2 & Hq2 & Ht2).
    rewrite queries_app, transfers_app, Hq1, Hq2, Ht1, Ht2.
    repeat split; congruence.
Qed.

Lemma get_worker_nodes_run override_cluster_name (w : World E) :
  wp (_get_worker_nodes override_cluster_name) w
     (fun r w' t =>
        exists workers,
          r = Ret workers /\
          cfg w' = override_with set_cluster_name override_cluster_name (cfg w) /\
          queries t = [(worker_filter, workers)] /\
          transfers t = []).
Proof. unfold _get_worker_nodes. wp_steps. cbn. eauto. Qed.

Lemma rsync_run config_file source target override_cluster_name down all_nodes
    (w : World E) :
  wp (rsync config_file source target override_cluster_name down all_nodes) w
     (fun r _ t =>
        match r with
        | Ret _ =>
            exists workers head_id heads,
              queries t =
                ((if all_nodes then [(worker_filter, workers)] else []) ++
                 [(head_filter, head_id :: heads)])%list /\
              transfers t =
                map (fun n => (n, down, transfer_of source target))
                    ((if all_nodes then workers else []) ++ [head_id])
        | _ => transfers t = []
        end).
Proof.
  unfold rsync.
  destruct (negb _); [apply wp_raise; reflexivity|].
  apply (wp_bind_only resolution_call); [unfold load_config; only_tac| |
    intros; apply resolution_call_quiet; assumption..].
  intros c0 w0 t0 Ht0. destruct (resolution_call_quiet _ Ht0) as [Htr0 Hq0].
  apply (wp_bind_only resolution_call); [only_tac| |
    intros; cbn; rewrite transfers_app, Htr0;
    apply resolution_call_quiet; assumption..].
  intros c1 w1 t1 Ht1. destruct (resolution_call_quiet _ Ht1) as [Htr1 Hq1].
  wp_steps.
  assert (Hnodes :
            wp (if all_nodes then _get_worker_nodes override_cluster_name
                else ret [])
               (mkWorld (env_get_node_provider (provider c1) (cluster_name c1)
                           (env w1)) (fs w1) c1)
               (fun r w' t =>
                  exists workers,
                    r = Ret (if all_nodes then workers else []) /\
                    queries t = (if all_nodes then [(worker_filter, workers)]
                                 else []) /\
                    transfers t = [])).
  { destruct all_nodes.
    - eapply wp_mono; [apply get_worker_nodes_run|].
      intros r w' t (workers & -> & _ & Hq & Htr). eauto.
    - apply wp_ret. exists []. auto. }
  eapply wp_mono; [exact Hnodes|].
  intros r w2 t2 (workers & -> & Hq2 & Htr2).
  apply wp_bind. eapply wp_mono; [apply get_head_node_run|].
  intros r w3 t3 (nodes & rest & -> & Hlook).
  destruct nodes as [|head_id heads].
  - destruct Hlook as (-> & -> & _).
    cbv beta iota. rewrite !transfers_app, Htr0, Htr1, Htr2. reflexivity.
  - destruct Hlook as (-> & -> & _).
    eapply wp_mono; [apply for_each_transfers|].
    intros r w4 t4 (-> & _ & Hq4 & Htr4).
    exists workers, head_id, heads.
    rewrite !queries_app, !transfers_app, Hq0, Hq1, Hq2, Hq4, Htr0, Htr1, Htr2, Htr4.
    split; [destruct all_nodes; reflexivity|].
    change (transfers [cleanup_ev]) with (@nil (node_id * bool * option (string * string))).
    rewrite app_nil_r. reflexivity.
Qed.
End Transfers.

Lemma transfers_as_given source target down (nodes : list node_id) :
  Forall (fun tr : node_id * bool * option (string * string) =>
            tr.1.2 = down /\ tr.2 = transfer_of source target)
         (map (fun n => (n, down, transfer_of source target)) nodes).
Proof. apply Forall_map, Forall_forall. intros n _. split; reflexivity. Qed.

(** X21.  When [rsync] returns, it has made one transfer per node, first to
    the workers in the order the provider listed them (with [all_nodes];
    none without) and last to the first head node listed.  It makes no
    transfer unless a head node was listed: with no head node found nothing
    is transferred, also not to the workers it already listed.  Every
    transfer it makes is in the direction [down], of the given pair of
    paths, or of the file mounts when source and target are not given. *)
Theorem rsync_transfers {E} `{!Environment E} `{!Externals}
    config_file source target override_cluster_name down all_nodes
    (w : World E) :
  let o := rsync config_file source target override_cluster_name down
                 all_nodes w in
  (res o = Ret tt ->
   exists workers head_id heads,
     queries (trace o) =
       ((if all_nodes then [(worker_filter, workers)] else []) ++
        [(head_filter, head_id :: heads)])%list /\
     transfers (trace o) =
       map (fun n => (n, down, transfer_of source target))
           ((if all_nodes then workers else []) ++ [head_id])) /\
  ((forall head_id heads,
       (head_filter, head_id :: heads) ∉ queries (trace o)) ->
   transfers (trace o) = []) /\
  Forall (fun tr : node_id * bool * option (string * string) =>
            tr.1.2 = down /\ tr.2 = transfer_of source target)
         (transfers (trace o)).
Proof.
  cbv zeta.
  pose proof (wp_elim _ _ _ (rsync_run config_file source target
                               override_cluster_name down all_nodes w)) as Hrun.
  cbv beta in Hrun.
  destruct (res _) as [[]| |].
  - destruct Hrun as (workers & head_id & heads & Hq & Htr).
    split; [intros _; exists workers, head_id, heads; auto|]. split.
    + intros Hnone. exfalso. apply (Hnone head_id heads).
      rewrite Hq. apply elem_of_app. right. apply list_elem_of_singleton.
      reflexivity.
    + rewrite Htr. apply transfers_as_given.
  - rewrite Hrun. split; [discriminate|]. split; [reflexivity | constructor].
  - rewrite Hrun. split; [discriminate|]. split; [reflexivity | constructor].
Qed.

Section Addresses.
Context {E : Type} `{!Environment E} `{!Externals}.

Lemma map_each_addresses (internal : bool) (nodes : list node_id) (w : World E) :
  wp (if internal then map_each internal_ip nodes
      else map_each external_ip nodes) w
     (fun r w' t =>
        exists ips,
          r = Ret ips /\
          length ips = length nodes /\
          queries t = [] /\
          addresses t = map (fun p => (p.1, p.2, internal)) (zip nodes ips)).
Proof.
  revert w. induction nodes as [|n nodes IH]; intros w.
  - destruct internal; apply wp_ret; exists []; auto.
  - specialize (IH).
    destruct internal; cbn [map_each]; unfold internal_ip, external_ip;
      wp_steps.
    + eapply wp_mono; [apply (IH _)|].
      intros r w' t (ips & -> & Hlen & Hq & Ha). wp_steps.
      eexists (_ :: ips). split; [reflexivity|]. cbn [length].
      split; [congruence|].
      rewrite !queries_app, !addresses_app, Hq, Ha, !app_nil_r.
      split; reflexivity.
    + eapply wp_mono; [apply (IH _)|].
      intros r w' t (ips & -> & Hlen & Hq & Ha). wp_steps.
      eexists (_ :: ips). split; [reflexivity|]. cbn [length].
      split; [congruence|].
      rewrite !queries_app, !addresses_app, Hq, Ha, !app_nil_r.
      split; reflexivity.
Qed.

Lemma get_head_node_ip_run config_file override_cluster_name (w : World E)
    text c0 :
  fs w !! config_file = Some text ->
  yaml_safe_load text = Some c0 ->
  wp (get_head_node_ip config_file override_cluster_name) w
     (fun r _ t =>
        let c := override_with set_cluster_name override_cluster_name c0 in
        exists nodes,
          queries t = [(head_filter, nodes)] /\
          opened t = 2%nat /\ released t = 2%nat /\
          match nodes with
          | head_id :: _ =>
              exists ip,
                r = Ret ip /\
                addresses t = [(head_id, ip, use_internal_ips (provider c))]
          | [] => r = Exc (head_not_found c) /\ addresses t = []
          end).
Proof.
  intros Hfile Hyaml. unfold get_head_node_ip, load_config.
  apply wp_bind, wp_bind, wp_read_file. rewrite Hfile, Hyaml.
  wp_steps. eapply wp_mono; [apply get_head_node_run|].
  cbn [cfg]. intros r w1 t1 (nodes & rest & -> & Hlook).
  destruct nodes as [|head_id heads]; destruct Hlook as (-> & -> & Hcfg & _).
  - exists []. repeat split; reflexivity.
  - wp_steps. cbn [cfg]. rewrite Hcfg.
    destruct (use_internal_ips _); unfold internal_ip, external_ip; wp_steps;
      exists (head_id :: heads);
      (split; [reflexivity|]); (split; [reflexivity|]);
      (split; [reflexivity|]); eexists; split; reflexivity.
Qed.

Lemma get_worker_node_ips_run config_file override_cluster_name (w : World E)
    text c0 :
  fs w !! config_file = Some text ->
  yaml_safe_load text = Some c0 ->
  wp (get_worker_node_ips config_file override_cluster_name) w
     (fun r _ t =>
        let c := override_with set_cluster_name override_cluster_name c0 in
        exists workers ips,
          r = Ret ips /\
          length ips = length workers /\
          queries t = [(worker_filter, workers)] /\
          addresses t =
            map (fun p => (p.1, p.2, use_internal_ips (provider c)))
                (zip workers ips)).
Proof.
  intros Hfile Hyaml. unfold get_worker_node_ips, load_config.
  apply wp_bind, wp_bind, wp_read_file. rewrite Hfile, Hyaml.
  wp_steps. eapply wp_mono; [apply map_each_addresses|].
  intros r w1 t1 (ips & -> & Hlen & Hq & Ha).
  eexists _, ips. split; [reflexivity|]. split; [exact Hlen|].
  rewrite !queries_app, !addresses_app, Hq, Ha.
  change (addresses [cleanup_ev]) with (@nil (node_id * string * bool)).
  rewrite !app_nil_r. split; reflexivity.
Qed.
End Addresses.

(** X22.  For a config file that holds a complete config.  When
    [get_head_node_ip] returns, it has listed the head nodes once and asked
    for one address, that of the first node listed, internal or external
    as the provider section says, and what it returns is the answer.  When
    the listing comes back empty it raises the not-found error and asks
    for no address.  In both cases it opened two providers and released
    both. *)
Theorem head_node_ip_lookup {E} `{!Environment E} `{!Externals}
    config_file override_cluster_name (w : World E) text c0 :
  fs w !! config_file = Some text ->
  yaml_safe_load text = Some c0 ->
  let c := override_with set_cluster_name override_cluster_name c0 in
  let o := get_head_node_ip config_file override_cluster_name w in
  (forall ip,
      res o = Ret ip ->
      exists head_id heads,
        queries (trace o) = [(head_filter, head_id :: heads)] /\
        addresses (trace o) = [(head_id, ip, use_internal_ips (provider c))] /\
        opened (trace o) = 2%nat /\ released (trace o) = 2%nat) /\
  (queries (trace o) = [(head_filter, [])] ->
   res o = Exc (head_not_found c) /\ addresses (trace o) = [] /\
   opened (trace o) = 2%nat /\ released (trace o) = 2%nat).
Proof.
  intros Hfile Hyaml. cbv zeta.
  pose proof (wp_elim _ _ _ (get_head_node_ip_run config_file
                               override_cluster_name w text c0 Hfile Hyaml))
    as (nodes & Hq & Ho & Hr & Hres).
  rewrite Hq, Ho, Hr. destruct nodes as [|head_id heads].
  - destruct Hres as [-> ->]. split; [discriminate | auto].
  - destruct Hres as (ip & -> & ->). split; [|discriminate].
    intros ip' [= <-]. exists head_id, heads. auto.
Qed.

Lemma head_node_ip_lookup_witness :
  let o := get_head_node_ip "cluster.yaml" None
             (Fake.world Inputs.three_workers Fake.base_config) in
  res o = Ret "52.0.0.head-1" /\
  exists head_id heads,
    queries (trace o) = [(head_filter, head_id :: heads)] /\
    addresses (trace o) = [(head_id, "52.0.0.head-1", false)] /\
    opened (trace o) = 2%nat /\ released (trace o) = 2%nat.
Proof.
  cbv zeta.
  assert (Hr : res (get_head_node_ip "cluster.yaml" None
                      (Fake.world Inputs.three_workers Fake.base_config))
               = Ret "52.0.0.head-1") by (vm_compute; reflexivity).
  split; [exact Hr|].
  refine (proj1 (head_node_ip_lookup "cluster.yaml" None
                   (Fake.world Inputs.three_workers Fake.base_config)
                   "cluster: default" Fake.base_config _ _) _ Hr);
    vm_compute; reflexivity.
Defined.

(** X23.  For a config file that holds a complete config.  When
    [get_worker_node_ips] returns, it has listed the workers once and asked
    for one address per worker listed, in the order listed, internal or
    external as the provider section says, and the list it returns holds
    the answers in that order. *)
Theorem worker_node_ips_lookup {E} `{!Environment E} `{!Externals}
    config_file override_cluster_name (w : World E) text c0 ips :
  fs w !! config_file = Some text ->
  yaml_safe_load text = Some c0 ->
  let c := override_with set_cluster_name override_cluster_name c0 in
  let o := get_worker_node_ips config_file override_cluster_name w in
  res o = Ret ips ->
  exists workers,
    length ips = length workers /\
    queries (trace o) = [(worker_filter, workers)] /\
    addresses (trace o) =
      map (fun p => (p.1, p.2, use_internal_ips (provider c)))
          (zip workers ips).
Proof.
  intros Hfile Hyaml. cbv zeta.
  pose proof (wp_elim _ _ _ (get_worker_node_ips_run config_file
                               override_cluster_name w text c0 Hfile Hyaml))
    as (workers & ips' & Hr & Hlen & Hq & Ha).
  rewrite Hr. intros [= <-]. exists workers. auto.
Qed.

Lemma worker_node_ips_lookup_witness :
  let o := get_worker_node_ips "cluster.yaml" None
             (Fake.world Inputs.three_workers Fake.base_config) in
  res o = Ret ["52.0.0.w1"; "52.0.0.w2"; "52.0.0.w3"] /\
  exists workers,
    length ["52.0.0.w1"; "52.0.0.w2"; "52.0.0.w3"] = length workers /\
    queries (trace o) = [(worker_filter, workers)] /\
    addresses (trace o) =
      map (fun p => (p.1, p.2, false))
          (zip workers ["52.0.0.w1"; "52.0.0.w2"; "52.0.0.w3"]).
Proof.
  cbv zeta.
  assert (Hr : res (get_worker_node_ips "cluster.yaml" None
                      (Fake.world Inputs.three_workers Fake.base_config))
               = Ret ["52.0.0.w1"; "52.0.0.w2"; "52.0.0.w3"])
    by (vm_compute; reflexivity).
  split; [exact Hr|].
  refine (worker_node_ips_lookup "cluster.yaml" None
            (Fake.world Inputs.three_workers Fake.base_config)
            "cluster: default" Fake.base_config _ _ _ Hr);
    vm_compute; reflexivity.
Defined.

(** ** Head-node reconciliation: the updater's exit code, the first node *)

Section Reconcile.
Context `{!Externals}.

Lemma exit_codes_app t1 t2 :
  exit_codes (t1 ++ t2) = (exit_codes t1 ++ exit_codes t2)%list.
Proof. apply omap_app. Qed.

Lemma exit_codes_cons ev t :
  exit_codes (ev :: t) =
  match ev with updater_ev _ code => code :: exit_codes t | _ => exit_codes t end.
Proof. destruct ev; reflexivity. Qed.

Lemma no_updaters_no_exit_codes t : updaters t = [] -> exit_codes t = [].
Proof.
  induction t as [|ev t IH]; [reflexivity|].
  rewrite updaters_cons, exit_codes_cons.
  destruct ev; try exact IH. discriminate.
Qed.

Lemma decision_raises_abort config e td : decision config (Exc e) td -> e = Abort.
Proof. inversion 1; reflexivity. Qed.

Lemma poll_trace_raises start tags t e :
  poll_trace start tags t (Exc e) -> exists msg, e = RuntimeError msg.
Proof.
  remember (Exc e) as r eqn:Hr. induction 1; try discriminate; auto.
  injection Hr as <-. eauto.
Qed.

Lemma reconciliation_exit_codes config no_restart restart_only r config' t :
  reconciliation config no_restart restart_only r config' t ->
  match exit_codes t with
  | [] => r <> Ret tt /\ (forall code, r <> Exc (SystemExit code))
  | [code] => r = if bool_decide (code = 0) then Ret tt else Exc (SystemExit 1)
  | _ => False
  end.
Proof.
  destruct 1 as [e td Hd | tags td start tw e Hd Hp | tags td start tw Hd Hp
                | tags td start tw head_id r config' tu Hd Hp Hu];
    rewrite exit_codes_cons, exit_codes_app,
      (no_updaters_no_exit_codes _ (decision_quiet _ _ _ Hd));
    cbn [app].
  - rewrite (decision_raises_abort _ _ _ Hd). split; [discriminate|].
    intros code. discriminate.
  - rewrite exit_codes_cons, exit_codes_app.
    destruct (poll_trace_quiet _ _ _ _ Hp) as (_ & _ & Hu).
    rewrite (no_updaters_no_exit_codes _ Hu).
    destruct (poll_trace_raises _ _ _ _ Hp) as [msg ->].
    split; [discriminate|]. intros code. discriminate.
  - rewrite exit_codes_cons.
    destruct (poll_trace_quiet _ _ _ _ Hp) as (_ & _ & Hu).
    rewrite (no_updaters_no_exit_codes _ Hu).
    split; [discriminate|]. intros code. discriminate.
  - rewrite exit_codes_cons, !exit_codes_app.
    destruct (poll_trace_quiet _ _ _ _ Hp) as (_ & _ & Hup).
    rewrite (no_updaters_no_exit_codes _ Hup).
    destruct Hu as [f Hm | f mounts code nodes ip Hm].
    + split; [discriminate|]. intros code. discriminate.
    + cbn. destruct (use_internal_ips _); cbn;
        destruct (bool_decide (code = 0)); reflexivity.
Qed.
End Reconcile.

(** X24.  Reconciliation runs the updater at most once, and its outcome is
    the updater's: it returns only if the updater ran and exited with 0,
    and it raises [SystemExit], with code 1, exactly when the updater ran
    and exited with another code. *)
Theorem updater_exit_code_decides {E} `{!Environment E} `{!Externals}
    fuel config_file no_restart restart_only yes override_cluster_name
    (w : World E) :
  let o := get_or_create_head_node fuel config_file no_restart restart_only yes
                                   override_cluster_name w in
  match exit_codes (trace o) with
  | [] => res o <> Ret tt /\ (forall code, res o <> Exc (SystemExit code))
  | [code] =>
      res o = if bool_decide (code = 0) then Ret tt else Exc (SystemExit 1)
  | _ => False
  end.
Proof.
  cbv zeta.
  exact (reconciliation_exit_codes _ _ _ _ _ _
           (wp_elim _ _ _ (get_or_create_head_node_run fuel config_file
                             no_restart restart_only yes override_cluster_name w))).
Qed.

(** X25.  The first node.  When the provider lists no head node and the
    operator does not decline, reconciliation creates exactly one node,
    from the head launch spec, tagged as head with the launch hash and the
    name ["ray-<cluster>-head"]; it terminates nothing and reads no tags. *)
Theorem first_head_is_created {E} `{!Environment E} `{!Externals}
    fuel config_file no_restart restart_only yes override_cluster_name
    (w : World E) :
  let o := get_or_create_head_node fuel config_file no_restart restart_only yes
                                   override_cluster_name w in
  head (queries (trace o)) = Some (head_filter, []) ->
  res o <> Exc Abort ->
  provider_writes (trace o) =
    [create_node_ev (head_node (cfg w))
       (<[ TAG_RAY_NODE_NAME := "ray-" +:+ cluster_name (cfg w) +:+ "-head" ]>
          (<[ TAG_RAY_LAUNCH_CONFIG :=
                hash_launch_conf (head_node (cfg w)) (auth (cfg w)) ]>
             {[ TAG_RAY_NODE_TYPE := NODE_TYPE_HEAD ]}))
       1%nat] /\
  tags_read (trace o) = [].
Proof.
  cbv zeta. intros Hlisted Hnot.
  pose proof (wp_elim _ _ _ (get_or_create_head_node_run fuel config_file
                no_restart restart_only yes override_cluster_name w)) as HR.
  cbv beta in HR.
  apply reconciliation_decision in HR as (rd & td & Hd & Hw & Hr & Hq & Ha).
  rewrite Hw, Hr. rewrite Hq in Hlisted.
  inversion Hd as [t nodes Hqt _ Hpw | t Hqt _ Htr Hpw
                  | t h' rest' tags' Hqt _ Htr Hfresh Hpw
                  | t h' rest' tags' Hqt _ Htr Hold Hpw]; subst;
    rewrite Hqt in Hlisted; cbn in Hlisted.
  - destruct (Hnot (proj2 Ha eq_refl)).
  - split; assumption.
  - discriminate.
  - discriminate.
Qed.

Lemma first_head_is_created_witness :
  let o := get_or_create_head_node 60 "cluster.yaml" false false true None
             (Fake.world Fake.env0 Fake.base_config) in
  provider_writes (trace o) =
    [create_node_ev (head_node Fake.base_config)
       (<[ TAG_RAY_NODE_NAME :=
             "ray-" +:+ cluster_name Fake.base_config +:+ "-head" ]>
          (<[ TAG_RAY_LAUNCH_CONFIG :=
                hash_launch_conf (head_node Fake.base_config)
                                 (auth Fake.base_config) ]>
             {[ TAG_RAY_NODE_TYPE := NODE_TYPE_HEAD ]}))
       1%nat] /\
  tags_read (trace o) = [].
Proof.
  cbv zeta.
  apply (first_head_is_created 60%nat "cluster.yaml" false false true None
           (Fake.world Fake.env0 Fake.base_config)).
  - vm_compute. reflexivity.
  - vm_compute. discriminate.
Defined.

(** ** The start-command check, the debug string, resource requests *)

Lemma filter_nil_iff {A} (f : A -> bool) (l : list A) :
  List.filter f l = [] <-> forall x, x ∈ l -> f x = false.
Proof.
  induction l as [|a l IH]; cbn [List.filter].
  - split; [|reflexivity]. intros _ x Hx. apply elem_of_nil in Hx. destruct Hx.
  - destruct (f a) eqn:Hfa; split.
    + discriminate.
    + intros Hall. rewrite (Hall a) in Hfa by (apply elem_of_cons; auto).
      discriminate.
    + intros Hnil x Hx. apply elem_of_cons in Hx as [->|Hx]; [exact Hfa|].
      apply IH; assumption.
    + intros Hall. apply IH. intros x Hx. apply Hall, elem_of_cons. auto.
Qed.

Lemma existsb_filter_false {A} (f g : A -> bool) (l : list A) :
  existsb g (List.filter f l) = false <->
  forall x, x ∈ l -> f x = true -> g x = false.
Proof.
  induction l as [|a l IH]; cbn [List.filter existsb].
  - split; [|reflexivity]. intros _ x Hx. apply elem_of_nil in Hx. destruct Hx.
  - destruct (f a) eqn:Hfa; cbn [existsb]; rewrite ?orb_false_iff, IH; split.
    + intros [Hga Hall] x Hx Hfx.
      apply elem_of_cons in Hx as [->|Hx]; [exact Hga | exact (Hall x Hx Hfx)].
    + intros Hall. split; [apply Hall; [apply elem_of_cons; auto | exact Hfa]|].
      intros x Hx. apply Hall, elem_of_cons. auto.
    + intros Hall x Hx Hfx.
      apply elem_of_cons in Hx as [->|Hx]; [congruence | exact (Hall x Hx Hfx)].
    + intros Hall x Hx. apply Hall, elem_of_cons. auto.
Qed.

(** X26.  [warn_about_bad_start_command] warns that Ray is not started
    exactly when no start command contains ["ray start"], and that the
    autoscaling config is not set exactly when no command that contains
    ["ray start"] also contains ["autoscaling-config"]; so the first
    warning never comes without the second, and there is no warning
    exactly when some command contains both. *)
Theorem start_command_warnings (start_commands : list string) :
  let warnings := warn_about_bad_start_command start_commands in
  (ray_start_missing ∈ warnings <->
   forall c, c ∈ start_commands -> contains "ray start" c = false) /\
  (autoscaling_config_missing ∈ warnings <->
   forall c, c ∈ start_commands -> contains "ray start" c = true ->
             contains "autoscaling-config" c = false) /\
  (ray_start_missing ∈ warnings -> autoscaling_config_missing ∈ warnings) /\
  (warnings = [] <->
   exists c, c ∈ start_commands /\ contains "ray start" c = true /\
             contains "autoscaling-config" c = true).
Proof.
  cbv zeta. unfold warn_about_bad_start_command.
  set (started := List.filter (contains "ray start") start_commands).
  assert (Hfirst : (length started =? 0)%nat = true <->
                   forall c, c ∈ start_commands -> contains "ray start" c = false).
  { rewrite Nat.eqb_eq, length_zero_iff_nil. apply filter_nil_iff. }
  assert (Hsecond : existsb (contains "autoscaling-config") started = false <->
                    forall c, c ∈ start_commands -> contains "ray start" c = true ->
                              contains "autoscaling-config" c = false)
    by apply existsb_filter_false.
  assert (Himp : (length started =? 0)%nat = true ->
                 existsb (contains "autoscaling-config") started = false).
  { rewrite Nat.eqb_eq, length_zero_iff_nil. intros ->. reflexivity. }
  destruct (length started =? 0)%nat eqn:H1;
    destruct (existsb (contains "autoscaling-config") started) eqn:H2;
    cbn [negb app].
  - discriminate (Himp eq_refl).
  - repeat split.
    + intros _. apply Hfirst. reflexivity.
    + intros _. apply elem_of_cons. auto.
    + intros _. apply Hsecond. reflexivity.
    + intros _. apply elem_of_cons. right. apply elem_of_cons. auto.
    + intros _. apply elem_of_cons. right. apply elem_of_cons. auto.
    + discriminate.
    + intros (c & Hc & Hs & Ha).
      rewrite (proj1 Hfirst eq_refl c Hc) in Hs. discriminate.
  - repeat split.
    + intros Hin. apply elem_of_nil in Hin. destruct Hin.
    + intros Hall. apply Hfirst in Hall. discriminate.
    + intros Hin. apply elem_of_nil in Hin. destruct Hin.
    + intros Hall. apply Hsecond in Hall. discriminate.
    + intros Hin. apply elem_of_nil in Hin. destruct Hin.
    + intros _. apply existsb_exists in H2 as (c & Hc & Ha).
      apply filter_In in Hc as [Hc Hs]. exists c.
      split; [apply list_elem_of_In; exact Hc | auto].
  - repeat split.
    + intros Hin. apply elem_of_cons in Hin as [Hin|Hin]; [discriminate|].
      apply elem_of_nil in Hin. destruct Hin.
    + intros Hall. apply Hfirst in Hall. discriminate.
    + intros _. apply Hsecond. reflexivity.
    + intros _. apply elem_of_cons. auto.
    + intros Hin. apply elem_of_cons in Hin as [Hin|Hin]; [discriminate|].
      apply elem_of_nil in Hin. destruct Hin.
    + discriminate.
    + intros (c & Hc & Hs & Ha).
      rewrite (proj1 Hsecond eq_refl c Hc Hs) in Ha. discriminate.
Qed.

Section Requests.
Variables (address : string) (password : option string).

Lemma request_resources_client num_cpus bundles r :
  redis_client (request_resources address password num_cpus bundles r) =
    Some (default (address, password) (redis_client r)) /\
  clients_created (request_resources address password num_cpus bundles r) =
    (clients_created r ++
     match redis_client r with Some _ => [] | None => [(address, password)] end)%list.
Proof.
  unfold request_resources, _redis.
  destruct (redis_client r) as [client|] eqn:Hc;
    destruct num_cpus as [n|]; [destruct (0 <? n)| |destruct (0 <? n)|];
    destruct bundles as [[|b bs]|]; cbn; rewrite ?Hc, ?app_nil_r; auto.
Qed.
End Requests.

(** X27.  Resource requests share one Redis client: over any series of
    [request_resources] calls that starts without a client, the client is
    created by the first call and by no other.  Each call publishes at
    most two requests after those already published: the CPUs if a
    positive number was given, then the bundles if the list is not
    empty. *)
Theorem resource_requests address password :
  (forall calls r,
      redis_client r = None ->
      clients_created (request_all address password calls r) =
        (clients_created r ++
         match calls with [] => [] | _ :: _ => [(address, password)] end)%list) /\
  (forall num_cpus bundles r,
      published (request_resources address password num_cpus bundles r) =
        (published r ++
         match num_cpus with
         | Some n => if 0 <? n then [cpu_request n] else []
         | None => []
         end ++
         match bundles with
         | Some (b :: bs) => [bundles_request (b :: bs)]
         | _ => []
         end)%list).
Proof.
  split.
  - assert (Hkept : forall calls r client,
               redis_client r = Some client ->
               clients_created (request_all address password calls r) =
                 clients_created r).
    { induction calls as [|[n b] calls IH]; intros r client Hc; [reflexivity|].
      cbn [request_all foldl fst snd].
      destruct (request_resources_client address password n b r) as [Hc' Hcr].
      rewrite Hc in Hc', Hcr. cbn in Hc'. rewrite app_nil_r in Hcr.
      change (foldl _ ?r0 calls) with (request_all address password calls r0).
      rewrite (IH _ _ Hc'). exact Hcr. }
    intros [|[n b] calls] r Hc; [cbn; rewrite app_nil_r; reflexivity|].
    cbn [request_all foldl fst snd].
    destruct (request_resources_client address password n b r) as [Hc' Hcr].
    rewrite Hc in Hc', Hcr. cbn in Hc'.
    change (foldl _ ?r0 calls) with (request_all address password calls r0).
    rewrite (Hkept _ _ _ Hc'). exact Hcr.
  - intros num_cpus bundles r. unfold request_resources, _redis, publish.
    destruct (redis_client r); destruct num_cpus as [n|];
      [destruct (0 <? n)| |destruct (0 <? n)|];
      destruct bundles as [[|b bs]|]; cbn;
      rewrite <- ?app_assoc, ?app_nil_r; reflexivity.
Qed.

Lemma resource_requests_witness :
  let r0 := {| redis_client := None; clients_created := []; published := [] |} in
  clients_created
    (request_all "10.0.0.1:6379" None
       [(Some 4, None); (None, Some [{[ "CPU" := 1 ]}])] r0) =
  [("10.0.0.1:6379", None)].
Proof.
  cbv zeta.
  apply (proj1 (resource_requests "10.0.0.1:6379" None)
           [(Some 4, None); (None, Some [{[ "CPU" := 1 ]}])]
           {| redis_client := None; clients_created := []; published := [] |}).
  reflexivity.
Defined.

(** X28.  [debug_status] takes an empty stored value for a missing one: an
    empty status gives the text for no status, an empty error is not
    appended.  Its result is never empty. *)
Theorem debug_status_empty_values
    (DEBUG_AUTOSCALING_STATUS DEBUG_AUTOSCALING_ERROR : string)
    (kv : gmap string string) :
  DEBUG_AUTOSCALING_STATUS <> DEBUG_AUTOSCALING_ERROR ->
  debug_status DEBUG_AUTOSCALING_STATUS DEBUG_AUTOSCALING_ERROR
               (<[ DEBUG_AUTOSCALING_STATUS := "" ]> kv) =
  debug_status DEBUG_AUTOSCALING_STATUS DEBUG_AUTOSCALING_ERROR
               (delete DEBUG_AUTOSCALING_STATUS kv) /\
  debug_status DEBUG_AUTOSCALING_STATUS DEBUG_AUTOSCALING_ERROR
               (<[ DEBUG_AUTOSCALING_ERROR := "" ]> kv) =
  debug_status DEBUG_AUTOSCALING_STATUS DEBUG_AUTOSCALING_ERROR
               (delete DEBUG_AUTOSCALING_ERROR kv) /\
  debug_status DEBUG_AUTOSCALING_STATUS DEBUG_AUTOSCALING_ERROR kv <> "".
Proof.
  intros Hne. unfold debug_status. repeat split.
  - rewrite lookup_insert_eq, lookup_delete_eq.
    rewrite (lookup_insert_ne kv _ _ _ Hne), (lookup_delete_ne kv _ _ Hne).
    reflexivity.
  - rewrite lookup_insert_eq, lookup_delete_eq.
    rewrite (lookup_insert_ne kv _ _ _ (not_eq_sym Hne)),
            (lookup_delete_ne kv _ _ (not_eq_sym Hne)).
    reflexivity.
  - destruct (kv !! DEBUG_AUTOSCALING_STATUS) as [[|a status]|];
      destruct (kv !! DEBUG_AUTOSCALING_ERROR) as [[|b error]|];
      cbn; discriminate.
Qed.

Lemma debug_status_empty_values_witness :
  debug_status "status" "error" (<[ "status" := "" ]> ∅) = "No cluster status." /\
  debug_status "status" "error" (<[ "status" := "" ]> ∅) =
  debug_status "status" "error" (delete "status" ∅).
Proof.
  split; [vm_compute; reflexivity|].
  apply (debug_status_empty_values "status" "error" ∅). discriminate.
Defined.
